(** * Inventory audit tool: checkpoints, page tests and health score

    A shallow embedding of [src/audit_logs/audit_system.py].

    The Python program keeps all of its state on disk, below the audit
    directory: the session document, the checkpoint counter, the
    checkpoint snapshots, the per-page result files and the reports.  The
    three classes ([CheckpointManager], [PageTester],
    [InventoryAuditSystem]) hold no mutable attribute of their own, so a
    program state is a file tree ([FS]) together with the positions reached
    on the inputs the program takes from outside (clock, HTTP server,
    uuid generator).  Methods are computations in a state-and-exception
    monad over that state; a raised exception keeps the files written
    before it, as on a real disk.

    Conventions of the model:
    - Python [int] is [Z]; Python [str] is [string] with ASCII case
      mapping; [bytes] is [list Byte.byte].
    - A JSON document with a fixed key set is a record; [json.dump]
      followed by [json.load] is the identity on the documents written here.
    - [round(x, 1)] values are kept as an integer number of tenths.
    - A directory is a finite map from file names to contents; page names
      hold no path separator, so a file name built from one stays in its
      directory.
    - [AuditLogger.log] only prints and appends to [master_audit.log], which
      nothing reads back; it is left out, and so is the Markdown text of the
      reports (its inputs are kept). *)

From Stdlib Require Import ZArith String Ascii DecimalString Decimal DecimalZ
  DecimalPos Sorted.
From stdpp Require Import base tactics option list strings gmap.

#[global] Set Warnings "-clear-no-such-hyp".

Open Scope string_scope.
Open Scope list_scope.
Open Scope Z_scope.

(** ** Python strings *)

Module Py.

Definition is_ascii_lower (c : ascii) : bool :=
  (97 <=? nat_of_ascii c)%nat && (nat_of_ascii c <=? 122)%nat.

Definition is_ascii_upper (c : ascii) : bool :=
  (65 <=? nat_of_ascii c)%nat && (nat_of_ascii c <=? 90)%nat.

(** [str.upper] and [str.lower] on ASCII text; other bytes are kept. *)
Fixpoint upper (s : string) : string :=
  match s with
  | EmptyString => EmptyString
  | String c s' =>
      String (if is_ascii_lower c then ascii_of_nat (nat_of_ascii c - 32) else c)
             (upper s')
  end.

Fixpoint lower (s : string) : string :=
  match s with
  | EmptyString => EmptyString
  | String c s' =>
      String (if is_ascii_upper c then ascii_of_nat (nat_of_ascii c + 32) else c)
             (lower s')
  end.

(** [needle in hay] on strings. *)
Fixpoint str_in (needle hay : string) : bool :=
  String.prefix needle hay ||
  match hay with
  | EmptyString => false
  | String _ hay' => str_in needle hay'
  end.

(** [hay.count(needle)] for a non-empty needle: occurrences that do not
    overlap, scanning from the left.  [skip] is the number of characters
    still covered by the occurrence found last. *)
Fixpoint count_from (needle : string) (skip : nat) (hay : string) : Z :=
  match hay with
  | EmptyString => 0
  | String _ hay' =>
      match skip with
      | S k => count_from needle k hay'
      | O =>
          if String.prefix needle hay
          then 1 + count_from needle (String.length needle - 1) hay'
          else count_from needle 0 hay'
      end
  end.

Definition count (hay needle : string) : Z := count_from needle 0 hay.

(** [any(term in content for term in terms)]. *)
Definition any_in (terms : list string) (content : string) : bool :=
  existsb (fun term => str_in term content) terms.

(** [str(n)] for an integer. *)
Definition str (n : Z) : string := NilZero.string_of_int (Z.to_int n).

Fixpoint zeros (n : nat) : string :=
  match n with
  | O => EmptyString
  | S k => String "0" (zeros k)
  end.

(** The format [{n:03d}]: sign first, then zeros up to a width of three. *)
Definition format_03d (n : Z) : string :=
  let sign := if n <? 0 then "-" else EmptyString in
  let digits := str (Z.abs n) in
  sign +:+ zeros (3 - String.length sign - String.length digits) +:+ digits.

(** [s] between two double-quote characters. *)
Definition quoted (s : string) : string :=
  String (ascii_of_nat 34) s +:+ String (ascii_of_nat 34) EmptyString.

(** [l.remove(x)] when [x] is known to be in [l]: the first occurrence. *)
Fixpoint remove (x : string) (l : list string) : list string :=
  match l with
  | [] => []
  | y :: l' => if bool_decide (y = x) then l' else y :: remove x l'
  end.

(** [round(n / d, 1)] for integers [n] and [d <> 0], in tenths: the nearest
    tenth of the exact quotient, a tie going to the even one.  Python first
    rounds [n / d] to a float; the two agree unless the quotient is within
    a float's precision of a tie, which needs [20 * n / d] far beyond any
    page count. *)
Definition round1_div (n d : Z) : Z :=
  let n' := if d <? 0 then - (10 * n) else 10 * n in
  let d' := Z.abs d in
  let q := n' / d' in
  let r := n' mod d' in
  if 2 * r <? d' then q
  else if d' <? 2 * r then q + 1
  else if Z.even q then q else q + 1.

End Py.

(** ** Documents kept on disk *)

(** An entry of [checkpoint_history].  The three shapes are the three
    dictionaries the program builds: the initial entry has no page, a macro
    entry names its identifier [checkpoint_id], a micro entry names it [id]. *)
Inductive CheckpointInfo :=
| InitInfo (id timestamp type status : string)
| MacroInfo (checkpoint_id timestamp type page phase status : string)
| MicroInfo (id timestamp type page phase status : string).

Record CurrentOperation := {
  op_page : option string;
  op_phase : string;
  op_step : string;
  op_started_at : string
}.

Record Progress := {
  pages_completed : list string;
  pages_in_progress : list string;
  pages_remaining : list string;
  total_pages : Z;
  completion_percentage : Z  (* in tenths: 77 stands for 7.7 *)
}.

Record ErrorSummary := {
  critical : Z;
  high : Z;
  medium : Z;
  low : Z;
  total : Z
}.

Record RecoveryMetadata := {
  browser_state : string;
  session_storage : string;
  network_state : string;
  last_successful_action : string
}.

Record Session := {
  session_id : string;
  audit_start_time : string;
  last_checkpoint : option CheckpointInfo;
  current_operation : CurrentOperation;
  progress : Progress;
  checkpoint_history : list CheckpointInfo;
  error_summary : ErrorSummary;
  recovery_metadata : RecoveryMetadata
}.

Inductive TestStatus := PASS | WARN | FAIL | INFO.

Record TestResult := {
  test : string;
  status : TestStatus;
  details : string
}.

(** A file of the [pages] directory. *)
Inductive PagesFile :=
| ResultsJson (page test_phase timestamp : string) (results : list TestResult)
| SummaryMd (page_name page_url timestamp overall_status : string)
            (phase_results : list string).

(** The [audit_summary] object of the JSON report. *)
Record AuditSummary := {
  summary_timestamp : string;
  summary_session_id : string;
  health_score : Z;
  summary_total_pages : Z;
  completed_pages : Z;
  summary_completion_percentage : Z;
  errors : ErrorSummary;
  summary_status : string;
  report_files : string * string
}.

(** A file of the [reports] directory; the Markdown report is kept as the
    values its text is printed from. *)
Inductive ReportFile :=
| ReportMd (generated duration_end : string) (session : Session) (score : Z)
| ReportJson (audit_summary : AuditSummary).

(** The directory [session_state]: a file is [None] when it does not exist.
    The counter file holds the decimal text of one integer, as the program
    writes it. *)
Record SessionStateDir := {
  current_session_json : option Session;
  checkpoint_counter_txt : option Z
}.

(** The audit directory; a sub-directory is [None] when it does not exist. *)
Record FS := {
  session_state : option SessionStateDir;
  checkpoints : option (gmap string Session);
  pages_dir : option (gmap string PagesFile);
  reports : option (gmap string ReportFile)
}.

(** ** The outside world *)

Record Response := {
  status_code : Z;
  response_time_ms : Z;     (* int(response.elapsed.total_seconds() * 1000) *)
  content : list Byte.byte;
  text : string
}.

(** What [requests.get] gives: a response, or a [RequestException]. *)
Inductive HttpResult :=
| Responded (response : Response)
| RequestException (message : string).

Record DateTime := {
  isoformat : string;
  strftime_Ymd_HMS : string
}.

(** The inputs from outside, each indexed by the number of earlier uses. *)
Record Env := {
  requests_get : nat -> string -> Z -> HttpResult;  (* url, timeout *)
  utcnow : nat -> DateTime;
  time_time : nat -> Z;                             (* int(time.time()) *)
  uuid4 : nat -> string
}.

Record World := {
  fs : FS;
  requests_sent : nat;
  clock_reads : nat;
  uuids_drawn : nat
}.

(** ** The state-and-exception monad *)

Inductive exn :=
| FileNotFoundError (path : string)
| KeyError (key : string)
| ZeroDivisionError.

Inductive outcome (A : Type) :=
| Ok (a : A)
| Raise (e : exn).
Arguments Ok {A} a.
Arguments Raise {A} e.

Definition M (A : Type) : Type := World -> World * outcome A.

#[export] Instance M_ret : MRet M := fun A a w => (w, Ok a).

#[export] Instance M_bind : MBind M := fun A B f m w =>
  match m w with
  | (w', Ok a) => f a w'
  | (w', Raise e) => (w', Raise e)
  end.

Definition raise {A} (e : exn) : M A := fun w => (w, Raise e).
Definition lift {A} (o : outcome A) : M A := fun w => (w, o).
Definition get_fs : M FS := fun w => (w, Ok (fs w)).
Definition put_fs (f : FS) : M unit := fun w =>
  ({| fs := f; requests_sent := requests_sent w;
      clock_reads := clock_reads w; uuids_drawn := uuids_drawn w |}, Ok tt).

Definition exec {A} (m : M A) (w : World) : World := fst (m w).
Definition result {A} (m : M A) (w : World) : outcome A := snd (m w).

(** ** Files and outside inputs as monadic operations *)

Definition set_session_state (d : option SessionStateDir) (f : FS) : FS :=
  {| session_state := d; checkpoints := checkpoints f;
     pages_dir := pages_dir f; reports := reports f |}.

Definition set_checkpoints (c : option (gmap string Session)) (f : FS) : FS :=
  {| session_state := session_state f; checkpoints := c;
     pages_dir := pages_dir f; reports := reports f |}.

Definition set_pages_dir (p : option (gmap string PagesFile)) (f : FS) : FS :=
  {| session_state := session_state f; checkpoints := checkpoints f;
     pages_dir := p; reports := reports f |}.

Definition set_reports (r : option (gmap string ReportFile)) (f : FS) : FS :=
  {| session_state := session_state f; checkpoints := checkpoints f;
     pages_dir := pages_dir f; reports := r |}.

Definition session_path : string := "session_state/current_session.json".
Definition counter_path : string := "session_state/checkpoint_counter.txt".

(** The session document, when the file exists. *)
Definition session_of (f : FS) : option Session :=
  d ← session_state f; current_session_json d.

(** [open(session_file, "r")] and [json.load]. *)
Definition read_session_file : M Session :=
  f ← get_fs;
  match session_of f with
  | Some s => mret s
  | None => raise (FileNotFoundError session_path)
  end.

(** [open(session_file, "w")] and [json.dump]: the directory must exist. *)
Definition write_session_file (s : Session) : M unit :=
  f ← get_fs;
  match session_state f with
  | Some d =>
      put_fs (set_session_state
                (Some {| current_session_json := Some s;
                         checkpoint_counter_txt := checkpoint_counter_txt d |}) f)
  | None => raise (FileNotFoundError session_path)
  end.

Definition counter_of (f : FS) : option Z :=
  d ← session_state f; checkpoint_counter_txt d.

Definition counter_file_exists : M bool :=
  f ← get_fs; mret (bool_decide (is_Some (counter_of f))).

Definition read_counter_file : M Z :=
  f ← get_fs;
  match counter_of f with
  | Some n => mret n
  | None => raise (FileNotFoundError counter_path)
  end.

Definition write_counter_file (n : Z) : M unit :=
  f ← get_fs;
  match session_state f with
  | Some d =>
      put_fs (set_session_state
                (Some {| current_session_json := current_session_json d;
                         checkpoint_counter_txt := Some n |}) f)
  | None => raise (FileNotFoundError counter_path)
  end.

Definition write_checkpoint_file (name : string) (s : Session) : M unit :=
  f ← get_fs;
  match checkpoints f with
  | Some c => put_fs (set_checkpoints (Some (<[name := s]> c)) f)
  | None => raise (FileNotFoundError ("checkpoints/" +:+ name))
  end.

Definition write_pages_file (name : string) (p : PagesFile) : M unit :=
  f ← get_fs;
  match pages_dir f with
  | Some c => put_fs (set_pages_dir (Some (<[name := p]> c)) f)
  | None => raise (FileNotFoundError ("pages/" +:+ name))
  end.

Definition write_reports_file (name : string) (r : ReportFile) : M unit :=
  f ← get_fs;
  match reports f with
  | Some c => put_fs (set_reports (Some (<[name := r]> c)) f)
  | None => raise (FileNotFoundError ("reports/" +:+ name))
  end.

(** [Path.mkdir(exist_ok=True)] for the four sub-directories. *)
Definition mkdir_session_state : M unit :=
  f ← get_fs;
  match session_state f with
  | Some _ => mret tt
  | None =>
      put_fs (set_session_state
                (Some {| current_session_json := None;
                         checkpoint_counter_txt := None |}) f)
  end.

Definition mkdir_checkpoints : M unit :=
  f ← get_fs;
  match checkpoints f with
  | Some _ => mret tt
  | None => put_fs (set_checkpoints (Some ∅) f)
  end.

Definition mkdir_pages : M unit :=
  f ← get_fs;
  match pages_dir f with
  | Some _ => mret tt
  | None => put_fs (set_pages_dir (Some ∅) f)
  end.

Definition mkdir_reports : M unit :=
  f ← get_fs;
  match reports f with
  | Some _ => mret tt
  | None => put_fs (set_reports (Some ∅) f)
  end.

Section Program.

Context (env : Env).

(** [datetime.now(timezone.utc)]. *)
Definition now : M DateTime := fun w =>
  ({| fs := fs w; requests_sent := requests_sent w;
      clock_reads := S (clock_reads w); uuids_drawn := uuids_drawn w |},
   Ok (utcnow env (clock_reads w))).

(** [int(time.time())]. *)
Definition unix_time : M Z := fun w =>
  ({| fs := fs w; requests_sent := requests_sent w;
      clock_reads := S (clock_reads w); uuids_drawn := uuids_drawn w |},
   Ok (time_time env (clock_reads w))).

(** [str(uuid.uuid4())]. *)
Definition new_uuid : M string := fun w =>
  ({| fs := fs w; requests_sent := requests_sent w;
      clock_reads := clock_reads w; uuids_drawn := S (uuids_drawn w) |},
   Ok (uuid4 env (uuids_drawn w))).

(** [requests.get(url, timeout=t)]; a [RequestException] is a value here
    because every call site catches it. *)
Definition http_get (url : string) (timeout : Z) : M HttpResult := fun w =>
  ({| fs := fs w; requests_sent := S (requests_sent w);
      clock_reads := clock_reads w; uuids_drawn := uuids_drawn w |},
   Ok (requests_get env (requests_sent w) url timeout)).

(** ** [CheckpointManager] *)

Definition get_next_checkpoint_counter : M Z :=
  file_exists ← counter_file_exists;
  counter ← (if file_exists : bool then read_counter_file else mret 1);
  write_counter_file (counter + 1);;
  mret counter.

Definition set_progress (p : Progress) (s : Session) : Session :=
  {| session_id := session_id s; audit_start_time := audit_start_time s;
     last_checkpoint := last_checkpoint s;
     current_operation := current_operation s;
     progress := p; checkpoint_history := checkpoint_history s;
     error_summary := error_summary s;
     recovery_metadata := recovery_metadata s |}.

Definition set_error_summary (e : ErrorSummary) (s : Session) : Session :=
  {| session_id := session_id s; audit_start_time := audit_start_time s;
     last_checkpoint := last_checkpoint s;
     current_operation := current_operation s;
     progress := progress s; checkpoint_history := checkpoint_history s;
     error_summary := e;
     recovery_metadata := recovery_metadata s |}.

Definition set_current_operation (o : CurrentOperation) (s : Session) : Session :=
  {| session_id := session_id s; audit_start_time := audit_start_time s;
     last_checkpoint := last_checkpoint s;
     current_operation := o;
     progress := progress s; checkpoint_history := checkpoint_history s;
     error_summary := error_summary s;
     recovery_metadata := recovery_metadata s |}.

Definition set_last_checkpoint (c : option CheckpointInfo) (s : Session) : Session :=
  {| session_id := session_id s; audit_start_time := audit_start_time s;
     last_checkpoint := c;
     current_operation := current_operation s;
     progress := progress s; checkpoint_history := checkpoint_history s;
     error_summary := error_summary s;
     recovery_metadata := recovery_metadata s |}.

(** [session["checkpoint_history"].append(c)]. *)
Definition history_append (c : CheckpointInfo) (s : Session) : Session :=
  {| session_id := session_id s; audit_start_time := audit_start_time s;
     last_checkpoint := last_checkpoint s;
     current_operation := current_operation s;
     progress := progress s;
     checkpoint_history := checkpoint_history s ++ [c];
     error_summary := error_summary s;
     recovery_metadata := recovery_metadata s |}.

(** Lines 88-96: the update of [progress] under status SUCCESS; the
    division raises when [total_pages] is zero. *)
Definition mark_completed (page_name : string) (p : Progress) : outcome Progress :=
  let completed :=
    if bool_decide (page_name ∈ pages_completed p)
    then pages_completed p
    else pages_completed p ++ [page_name] in
  let remaining :=
    if bool_decide (page_name ∈ pages_remaining p)
    then Py.remove page_name (pages_remaining p)
    else pages_remaining p in
  if bool_decide (total_pages p = 0) then Raise ZeroDivisionError
  else
    Ok {| pages_completed := completed;
          pages_in_progress := pages_in_progress p;
          pages_remaining := remaining;
          total_pages := total_pages p;
          completion_percentage :=
            Py.round1_div (Z.of_nat (length completed) * 100) (total_pages p) |}.

Definition macro_checkpoint_id (counter : Z) (page_name : string) : string :=
  "CP_" +:+ Py.format_03d counter +:+ "_" +:+ Py.upper page_name +:+ "_COMPLETE".

Definition create_checkpoint (page_name status : string) : M string :=
  counter ← get_next_checkpoint_counter;
  let checkpoint_id := macro_checkpoint_id counter page_name in
  t ← now;
  let timestamp := isoformat t in
  session ← read_session_file;
  let checkpoint_info :=
    MacroInfo checkpoint_id timestamp "MACRO" page_name "complete" status in
  let session := set_last_checkpoint (Some checkpoint_info) session in
  let session := history_append checkpoint_info session in
  session ← (if bool_decide (status = "SUCCESS")
             then p ← lift (mark_completed page_name (progress session));
                  mret (set_progress p session)
             else mret session);
  write_session_file session;;
  write_checkpoint_file ("checkpoint_" +:+ checkpoint_id +:+ ".json") session;;
  mret checkpoint_id.

Definition micro_checkpoint_id (counter : Z) (page_name phase : string) : string :=
  "CP_" +:+ Py.format_03d counter +:+ "_" +:+ Py.upper page_name +:+ "_"
        +:+ Py.upper phase.

Definition create_micro_checkpoint (page_name phase status : string) : M string :=
  counter ← get_next_checkpoint_counter;
  let checkpoint_id := micro_checkpoint_id counter page_name phase in
  t ← now;
  let timestamp := isoformat t in
  session ← read_session_file;
  let checkpoint_info :=
    MicroInfo checkpoint_id timestamp "MICRO" page_name phase status in
  let session := history_append checkpoint_info session in
  write_session_file session;;
  mret checkpoint_id.

(** ** [PageTester] *)

(** [error_summary[k]], [None] standing for a [KeyError]. *)
Definition es_get (k : string) (e : ErrorSummary) : option Z :=
  if bool_decide (k = "critical") then Some (critical e)
  else if bool_decide (k = "high") then Some (high e)
  else if bool_decide (k = "medium") then Some (medium e)
  else if bool_decide (k = "low") then Some (low e)
  else if bool_decide (k = "total") then Some (total e)
  else None.

(** [error_summary[k] = v] for a key [k] of the document. *)
Definition es_set (k : string) (v : Z) (e : ErrorSummary) : ErrorSummary :=
  {| critical := if bool_decide (k = "critical") then v else critical e;
     high := if bool_decide (k = "high") then v else high e;
     medium := if bool_decide (k = "medium") then v else medium e;
     low := if bool_decide (k = "low") then v else low e;
     total := if bool_decide (k = "total") then v else total e |}.

Definition update_error_count (error_level : string) : M unit :=
  session ← read_session_file;
  match es_get error_level (error_summary session) with
  | None => raise (KeyError error_level)
  | Some n =>
      let summary := es_set error_level (n + 1) (error_summary session) in
      let summary := es_set "total" (total summary + 1) summary in
      write_session_file (set_error_summary summary session)
  end.

Definition save_test_results (page_name test_phase : string)
    (test_results : list TestResult) : M unit :=
  let results_file := page_name +:+ "_" +:+ test_phase +:+ "_results.json" in
  t ← now;
  write_pages_file results_file
    (ResultsJson page_name test_phase (isoformat t) test_results).

Definition result_of (name : string) (st : TestStatus) (d : string) : TestResult :=
  {| test := name; status := st; details := d |}.

Definition is_FAIL (r : TestResult) : bool :=
  match status r with FAIL => true | _ => false end.

(** [not any(result["status"] == "FAIL" for result in test_results)]. *)
Definition no_FAIL (test_results : list TestResult) : bool :=
  negb (existsb is_FAIL test_results).

Definition test_page_accessibility (page_name page_url : string) : M bool :=
  let test_results : list TestResult := [] in
  r ← http_get page_url 10;
  match r with
  | Responded response =>
      test_results ←
        (if bool_decide (status_code response = 200)
         then mret (test_results ++
                    [result_of "http_status" PASS (Py.str (status_code response))])
         else
           let test_results := test_results ++
             [result_of "http_status" FAIL (Py.str (status_code response))] in
           update_error_count "high";; mret test_results);
      let response_time_ms := response_time_ms response in
      test_results ←
        (if response_time_ms <? 3000
         then mret (test_results ++
                    [result_of "response_time" PASS (Py.str response_time_ms +:+ "ms")])
         else if response_time_ms <? 5000
         then
           let test_results := test_results ++
             [result_of "response_time" WARN (Py.str response_time_ms +:+ "ms")] in
           update_error_count "medium";; mret test_results
         else
           let test_results := test_results ++
             [result_of "response_time" FAIL (Py.str response_time_ms +:+ "ms")] in
           update_error_count "high";; mret test_results);
      let content_length := Z.of_nat (length (content response)) in
      test_results ←
        (if 1000 <? content_length
         then mret (test_results ++
                    [result_of "content_length" PASS (Py.str content_length +:+ "bytes")])
         else
           let test_results := test_results ++
             [result_of "content_length" WARN (Py.str content_length +:+ "bytes")] in
           update_error_count "low";; mret test_results);
      save_test_results page_name "accessibility" test_results;;
      mret (no_FAIL test_results)
  | RequestException e =>
      let test_results := test_results ++ [result_of "network" FAIL e] in
      save_test_results page_name "accessibility" test_results;;
      update_error_count "critical";;
      mret false
  end.

Definition nav_tests : list (string * string) :=
  [("nav", "navigation element"); ("menu", "menu element");
   ("sidebar", "sidebar element"); ("header", "header element");
   ("dashboard", "dashboard link"); ("products", "products link")].

(** The loop over [nav_tests]: the results so far and [nav_pass_count]. *)
Fixpoint nav_loop (tests : list (string * string)) (page_content : string)
    (test_results : list TestResult) (nav_pass_count : Z)
    : list TestResult * Z :=
  match tests with
  | [] => (test_results, nav_pass_count)
  | (search_term, _) :: tests' =>
      if Py.str_in search_term page_content
      then nav_loop tests' page_content
             (test_results ++ [result_of ("nav_" +:+ search_term) PASS "found"])
             (nav_pass_count + 1)
      else nav_loop tests' page_content
             (test_results ++ [result_of ("nav_" +:+ search_term) WARN "missing"])
             nav_pass_count
  end.

Definition test_page_navigation (page_name page_url : string) : M bool :=
  let test_results : list TestResult := [] in
  r ← http_get page_url 10;
  match r with
  | Responded response =>
      let page_content := Py.lower (text response) in
      let '(test_results, nav_pass_count) :=
        nav_loop nav_tests page_content test_results 0 in
      test_results ←
        (if 4 <=? nav_pass_count
         then mret (test_results ++
                    [result_of "navigation_overall" PASS (Py.str nav_pass_count +:+ "/6")])
         else if 2 <=? nav_pass_count
         then
           let test_results := test_results ++
             [result_of "navigation_overall" WARN (Py.str nav_pass_count +:+ "/6")] in
           update_error_count "medium";; mret test_results
         else
           let test_results := test_results ++
             [result_of "navigation_overall" FAIL (Py.str nav_pass_count +:+ "/6")] in
           update_error_count "high";; mret test_results);
      save_test_results page_name "navigation" test_results;;
      mret (2 <=? nav_pass_count)
  | RequestException e =>
      let test_results := test_results ++ [result_of "network" FAIL e] in
      save_test_results page_name "navigation" test_results;;
      update_error_count "high";;
      mret false
  end.

(** A keyword check of [test_page_specific_functionality]: the result is
    appended, and a miss is counted at [level]. *)
Definition keyword_check (name : string) (terms : list string)
    (miss : TestStatus) (level : string) (page_content : string)
    (test_results : list TestResult) : M (list TestResult) :=
  if Py.any_in terms page_content
  then mret (test_results ++ [result_of name PASS "found"])
  else
    let test_results := test_results ++ [result_of name miss "missing"] in
    update_error_count level;; mret test_results.

(** The Python method appends to the list it is given; here the extended
    list is returned. *)
Definition test_page_specific_functionality (page_name page_content : string)
    (test_results : list TestResult) : M (list TestResult) :=
  if bool_decide (page_name = "dashboard") then
    test_results ← keyword_check "dashboard_cards" ["card"; "widget"; "dashboard"]
                     WARN "medium" page_content test_results;
    keyword_check "dashboard_metrics" ["total"; "count"; "metric"; "statistic"]
      WARN "medium" page_content test_results
  else if bool_decide (page_name = "products") then
    keyword_check "products_content" ["product"; "item"; "inventory"]
      WARN "medium" page_content test_results
  else if bool_decide (page_name = "scan") then
    keyword_check "scan_barcode" ["barcode"; "camera"; "scan"]
      FAIL "high" page_content test_results
  else if Py.str_in "ai-assistant" page_name then
    keyword_check "ai_content" ["ai"; "assistant"; "agent"; "artificial"]
      FAIL "high" page_content test_results
  else mret test_results.

Definition test_page_functionality (page_name page_url : string) : M bool :=
  let test_results : list TestResult := [] in
  r ← http_get page_url 10;
  match r with
  | Responded response =>
      let page_content := Py.lower (text response) in
      test_results ←
        (if Py.str_in "<script" page_content
         then mret (test_results ++ [result_of "javascript" PASS "scripts_found"])
         else
           let test_results := test_results ++
             [result_of "javascript" WARN "no_scripts"] in
           update_error_count "low";; mret test_results);
      test_results ←
        (if Py.str_in "stylesheet" page_content || Py.str_in "<style" page_content
         then mret (test_results ++ [result_of "css" PASS "stylesheets_found"])
         else
           let test_results := test_results ++
             [result_of "css" FAIL "no_stylesheets"] in
           update_error_count "medium";; mret test_results);
      let form_count := Py.count page_content "<form" in
      let test_results :=
        if 0 <? form_count
        then test_results ++
             [result_of "forms" PASS (Py.str form_count +:+ "_forms")]
        else test_results ++ [result_of "forms" INFO "no_forms"] in
      let button_count :=
        Py.count page_content "<button"
        + Py.count page_content ("type=" +:+ Py.quoted "button")
        + Py.count page_content ("type=" +:+ Py.quoted "submit") in
      test_results ←
        (if 0 <? button_count
         then mret (test_results ++
                    [result_of "buttons" PASS (Py.str button_count +:+ "_buttons")])
         else
           let test_results := test_results ++
             [result_of "buttons" WARN "no_buttons"] in
           update_error_count "low";; mret test_results);
      test_results ←
        test_page_specific_functionality page_name page_content test_results;
      save_test_results page_name "functionality" test_results;;
      mret (no_FAIL test_results)
  | RequestException e =>
      let test_results := test_results ++ [result_of "network" FAIL e] in
      save_test_results page_name "functionality" test_results;;
      update_error_count "high";;
      mret false
  end.

Definition test_error_handling (page_name page_url : string) : M bool :=
  let test_results : list TestResult := [] in
  stamp ← unix_time;
  let invalid_url := page_url +:+ "/invalid-route-test-" +:+ Py.str stamp in
  r ← http_get invalid_url 5;
  test_results ←
    match r with
    | Responded response =>
        if bool_decide (status_code response = 404)
        then mret (test_results ++ [result_of "404_handling" PASS "proper_404"])
        else
          let test_results := test_results ++
            [result_of "404_handling" WARN
               ("status_" +:+ Py.str (status_code response))] in
          update_error_count "low";; mret test_results
    | RequestException _ =>
        mret (test_results ++ [result_of "404_handling" INFO "connection_error"])
    end;
  r ← http_get page_url 10;
  let test_results :=
    match r with
    | Responded response =>
        let page_content := Py.lower (text response) in
        if Py.any_in ["error"; "exception"; "boundary"] page_content
        then test_results ++ [result_of "error_boundaries" INFO "content_found"]
        else test_results ++ [result_of "error_boundaries" PASS "no_errors"]
    | RequestException e =>
        test_results ++ [result_of "error_boundaries" WARN e]
    end in
  save_test_results page_name "error_handling" test_results;;
  mret true.

(** ** [InventoryAuditSystem] *)

Record PageInfo := {
  url : string;
  name : string;
  category : string;
  risk_level : string
}.

(** [self.pages]: a dictionary literal, kept with its order of insertion. *)
Definition pages : list (string * PageInfo) :=
  [("home", {| url := "http://localhost:3000/"; name := "Home";
               category := "core"; risk_level := "low" |});
   ("dashboard", {| url := "http://localhost:3000/dashboard"; name := "Dashboard";
                    category := "core"; risk_level := "medium" |});
   ("products", {| url := "http://localhost:3000/products"; name := "Products";
                   category := "core"; risk_level := "high" |});
   ("image-cataloging", {| url := "http://localhost:3000/image-cataloging";
                           name := "AI Image Cataloging";
                           category := "core"; risk_level := "high" |});
   ("scan", {| url := "http://localhost:3000/scan"; name := "Scan Barcode";
               category := "core"; risk_level := "high" |});
   ("orders", {| url := "http://localhost:3000/orders"; name := "Orders";
                 category := "core"; risk_level := "medium" |});
   ("customers", {| url := "http://localhost:3000/customers"; name := "Customers";
                    category := "core"; risk_level := "medium" |});
   ("reports", {| url := "http://localhost:3000/reports"; name := "Reports";
                  category := "core"; risk_level := "medium" |});
   ("inventory-alerts", {| url := "http://localhost:3000/inventory/alerts";
                           name := "Inventory Alerts";
                           category := "core"; risk_level := "medium" |});
   ("ai-assistant", {| url := "http://localhost:3000/ai-assistant";
                       name := "AI Assistant";
                       category := "ai"; risk_level := "high" |});
   ("ai-assistant-custom-agents",
     {| url := "http://localhost:3000/ai-assistant/custom-agents";
        name := "Custom AI Agents"; category := "ai"; risk_level := "high" |});
   ("ai-assistant-settings",
     {| url := "http://localhost:3000/ai-assistant/settings";
        name := "AI Settings"; category := "ai"; risk_level := "high" |});
   ("settings", {| url := "http://localhost:3000/settings"; name := "Settings";
                   category := "system"; risk_level := "medium" |})].

(** [list(self.pages.keys())]. *)
Definition pages_keys : list string := map fst pages.

(** [self.pages[page_name]], [None] when [page_name not in self.pages]. *)
Fixpoint pages_get (page_name : string) (l : list (string * PageInfo))
    : option PageInfo :=
  match l with
  | [] => None
  | (k, v) :: l' => if bool_decide (k = page_name) then Some v else pages_get page_name l'
  end.

(** [__init__]: of the three collaborators only [PageTester] touches the
    disk, creating the [pages] directory. *)
Definition init_system : M unit := mkdir_pages.

Definition initialize_session : M string :=
  session_id ← new_uuid;
  t ← now;
  let start_time := isoformat t in
  mkdir_session_state;;
  mkdir_checkpoints;;
  mkdir_pages;;
  mkdir_reports;;
  let session_data :=
    {| session_id := session_id;
       audit_start_time := start_time;
       last_checkpoint := None;
       current_operation :=
         {| op_page := None; op_phase := "initialization";
            op_step := "setup"; op_started_at := start_time |};
       progress :=
         {| pages_completed := [];
            pages_in_progress := [];
            pages_remaining := pages_keys;
            total_pages := Z.of_nat (length pages);
            completion_percentage := 0 |};
       checkpoint_history :=
         [InitInfo "CP_000_INIT" start_time "INITIALIZATION" "SUCCESS"];
       error_summary :=
         {| critical := 0; high := 0; medium := 0; low := 0; total := 0 |};
       recovery_metadata :=
         {| browser_state := "initialized";
            session_storage := "clean";
            network_state := "unknown";
            last_successful_action := "session_initialization" |} |} in
  write_session_file session_data;;
  write_counter_file 1;;
  mret session_id.

Definition check_server_status : M bool :=
  r ← http_get "http://localhost:3000" 5;
  match r with
  | Responded response => mret (bool_decide (status_code response = 200))
  | RequestException _ => mret false
  end.

Definition create_page_summary (page_name page_url overall_status : string)
    (phase_results : list string) : M unit :=
  let summary_file := page_name +:+ "_summary.md" in
  t ← now;
  write_pages_file summary_file
    (SummaryMd page_name page_url (isoformat t) overall_status phase_results).

Definition audit_page (page_name : string) : M bool :=
  match pages_get page_name pages with
  | None => mret false
  | Some page_info =>
      let page_url := url page_info in
      session ← read_session_file;
      t ← now;
      write_session_file
        (set_current_operation
           {| op_page := Some page_name; op_phase := "starting";
              op_step := "initialization"; op_started_at := isoformat t |}
           session);;
      let overall_status := "SUCCESS" in
      let phase_results : list string := [] in
      (* Phase 1 *)
      create_micro_checkpoint page_name "accessibility_start" "IN_PROGRESS";;
      passed ← test_page_accessibility page_name page_url;
      '(overall_status, phase_results) ←
        (if passed : bool
         then create_micro_checkpoint page_name "accessibility_complete" "SUCCESS";;
              mret (overall_status, phase_results ++ ["accessibility:PASS"])
         else create_micro_checkpoint page_name "accessibility_complete" "FAILED";;
              mret ("FAILED", phase_results ++ ["accessibility:FAIL"]));
      (* Phase 2 *)
      create_micro_checkpoint page_name "navigation_start" "IN_PROGRESS";;
      passed ← test_page_navigation page_name page_url;
      phase_results ←
        (if passed : bool
         then create_micro_checkpoint page_name "navigation_complete" "SUCCESS";;
              mret (phase_results ++ ["navigation:PASS"])
         else create_micro_checkpoint page_name "navigation_complete" "FAILED";;
              mret (phase_results ++ ["navigation:FAIL"]));
      (* Phase 3 *)
      create_micro_checkpoint page_name "functionality_start" "IN_PROGRESS";;
      passed ← test_page_functionality page_name page_url;
      '(overall_status, phase_results) ←
        (if passed : bool
         then create_micro_checkpoint page_name "functionality_complete" "SUCCESS";;
              mret (overall_status, phase_results ++ ["functionality:PASS"])
         else create_micro_checkpoint page_name "functionality_complete" "FAILED";;
              mret ("FAILED", phase_results ++ ["functionality:FAIL"]));
      (* Phase 4 *)
      create_micro_checkpoint page_name "error_handling_start" "IN_PROGRESS";;
      passed ← test_error_handling page_name page_url;
      phase_results ←
        (if passed : bool
         then create_micro_checkpoint page_name "error_handling_complete" "SUCCESS";;
              mret (phase_results ++ ["error_handling:PASS"])
         else create_micro_checkpoint page_name "error_handling_complete" "WARNING";;
              mret (phase_results ++ ["error_handling:WARN"]));
      create_page_summary page_name page_url overall_status phase_results;;
      create_checkpoint page_name overall_status;;
      mret (bool_decide (overall_status = "SUCCESS"))
  end.

(** Lines 815-821: the health score of an error tally. *)
Definition health_score_of (errors : ErrorSummary) : Z :=
  let health_score := 100 in
  let health_score := health_score - critical errors * 25 in
  let health_score := health_score - high errors * 10 in
  let health_score := health_score - medium errors * 5 in
  let health_score := health_score - low errors * 1 in
  Z.max 0 health_score.

(** [open(report_file, "w")]: fails when the directory is missing. *)
Definition open_reports_file (name : string) : M unit :=
  f ← get_fs;
  match reports f with
  | Some _ => mret tt
  | None => raise (FileNotFoundError ("reports/" +:+ name))
  end.

Definition generate_final_report : M unit :=
  t ← now;
  let timestamp := strftime_Ymd_HMS t in
  let report_file := "final_audit_report_" +:+ timestamp +:+ ".md" in
  session ← read_session_file;
  let errors := error_summary session in
  let health_score := health_score_of errors in
  open_reports_file report_file;;
  generated ← now;
  duration_end ← now;
  write_reports_file report_file
    (ReportMd (isoformat generated) (isoformat duration_end) session health_score);;
  let json_file := "final_audit_report_" +:+ timestamp +:+ ".json" in
  t ← now;
  let summary_data :=
    {| summary_timestamp := isoformat t;
       summary_session_id := session_id session;
       health_score := health_score;
       summary_total_pages := total_pages (progress session);
       completed_pages := Z.of_nat (length (pages_completed (progress session)));
       summary_completion_percentage := completion_percentage (progress session);
       errors := errors;
       summary_status :=
         if 75 <=? health_score then "GOOD" else "NEEDS_ATTENTION";
       report_files := (report_file, json_file) |} in
  write_reports_file json_file (ReportJson summary_data).

(** [try: m except Exception: pass]. *)
Definition try_except_pass {A} (m : M A) : M unit := fun w =>
  match m w with
  | (w', _) => (w', Ok tt)
  end.

Fixpoint audit_each (page_names : list string) : M unit :=
  match page_names with
  | [] => mret tt
  | page_name :: rest => try_except_pass (audit_page page_name);; audit_each rest
  end.

(** The two readings of [time.time()] and the pause between pages only feed
    the log. *)
Definition full_audit : M unit :=
  up ← check_server_status;
  if up : bool
  then audit_each pages_keys;; generate_final_report
  else mret tt.

End Program.

(** ** Runs of checkpoint creations *)

(** One step of a run: a macro or micro checkpoint, or a restart of the
    process, which builds the three objects again and keeps the files. *)
Inductive Creation :=
| Macro (page_name status : string)
| Micro (page_name phase status : string)
| Restart.

Definition run_creation (env : Env) (c : Creation) : M (option string) :=
  match c with
  | Macro page_name st => id ← create_checkpoint env page_name st; mret (Some id)
  | Micro page_name phase st =>
      id ← create_micro_checkpoint env page_name phase st; mret (Some id)
  | Restart => init_system;; mret None
  end.

(** The identifier a creation builds from the counter value [n]. *)
Definition id_with (c : Creation) (n : Z) : option string :=
  match c with
  | Macro page_name _ => Some (macro_checkpoint_id n page_name)
  | Micro page_name phase _ => Some (micro_checkpoint_id n page_name phase)
  | Restart => None
  end.

Record Step := {
  before : World;
  creation : Creation;
  returned : outcome (option string)
}.

Fixpoint run_creations (env : Env) (cs : list Creation) (w : World) : list Step :=
  match cs with
  | [] => []
  | c :: cs' =>
      let '(w', r) := run_creation env c w in
      {| before := w; creation := c; returned := r |} :: run_creations env cs' w'
  end.

(** The steps that returned a checkpoint identifier. *)
Definition created (st : Step) : bool :=
  match returned st with
  | Ok (Some _) => true
  | _ => false
  end.

(** The value the next call of [get_next_checkpoint_counter] reads. *)
Definition next_counter (w : World) : Z := default 1 (counter_of (fs w)).

(** What a creation step does to the counter: an identifier is returned
    only after the counter was drawn, and no step lowers the counter. *)
Definition counter_step (w : World) (c : Creation)
    (r : World * outcome (option string)) : Prop :=
  match r with
  | (w', Ok (Some id)) =>
      result get_next_checkpoint_counter w = Ok (next_counter w) /\
      id_with c (next_counter w) = Some id /\
      next_counter w' = next_counter w + 1
  | (w', _) => next_counter w <= next_counter w'
  end.

(** ** Runs of session operations *)

Inductive Operation :=
| OpCheckpoint (page_name status : string)
| OpMicro (page_name phase status : string)
| OpError (error_level : string).

Definition run_operation (env : Env) (o : Operation) : M unit :=
  match o with
  | OpCheckpoint page_name st => create_checkpoint env page_name st;; mret tt
  | OpMicro page_name phase st =>
      create_micro_checkpoint env page_name phase st;; mret tt
  | OpError error_level => update_error_count error_level
  end.

(** The world after a run of operations, an operation that raises leaving
    what it wrote before. *)
Fixpoint exec_operations (env : Env) (os : list Operation) (w : World) : World :=
  match os with
  | [] => w
  | o :: os' => exec_operations env os' (exec (run_operation env o) w)
  end.

(** Macro checkpoints are taken for pages of the registry. *)
Definition registry_page (o : Operation) : Prop :=
  match o with
  | OpCheckpoint page_name _ => page_name ∈ pages_keys
  | _ => True
  end.

(** Errors are counted at one of the four severity levels. *)
Definition severity_level (o : Operation) : Prop :=
  match o with
  | OpError error_level => error_level ∈ ["critical"; "high"; "medium"; "low"]
  | _ => True
  end.

(** The session documents an operation can leave in place of [s]: an
    operation that raises before it saves leaves [s] itself. *)
Definition op_session (o : Operation) (s s' : Session) : Prop :=
  match o with
  | OpCheckpoint page_name st =>
      exists info,
        let s1 := history_append info (set_last_checkpoint (Some info) s) in
        s' = if bool_decide (st = "SUCCESS")
             then match mark_completed page_name (progress s) with
                  | Ok p => set_progress p s1
                  | Raise _ => s
                  end
             else s1
  | OpMicro _ _ _ => exists info, s' = history_append info s
  | OpError error_level =>
      s' = match es_get error_level (error_summary s) with
           | Some n =>
               let summary := es_set error_level (n + 1) (error_summary s) in
               set_error_summary (es_set "total" (total summary + 1) summary) s
           | None => s
           end
  end.

(** A world in which a session is open: the session document and the
    checkpoints directory exist. *)
Definition session_open (w : World) (s : Session) : Prop :=
  session_of (fs w) = Some s /\ is_Some (checkpoints (fs w)).

(** The lists [keyword_check] and [test_page_specific_functionality]
    return. *)
Definition keyword_result (name : string) (terms : list string)
    (miss : TestStatus) (page_content : string)
    (test_results : list TestResult) : list TestResult :=
  if Py.any_in terms page_content
  then test_results ++ [result_of name PASS "found"]
  else test_results ++ [result_of name miss "missing"].

Definition specific_results (page_name page_content : string)
    (test_results : list TestResult) : list TestResult :=
  if bool_decide (page_name = "dashboard") then
    keyword_result "dashboard_metrics" ["total"; "count"; "metric"; "statistic"]
      WARN page_content
      (keyword_result "dashboard_cards" ["card"; "widget"; "dashboard"]
         WARN page_content test_results)
  else if bool_decide (page_name = "products") then
    keyword_result "products_content" ["product"; "item"; "inventory"]
      WARN page_content test_results
  else if bool_decide (page_name = "scan") then
    keyword_result "scan_barcode" ["barcode"; "camera"; "scan"]
      FAIL page_content test_results
  else if Py.str_in "ai-assistant" page_name then
    keyword_result "ai_content" ["ai"; "assistant"; "agent"; "artificial"]
      FAIL page_content test_results
  else test_results.

(** ** The accessibility policy, following the specification

    "status==200 -> PASS else FAIL(+high); elapsed<3000ms -> PASS, <5000ms ->
    WARN(+medium), else FAIL(+high); body length>1000 bytes -> PASS else
    WARN(+low)."  A verdict is a status and the severity counted, if any. *)

Definition http_status_policy (code : Z) : TestStatus * option string :=
  if bool_decide (code = 200) then (PASS, None) else (FAIL, Some "high").

Definition response_time_policy (elapsed_ms : Z) : TestStatus * option string :=
  if bool_decide (elapsed_ms < 3000) then (PASS, None)
  else if bool_decide (elapsed_ms < 5000) then (WARN, Some "medium")
  else (FAIL, Some "high").

Definition content_length_policy (bytes : Z) : TestStatus * option string :=
  if bool_decide (bytes > 1000) then (PASS, None) else (WARN, Some "low").

Definition accessibility_policy (r : Response)
    : list (string * (TestStatus * option string)) :=
  [("http_status", http_status_policy (status_code r));
   ("response_time", response_time_policy (response_time_ms r));
   ("content_length", content_length_policy (Z.of_nat (length (content r))))].

(** One more finding of the given severity in the tally. *)
Definition count_error (severity : option string) (e : ErrorSummary) : ErrorSummary :=
  match severity with
  | None => e
  | Some level =>
      {| critical := critical e + (if bool_decide (level = "critical") then 1 else 0);
         high := high e + (if bool_decide (level = "high") then 1 else 0);
         medium := medium e + (if bool_decide (level = "medium") then 1 else 0);
         low := low e + (if bool_decide (level = "low") then 1 else 0);
         total := total e + 1 |}
  end.

Definition policy_passes (policy : list (string * (TestStatus * option string)))
    : bool :=
  forallb (fun v => match v.2.1 with FAIL => false | _ => true end) policy.

(** ** Predicates on the session *)

(** [pages_completed] and [pages_remaining] split the registry in two. *)
Definition partitioned (p : Progress) : Prop :=
  NoDup (pages_remaining p) /\
  pages_completed p ## pages_remaining p /\
  forall q, q ∈ pages_completed p \/ q ∈ pages_remaining p <-> q ∈ pages_keys.

(** Both page lists are free of duplicates and the page count is the
    registry's. *)
Definition tidy (p : Progress) : Prop :=
  NoDup (pages_completed p) /\ NoDup (pages_remaining p) /\ total_pages p = 13.

(** The session document, the [pages] directory and the number of requests
    sent, exactly. *)
Definition opened (n : nat) (pg : gmap string PagesFile) (s : Session)
    (w : World) : Prop :=
  session_of (fs w) = Some s /\ pages_dir (fs w) = Some pg /\ requests_sent w = n.

(** The status a page audit records for a phase that passed or failed. *)
Definition phase_status (passed : bool) : string :=
  if passed then "SUCCESS" else "FAILED".

(** ** Specifications of monadic code *)

(** [triple P m Q E]: from a world in [P], [m] either returns a value and a
    world in [Q], or raises and leaves a world in [E].  With [E] empty, [m]
    returns. *)
Definition triple {A} (P : World -> Prop) (m : M A)
    (Q : A -> World -> Prop) (E : World -> Prop) : Prop :=
  forall w, P w ->
    match m w with
    | (w', Ok a) => Q a w'
    | (w', Raise _) => E w'
    end.

Definition never : World -> Prop := fun _ => False.

(** The phase and the status of an entry of [checkpoint_history]. *)
Definition entry_phase_status (c : CheckpointInfo) : option string * string :=
  match c with
  | InitInfo _ _ _ st => (None, st)
  | MacroInfo _ _ _ _ phase st => (Some phase, st)
  | MicroInfo _ _ _ _ phase st => (Some phase, st)
  end.

(** An entry other than the one the failure branch of the error-handling
    phase would record. *)
Definition no_warning (c : CheckpointInfo) : Prop :=
  entry_phase_status c <> (Some "error_handling_complete", "WARNING").

(** The session document of [w] is [s0] with more history entries, none of
    them the error-handling warning. *)
Definition extends (s0 : Session) (w : World) : Prop :=
  exists s added,
    session_of (fs w) = Some s /\
    checkpoint_history s = checkpoint_history s0 ++ added /\
    Forall no_warning added.

(** [m] keeps [I], whether it returns or raises. *)
Definition keeps {A} (I : World -> Prop) (m : M A) : Prop :=
  triple I m (fun _ => I) I.

(** ** A sample run

    A server that answers every request in 500 ms with status 200 and a
    5000-byte page, a fixed clock, and an empty audit directory. *)

Definition sample_response : Response :=
  {| status_code := 200;
     response_time_ms := 500;
     content := repeat Byte.x00 5000;
     text := "<html><head><link rel=stylesheet><script src=app.js></script>"
             +:+ "</head><body><nav>Menu</nav><header>Dashboard Products"
             +:+ "</header><button>Go</button></body></html>" |}.

Definition sample_env : Env :=
  {| requests_get := fun _ _ _ => Responded sample_response;
     utcnow := fun _ => {| isoformat := "2025-01-01T00:00:00+00:00";
                           strftime_Ymd_HMS := "20250101_000000" |};
     time_time := fun _ => 1735689600;
     uuid4 := fun _ => "00000000-0000-4000-8000-000000000000" |}.

Definition empty_world : World :=
  {| fs := {| session_state := None; checkpoints := None;
              pages_dir := None; reports := None |};
     requests_sent := 0; clock_reads := 0; uuids_drawn := 0 |}.

Definition sample_world : World :=
  exec (initialize_session sample_env) empty_world.

Definition sample_session : Session :=
  let start_time := "2025-01-01T00:00:00+00:00" in
  {| session_id := "00000000-0000-4000-8000-000000000000";
     audit_start_time := start_time;
     last_checkpoint := None;
     current_operation :=
       {| op_page := None; op_phase := "initialization";
          op_step := "setup"; op_started_at := start_time |};
     progress :=
       {| pages_completed := [];
          pages_in_progress := [];
          pages_remaining := pages_keys;
          total_pages := 13;
          completion_percentage := 0 |};
     checkpoint_history :=
       [InitInfo "CP_000_INIT" start_time "INITIALIZATION" "SUCCESS"];
     error_summary :=
       {| critical := 0; high := 0; medium := 0; low := 0; total := 0 |};
     recovery_metadata :=
       {| browser_state := "initialized";
          session_storage := "clean";
          network_state := "unknown";
          last_successful_action := "session_initialization" |} |}.

(** The sample session after one critical, two high and three low
    findings. *)
Definition tally_world : World :=
  exec_operations sample_env
    [OpError "critical"; OpError "high"; OpError "high";
     OpError "low"; OpError "low"; OpError "low"]
    sample_world.

Definition tally_session : Session :=
  set_error_summary
    {| critical := 1; high := 2; medium := 0; low := 3; total := 6 |}
    sample_session.

Definition sample_operations : list Operation :=
  [OpCheckpoint "home" "SUCCESS";
   OpMicro "scan" "navigation_start" "IN_PROGRESS";
   OpError "high";
   OpCheckpoint "scan" "FAILED";
   OpError "severe";
   OpCheckpoint "home" "SUCCESS";
   OpCheckpoint "orders" "SUCCESS"].

Definition counted_operations : list Operation :=
  [OpError "high";
   OpCheckpoint "home" "SUCCESS";
   OpError "low";
   OpMicro "scan" "navigation_start" "IN_PROGRESS";
   OpCheckpoint "no-such-page" "SUCCESS";
   OpError "critical";
   OpError "medium"].

(** A world ready for a page audit: the session is open on a document with a
    page count other than zero, and the [pages] directory exists.  [n] is
    the number of requests sent so far and [h] lists the phase and status of
    the history entries. *)
Definition ready (n : nat) (h : list (option string * string)) (w : World) : Prop :=
  exists s,
    session_open w s /\
    is_Some (pages_dir (fs w)) /\
    total_pages (progress s) <> 0 /\
    requests_sent w = n /\
    map entry_phase_status (checkpoint_history s) = h.

(** ** What the page tests look for *)

(** The number of navigation markers in a page. *)
Definition markers_found (page_content : string) : Z :=
  Z.of_nat (length (filter (fun t => Py.str_in t.1 page_content = true) nav_tests)).

(** The result recorded for one navigation marker. *)
Definition marker_result (page_content : string) (t : string * string)
    : TestResult :=
  if Py.str_in t.1 page_content
  then result_of ("nav_" +:+ t.1) PASS "found"
  else result_of ("nav_" +:+ t.1) WARN "missing".

(** The status of [navigation_overall] and the severity counted for it. *)
Definition navigation_overall (found : Z) : TestStatus * option string :=
  if bool_decide (4 <= found) then (PASS, None)
  else if bool_decide (2 <= found) then (WARN, Some "medium")
  else (FAIL, Some "high").



(** The percentage on disk is the rounded share of the completed pages. *)
Definition percentage_kept (p : Progress) : Prop :=
  tidy p /\ partitioned p /\
  completion_percentage p =
    Py.round1_div (Z.of_nat (length (pages_completed p)) * 100) 13.

(** ** What a page audit leaves alone *)

(** The [reports] directory is [r0] and the session document, if there is
    one, has progress [p0]. *)
Definition audit_frame (r0 : option (gmap string ReportFile)) (p0 : Progress)
    (w : World) : Prop :=
  reports (fs w) = r0 /\
  forall s, session_of (fs w) = Some s -> progress s = p0.

(** The progress a macro checkpoint with status [st] leaves. *)
Definition progress_after (page_name st : string) (p : Progress) : Progress :=
  if bool_decide (st = "SUCCESS")
  then match mark_completed page_name p with
       | Ok p' => p'
       | Raise _ => p
       end
  else p.

(** ** The command line *)

(** The parsed arguments: [--init], [--full-audit], [--audit-page NAME],
    [--status], [--report]. *)
Record Args := {
  args_init : bool;
  args_full_audit : bool;
  args_audit_page : option string;
  args_status : bool;
  args_report : bool
}.

(** The truth value of [args.audit_page]: [None] and the empty string are
    false. *)
Definition given (a : option string) : bool :=
  match a with
  | Some (String _ _) => true
  | _ => false
  end.

(** [session_file.exists()]. *)
Definition session_file_exists : M bool :=
  f ← get_fs; mret (bool_decide (is_Some (session_of f))).

Definition main (env : Env) (args : Args) : M unit :=
  init_system;;
  if args_init args then
    initialize_session env;; mret tt
  else if args_full_audit args then
    file_exists ← session_file_exists;
    (if file_exists : bool then mret tt else initialize_session env;; mret tt);;
    full_audit env
  else if given (args_audit_page args) then
    file_exists ← session_file_exists;
    (if file_exists : bool then mret tt else initialize_session env;; mret tt);;
    audit_page env (default EmptyString (args_audit_page args));;
    mret tt
  else if args_status args then
    file_exists ← session_file_exists;
    if file_exists : bool then read_session_file;; mret tt else mret tt
  else if args_report args then
    generate_final_report env
  else mret tt.

(** A world in which a full audit runs to its end: a ready world whose
    history has [k] entries and whose [reports] directory exists. *)
Definition audit_ready (k n : nat) (w : World) : Prop :=
  (exists h, length h = k /\ ready n h w) /\ is_Some (reports (fs w)).

(** ** Reading a counter back from an identifier *)

(** The value of a decimal digit: its code point less that of the digit
    zero. *)
Definition digit_of (c : ascii) : option Z :=
  let k := Z.of_N (N_of_ascii c) - 48 in
  if (0 <=? k) && (k <=? 9) then Some k else None.

(** The number written by the leading digits of [s], after [acc]. *)
Fixpoint read_digits (acc : Z) (s : string) : Z :=
  match s with
  | EmptyString => acc
  | String c s' =>
      match digit_of c with
      | Some d => read_digits (10 * acc + d) s'
      | None => acc
      end
  end.

(** The number after the prefix [CP_] of a checkpoint identifier. *)
Definition counter_of_id (id : string) : Z :=
  match id with
  | String _ (String _ (String _ rest)) => read_digits 0 rest
  | _ => 0
  end.

(** The value of a decimal numeral read after [acc]. *)
Fixpoint uint_value (acc : Z) (d : uint) : Z :=
  match d with
  | Nil => acc
  | D0 d' => uint_value (10 * acc + 0) d'
  | D1 d' => uint_value (10 * acc + 1) d'
  | D2 d' => uint_value (10 * acc + 2) d'
  | D3 d' => uint_value (10 * acc + 3) d'
  | D4 d' => uint_value (10 * acc + 4) d'
  | D5 d' => uint_value (10 * acc + 5) d'
  | D6 d' => uint_value (10 * acc + 6) d'
  | D7 d' => uint_value (10 * acc + 7) d'
  | D8 d' => uint_value (10 * acc + 8) d'
  | D9 d' => uint_value (10 * acc + 9) d'
  end.

(** The identifiers a run of creations returned, in order. *)
Definition returned_ids (steps : list Step) : list string :=
  omap (fun st => match returned st with
                  | Ok (Some id) => Some id
                  | _ => None
                  end) steps.

(** ** The counter a creation draws and where it shows *)

(** The counter an identifier carries: the decimal number, with its sign,
    written after the prefix [CP_]. *)
Definition embedded_counter (id : string) : Z :=
  match id with
  | String _ (String _ (String _ (String c rest))) =>
      if Ascii.eqb c "-" then - read_digits 0 rest
      else read_digits 0 (String c rest)
  | _ => 0
  end.

(** The identifier of a history entry. *)
Definition entry_id (c : CheckpointInfo) : string :=
  match c with
  | InitInfo id _ _ _ => id
  | MacroInfo checkpoint_id _ _ _ _ _ => checkpoint_id
  | MicroInfo id _ _ _ _ _ => id
  end.

(** The steps whose call of [get_next_checkpoint_counter] finds the
    [session_state] directory: every creation on such a disk, whether it
    returns or raises afterwards. *)
Definition draws (st : Step) : bool :=
  match creation st with
  | Restart => false
  | _ => bool_decide (is_Some (session_state (fs (before st))))
  end.

(** The world a step leaves. *)
Definition after (env : Env) (st : Step) : World :=
  exec (run_creation env (creation st)) (before st).

(** What a step shows of the counter [n] it drew: [n] is what
    [get_next_checkpoint_counter] returns on the world before the step, the
    counter file holds [n + 1] afterwards, and [n] is the counter carried by
    the identifier the step returns and by every history entry it saves,
    also when it raises after saving. *)
Definition carries (env : Env) (st : Step) (n : Z) : Prop :=
  result get_next_checkpoint_counter (before st) = Ok n /\
  counter_of (fs (after env st)) = Some (n + 1) /\
  (forall id, returned st = Ok (Some id) -> embedded_counter id = n) /\
  (forall s, session_of (fs (before st)) = Some s ->
     exists s' added,
       session_of (fs (after env st)) = Some s' /\
       checkpoint_history s' = checkpoint_history s ++ added /\
       Forall (fun c => embedded_counter (entry_id c) = n) added /\
       (forall id, returned st = Ok (Some id) -> entry_id <$> added = [id])).

(** A step that draws no counter: it returns no identifier and leaves the
    counter file and the session document as they are. *)
Definition idle (env : Env) (st : Step) : Prop :=
  created st = false /\
  counter_of (fs (after env st)) = counter_of (fs (before st)) /\
  session_of (fs (after env st)) = session_of (fs (before st)).

(** ** Texts on which the case mapping of the model is exact *)


(** ** More sample worlds *)

(** A server that refuses every connection. *)
Definition down_env : Env :=
  {| requests_get := fun _ _ _ => RequestException "connection refused";
     utcnow := utcnow sample_env;
     time_time := time_time sample_env;
     uuid4 := uuid4 sample_env |}.

(** The sample session on a disk without the [checkpoints] and [reports]
    directories, after three checkpoints. *)
Definition bare_world : World :=
  {| fs := {| session_state :=
                Some {| current_session_json := Some sample_session;
                        checkpoint_counter_txt := Some 4 |};
              checkpoints := None;
              pages_dir := Some ∅;
              reports := None |};
     requests_sent := 0; clock_reads := 0; uuids_drawn := 0 |}.

Definition status_args : Args :=
  {| args_init := false; args_full_audit := false; args_audit_page := None;
     args_status := true; args_report := false |}.

Definition audit_page_args : Args :=
  {| args_init := false; args_full_audit := false;
     args_audit_page := Some "home";
     args_status := false; args_report := false |}.

(** * Properties *)

Ltac open_world w :=
  destruct w as [[[[? ?]|] ? ? ?] ? ? ?].

Ltac run_prims :=
  unfold get_next_checkpoint_counter, read_session_file, write_session_file,
    counter_file_exists, read_counter_file, write_counter_file,
    write_checkpoint_file, write_pages_file, write_reports_file,
    open_reports_file, mkdir_session_state, mkdir_checkpoints, mkdir_pages,
    mkdir_reports, now, unix_time, new_uuid, http_get, raise, lift, get_fs, put_fs,
    session_of, counter_of, next_counter, exec, result;
  unfold mbind, mret, M_bind, M_ret, option_bind;
  cbn.


(** ** Python strings *)

Example upper_ex : Py.upper "ai-assistant" = "AI-ASSISTANT".
Proof. reflexivity. Qed.

Example format_03d_ex :
  Py.format_03d 7 = "007" /\ Py.format_03d 42 = "042" /\
  Py.format_03d 1234 = "1234" /\ Py.format_03d (-5) = "-05".
Proof. repeat split; reflexivity. Qed.

Example count_ex : Py.count "<form><form x><for" "<form" = 2.
Proof. reflexivity. Qed.

Example round1_div_ex :
  Py.round1_div (1 * 100) 13 = 77 /\ Py.round1_div (13 * 100) 13 = 1000 /\
  Py.round1_div 1 4 = 2 /\ Py.round1_div 3 4 = 8.
Proof. repeat split; reflexivity. Qed.

(** ** The checkpoint counter *)

Section Counter.

Context (env : Env).

Lemma get_next_checkpoint_counter_spec w :
  match get_next_checkpoint_counter w with
  | (w', Ok n) => n = next_counter w /\ next_counter w' = n + 1
  | (w', Raise _) => w' = w
  end.
Proof.
  open_world w; cbn; [|done].
  unfold next_counter, counter_of; cbn.
  destruct checkpoint_counter_txt0; cbn; done.
Qed.

Lemma run_creation_counter w c : counter_step w c (run_creation env c w).
Proof.
  destruct c as [page_name st|page_name phase st|]; unfold run_creation.
  - open_world w; unfold create_checkpoint, mark_completed; run_prims; [|done].
    destruct checkpoint_counter_txt0, current_session_json0; run_prims;
      try lia.
    all: destruct (bool_decide (st = "SUCCESS")); run_prims.
    all: try (destruct (bool_decide (total_pages _ = 0)); run_prims; try lia).
    all: destruct checkpoints0; run_prims; try done; lia.
  - open_world w; unfold create_micro_checkpoint; run_prims; [|done].
    destruct checkpoint_counter_txt0, current_session_json0; run_prims;
      try done; lia.
  - open_world w; unfold init_system; run_prims.
    all: destruct pages_dir0; run_prims; lia.
Qed.

Lemma StronglySorted_lt_NoDup (ns : list Z) : StronglySorted Z.lt ns -> NoDup ns.
Proof.
  induction 1 as [|n ns Hs IH Hn]; constructor; [|done].
  intros Hin. rewrite Forall_forall in Hn. specialize (Hn n Hin). lia.
Qed.

Lemma run_creations_sorted cs : forall w,
  exists ns : list Z,
    StronglySorted Z.lt ns /\
    Forall (fun n => next_counter w <= n) ns /\
    Forall2 (fun st n =>
               result get_next_checkpoint_counter (before st) = Ok n /\
               returned st = Ok (id_with (creation st) n))
            (filter created (run_creations env cs w)) ns.
Proof.
  induction cs as [|c cs IH]; intros w; cbn.
  { exists []. repeat constructor. }
  pose proof (run_creation_counter w c) as Hstep.
  destruct (run_creation env c w) as [w' r].
  destruct (IH w') as (ns & Hsorted & Hlow & Hall).
  unfold counter_step in Hstep.
  destruct r as [[id|]|e]; rewrite ?filter_cons; cbn.
  - destruct Hstep as (Hdraw & Hid & Hnext).
    exists (next_counter w :: ns). split; [|split].
    + constructor; [done|].
      eapply Forall_impl; [exact Hlow|]. intros n Hn. cbn in Hn. lia.
    + constructor; [lia|].
      eapply Forall_impl; [exact Hlow|]. intros n Hn. cbn in Hn. lia.
    + constructor; [|done]. cbn. by rewrite Hid.
  - exists ns. split; [done|]. split; [|done].
    eapply Forall_impl; [exact Hlow|]. intros n Hn. cbn in Hn. lia.
  - exists ns. split; [done|]. split; [|done].
    eapply Forall_impl; [exact Hlow|]. intros n Hn. cbn in Hn. lia.
Qed.

End Counter.

Example sample_creations :
  map returned
    (run_creations sample_env
       [Micro "home" "accessibility_start" "IN_PROGRESS"; Restart;
        Macro "home" "SUCCESS"; Micro "scan" "navigation_start" "IN_PROGRESS"]
       sample_world)
  = [Ok (Some "CP_001_HOME_ACCESSIBILITY_START"); Ok None;
     Ok (Some "CP_002_HOME_COMPLETE"); Ok (Some "CP_003_SCAN_NAVIGATION_START")].
Proof. vm_compute. reflexivity. Qed.

Example sample_world_session : session_of (fs sample_world) = Some sample_session.
Proof. vm_compute. reflexivity. Qed.

(** ** Operations on an open session *)

Section Operations.

Context (env : Env).

Lemma initialize_session_open w :
  exists s, session_open (exec (initialize_session env) w) s /\
    progress s = {| pages_completed := []; pages_in_progress := [];
                    pages_remaining := pages_keys;
                    total_pages := 13; completion_percentage := 0 |} /\
    error_summary s =
      {| critical := 0; high := 0; medium := 0; low := 0; total := 0 |}.
Proof.
  unfold session_open, initialize_session.
  open_world w; run_prims.
  all: destruct checkpoints0, pages_dir0, reports0; run_prims.
  all: eexists; (split; [split; [reflexivity|eauto]|split; reflexivity]).
Qed.

Lemma run_operation_session o w s :
  session_open w s ->
  exists s', session_open (exec (run_operation env o) w) s' /\ op_session o s s'.
Proof.
  intros [Hs [c Hc]].
  open_world w; cbn in Hs, Hc; [|done].
  unfold session_of in Hs; cbn in Hs. subst.
  unfold session_open.
  destruct o as [page_name st|page_name phase st|error_level]; cbn.
  - unfold create_checkpoint; run_prims.
    destruct checkpoint_counter_txt0; run_prims.
    all: destruct (bool_decide (st = "SUCCESS")); run_prims.
    all: try (destruct (mark_completed page_name (progress s)); run_prims).
    all: eexists; (split; [split; [reflexivity|eauto]|]).
    all: try (eexists; cbv zeta; reflexivity).
    all: by exists (InitInfo EmptyString EmptyString EmptyString EmptyString).
  - unfold create_micro_checkpoint; run_prims.
    destruct checkpoint_counter_txt0; run_prims.
    all: eexists; (split; [split; [reflexivity|eauto]|]).
    all: eexists; cbv zeta; reflexivity.
  - unfold update_error_count; run_prims.
    destruct (es_get error_level (error_summary s)); run_prims.
    all: eexists; (split; [split; [reflexivity|eauto]|]); reflexivity.
Qed.

(** An invariant of the session that holds after [initialize_session] and
    that every allowed operation keeps, holds after every run. *)
Lemma exec_operations_invariant (allowed : Operation -> Prop)
    (I : Session -> Prop) :
  (forall o s s', allowed o -> op_session o s s' -> I s -> I s') ->
  forall os w s, Forall allowed os -> session_open w s -> I s ->
    exists s', session_open (exec_operations env os w) s' /\ I s'.
Proof.
  intros Hkeep os. induction os as [|o os IH]; intros w s Hall Hopen HI; cbn.
  { eauto. }
  inversion Hall as [|? ? Ho Hos]; subst.
  destruct (run_operation_session o w s Hopen) as (s1 & Hopen1 & Hstep).
  eapply IH; [done|exact Hopen1|]. eapply Hkeep; eauto.
Qed.

End Operations.

(** ** The partition of the pages *)

Lemma elem_of_remove x y (l : list string) :
  NoDup l -> y ∈ Py.remove x l <-> y ∈ l /\ y <> x.
Proof.
  induction 1 as [|z l Hz Hl IH]; cbn.
  { set_solver. }
  case_bool_decide; subst.
  - split; [|set_solver]. intros Hy. split; [set_solver|]. by intros ->.
  - rewrite !elem_of_cons, IH. naive_solver.
Qed.

Lemma NoDup_remove x (l : list string) : NoDup l -> NoDup (Py.remove x l).
Proof.
  induction 1 as [|z l Hz Hl IH]; cbn; [constructor|].
  case_bool_decide; [done|].
  constructor; [|done]. rewrite elem_of_remove by done. naive_solver.
Qed.

Lemma mark_completed_partitioned page_name p p' :
  page_name ∈ pages_keys -> partitioned p ->
  mark_completed page_name p = Ok p' -> partitioned p'.
Proof.
  intros Hkey (Hnd & Hdisj & Hunion). unfold mark_completed.
  case_bool_decide as Hzero; [done|]. intros [= <-]. unfold partitioned; cbn.
  destruct (decide (page_name ∈ pages_completed p)) as [Hc|Hc].
  - assert (page_name ∉ pages_remaining p) as Hr by set_solver.
    rewrite (bool_decide_eq_true_2 _ Hc), (bool_decide_eq_false_2 _ Hr). done.
  - assert (page_name ∈ pages_remaining p) as Hr.
    { apply Hunion in Hkey. tauto. }
    rewrite (bool_decide_eq_false_2 _ Hc), (bool_decide_eq_true_2 _ Hr).
    split; [by apply NoDup_remove|]. split.
    + intros q Hq1 Hq2. apply elem_of_remove in Hq2 as [Hq2 Hne]; [|done].
      apply elem_of_app in Hq1 as [Hq1|Hq1]; [set_solver|].
      apply list_elem_of_singleton in Hq1. done.
    + intros q. rewrite elem_of_app, list_elem_of_singleton, elem_of_remove by done.
      rewrite <- Hunion. destruct (decide (q = page_name)); naive_solver.
Qed.

Lemma op_session_partitioned o s s' :
  registry_page o -> op_session o s s' ->
  partitioned (progress s) -> partitioned (progress s').
Proof.
  destruct o as [page_name st|page_name phase st|error_level]; cbn.
  - intros Hkey [info ->] Hp. case_bool_decide; [|done].
    destruct (mark_completed page_name (progress s)) as [p'|] eqn:Hmark; [|done].
    cbn. eapply mark_completed_partitioned; eauto.
  - by intros _ [info ->].
  - intros _ -> Hp. by destruct (es_get _ _).
Qed.

Section Session.

Context (env : Env).

(** C2: after [initialize_session] and any run of macro checkpoints for
    registry pages (with any status), micro checkpoints and error counts,
    [pages_completed] and [pages_remaining] are disjoint and together hold
    exactly the keys of the page registry. *)
Theorem pages_partition_invariant (w0 : World) (os : list Operation) :
  Forall registry_page os ->
  exists s,
    session_of (fs (exec_operations env os (exec (initialize_session env) w0)))
      = Some s /\
    pages_completed (progress s) ## pages_remaining (progress s) /\
    forall q, q ∈ pages_completed (progress s) \/ q ∈ pages_remaining (progress s)
              <-> q ∈ pages_keys.
Proof.
  intros Hos.
  destruct (initialize_session_open env w0) as (s0 & Hopen & Hprog & _).
  destruct (exec_operations_invariant env registry_page
              (fun s => partitioned (progress s))
              op_session_partitioned os _ s0 Hos Hopen)
    as (s & [Hs _] & _ & Hdisj & Hunion).
  { rewrite Hprog. unfold partitioned; cbn.
    split; [apply (bool_decide_unpack _); by vm_compute|]. split; [set_solver|].
    intros q. split; [|by right]. intros [Hq|Hq]; [set_solver|done]. }
  eauto.
Qed.

(** C3: [initialize_session] leaves a session whose [pages_remaining] is the
    list of registry keys in registry order, whose [pages_completed] is
    empty and whose [completion_percentage] is 0.0. *)
Theorem initialize_session_progress (w0 : World) :
  result (initialize_session env) w0 = Ok (uuid4 env (uuids_drawn w0)) /\
  exists s,
    session_of (fs (exec (initialize_session env) w0)) = Some s /\
    pages_remaining (progress s) = pages_keys /\
    pages_keys =
      ["home"; "dashboard"; "products"; "image-cataloging"; "scan"; "orders";
       "customers"; "reports"; "inventory-alerts"; "ai-assistant";
       "ai-assistant-custom-agents"; "ai-assistant-settings"; "settings"] /\
    pages_completed (progress s) = [] /\
    completion_percentage (progress s) = 0.
Proof.
  unfold initialize_session.
  open_world w0; run_prims.
  all: destruct checkpoints0, pages_dir0, reports0; run_prims.
  all: split; [reflexivity|]; eexists; split; [reflexivity|]; cbn; done.
Qed.

Lemma op_session_total o s s' :
  severity_level o -> op_session o s s' ->
  total (error_summary s) =
    critical (error_summary s) + high (error_summary s)
    + medium (error_summary s) + low (error_summary s) ->
  total (error_summary s') =
    critical (error_summary s') + high (error_summary s')
    + medium (error_summary s') + low (error_summary s').
Proof.
  destruct o as [page_name st|page_name phase st|error_level]; cbn.
  - intros _ [info ->] Hs. case_bool_decide; [|done].
    by destruct (mark_completed page_name (progress s)).
  - by intros _ [info ->].
  - intros Hlevel -> Hs.
    repeat (apply elem_of_cons in Hlevel as [->|Hlevel];
            [cbv -[Z.add] in Hs |- *; lia|]).
    by apply elem_of_nil in Hlevel.
Qed.

(** C10: after [initialize_session] and any run of error counts at the four
    severity levels, macro checkpoints and micro checkpoints, the [total]
    of [error_summary] is the sum of its four severity counts. *)
Theorem error_total_invariant (w0 : World) (os : list Operation) :
  Forall severity_level os ->
  exists s,
    session_of (fs (exec_operations env os (exec (initialize_session env) w0)))
      = Some s /\
    total (error_summary s) =
      critical (error_summary s) + high (error_summary s)
      + medium (error_summary s) + low (error_summary s).
Proof.
  intros Hos.
  destruct (initialize_session_open env w0) as (s0 & Hopen & _ & Herr).
  destruct (exec_operations_invariant env severity_level
              (fun s => total (error_summary s) =
                 critical (error_summary s) + high (error_summary s)
                 + medium (error_summary s) + low (error_summary s))
              op_session_total os _ s0 Hos Hopen)
    as (s & [Hs _] & Hsum).
  { by rewrite Herr. }
  eauto.
Qed.

(** C9: on an open session, [create_micro_checkpoint] returns the
    identifier of a record it appends to [checkpoint_history]; it writes
    no file in [checkpoints] (nor in [pages] or [reports]) and keeps every
    other field of the session. *)
Theorem micro_checkpoint_frame (w : World) (s : Session)
    (page_name phase st : string) :
  session_of (fs w) = Some s ->
  let w' := exec (create_micro_checkpoint env page_name phase st) w in
  exists id timestamp s',
    result (create_micro_checkpoint env page_name phase st) w = Ok id /\
    session_of (fs w') = Some s' /\
    checkpoint_history s' =
      checkpoint_history s ++ [MicroInfo id timestamp "MICRO" page_name phase st] /\
    checkpoints (fs w') = checkpoints (fs w) /\
    pages_dir (fs w') = pages_dir (fs w) /\
    reports (fs w') = reports (fs w) /\
    last_checkpoint s' = last_checkpoint s /\
    progress s' = progress s /\
    error_summary s' = error_summary s /\
    current_operation s' = current_operation s /\
    session_id s' = session_id s /\
    audit_start_time s' = audit_start_time s /\
    recovery_metadata s' = recovery_metadata s.
Proof.
  intros Hs.
  open_world w; unfold session_of in Hs; cbn in Hs; [subst|done].
  unfold create_micro_checkpoint; run_prims.
  destruct checkpoint_counter_txt0; run_prims.
  all: do 3 eexists; split; [reflexivity|]; split; [reflexivity|]; cbn; done.
Qed.

Lemma mark_completed_tidy page_name p :
  tidy p ->
  exists p',
    mark_completed page_name p = Ok p' /\ tidy p' /\
    page_name ∈ pages_completed p' /\ (page_name ∉ pages_remaining p') /\
    (forall q, q <> page_name ->
       (q ∈ pages_completed p' <-> q ∈ pages_completed p) /\
       (q ∈ pages_remaining p' <-> q ∈ pages_remaining p)) /\
    completion_percentage p' =
      Py.round1_div (Z.of_nat (length (pages_completed p')) * 100) 13 /\
    mark_completed page_name p' = Ok p'.
Proof.
  intros (Hc & Hr & Ht). unfold mark_completed. rewrite Ht.
  rewrite (bool_decide_eq_false_2 (13 = 0)) by done.
  eexists. split; [reflexivity|]. unfold tidy; cbn.
  set (completed := if bool_decide (page_name ∈ pages_completed p)
                    then pages_completed p
                    else pages_completed p ++ [page_name]).
  set (remaining := if bool_decide (page_name ∈ pages_remaining p)
                    then Py.remove page_name (pages_remaining p)
                    else pages_remaining p).
  assert (NoDup completed /\
          forall q, q ∈ completed <-> q ∈ pages_completed p \/ q = page_name)
    as [Hc' Hcin].
  { subst completed. case_bool_decide as Hin.
    - split; [done|]. intros q. split; [tauto|]. by intros [?| ->].
    - split.
      + apply NoDup_app; repeat split; [done| |apply NoDup_singleton].
        intros q Hq ->%list_elem_of_singleton. done.
      + intros q. by rewrite elem_of_app, list_elem_of_singleton. }
  assert (NoDup remaining /\
          forall q, q ∈ remaining <-> q ∈ pages_remaining p /\ q <> page_name)
    as [Hr' Hrin].
  { subst remaining. case_bool_decide as Hin.
    - split; [by apply NoDup_remove|]. intros q. by apply elem_of_remove.
    - split; [done|]. intros q. split; [|tauto].
      intros Hq. split; [done|]. by intros ->. }
  assert (page_name ∈ completed) as Hin by (apply Hcin; by right).
  assert (page_name ∉ remaining) as Hout by (rewrite Hrin; tauto).
  rewrite (bool_decide_eq_true_2 _ Hin), (bool_decide_eq_false_2 _ Hout).
  repeat split; try done.
  - rewrite Hcin. tauto.
  - rewrite Hcin. tauto.
  - rewrite Hrin. tauto.
  - rewrite Hrin. tauto.
Qed.

Lemma op_session_tidy o s s' :
  op_session o s s' -> tidy (progress s) -> tidy (progress s').
Proof.
  destruct o as [page_name st|page_name phase st|error_level]; cbn.
  - intros [info ->] Hp. case_bool_decide; [|done].
    destruct (mark_completed_tidy page_name _ Hp) as (p' & -> & Hp' & _).
    exact Hp'.
  - by intros [info ->].
  - intros -> Hp. by destruct (es_get _ _).
Qed.

(** A macro checkpoint with status SUCCESS on an open, tidy session. *)
Lemma create_checkpoint_success w s page_name :
  session_open w s -> tidy (progress s) ->
  exists id p' s',
    create_checkpoint env page_name "SUCCESS" w
      = (exec (create_checkpoint env page_name "SUCCESS") w, Ok id) /\
    mark_completed page_name (progress s) = Ok p' /\
    session_open (exec (create_checkpoint env page_name "SUCCESS") w) s' /\
    progress s' = p'.
Proof.
  intros [Hs [c Hc]] Hp.
  destruct (mark_completed_tidy page_name _ Hp) as (p' & Hmark & _).
  open_world w; cbn in Hs, Hc; [|done].
  unfold session_of in Hs; cbn in Hs. subst.
  unfold session_open, create_checkpoint; run_prims.
  destruct checkpoint_counter_txt0; run_prims; rewrite Hmark; run_prims.
  all: do 3 eexists; split; [reflexivity|]; split; [reflexivity|].
  all: split; [split; [reflexivity|eauto]|reflexivity].
Qed.

(** C4: on any session reached from [initialize_session], a macro
    checkpoint with status SUCCESS puts the page in [pages_completed]
    exactly once and takes it out of [pages_remaining], touching no other
    page; a second one for the same page leaves [pages_completed],
    [pages_remaining] and [completion_percentage] as they are. *)
Theorem success_checkpoint_idempotent (w0 : World) (os : list Operation)
    (page_name : string) :
  let w := exec_operations env os (exec (initialize_session env) w0) in
  let w1 := exec (create_checkpoint env page_name "SUCCESS") w in
  let w2 := exec (create_checkpoint env page_name "SUCCESS") w1 in
  exists s s1 s2 id1 id2,
    session_of (fs w) = Some s /\
    session_of (fs w1) = Some s1 /\
    session_of (fs w2) = Some s2 /\
    result (create_checkpoint env page_name "SUCCESS") w = Ok id1 /\
    result (create_checkpoint env page_name "SUCCESS") w1 = Ok id2 /\
    count_occ string_dec (pages_completed (progress s1)) page_name = 1%nat /\
    (page_name ∉ pages_remaining (progress s1)) /\
    (forall q, q <> page_name ->
       (q ∈ pages_completed (progress s1) <-> q ∈ pages_completed (progress s)) /\
       (q ∈ pages_remaining (progress s1) <-> q ∈ pages_remaining (progress s))) /\
    completion_percentage (progress s1) =
      Py.round1_div (Z.of_nat (length (pages_completed (progress s1))) * 100) 13 /\
    pages_completed (progress s2) = pages_completed (progress s1) /\
    pages_remaining (progress s2) = pages_remaining (progress s1) /\
    completion_percentage (progress s2) = completion_percentage (progress s1).
Proof.
  intros w w1 w2.
  destruct (initialize_session_open env w0) as (s0 & Hopen0 & Hprog & _).
  destruct (exec_operations_invariant env (fun _ => True)
              (fun s => tidy (progress s))
              (fun o s s' _ => op_session_tidy o s s') os _ s0
              (Forall_true _ _ (fun _ => I)) Hopen0)
    as (s & Hopen & Htidy).
  { rewrite Hprog. unfold tidy; cbn.
    split; [constructor|]. split; [|done].
    apply (bool_decide_unpack _); by vm_compute. }
  fold w in Hopen.
  destruct (create_checkpoint_success w s page_name Hopen Htidy)
    as (id1 & p1 & s1 & Hrun1 & Hmark1 & Hopen1 & Hp1).
  destruct (mark_completed_tidy page_name _ Htidy)
    as (p1' & Hmark1' & Htidy1 & Hin & Hout & Hothers & Hpct & Hagain).
  assert (p1' = p1) as -> by congruence.
  fold w1 in Hrun1, Hopen1. rewrite <- Hp1 in Htidy1, Hin, Hout, Hothers, Hpct, Hagain.
  destruct (create_checkpoint_success w1 s1 page_name Hopen1 Htidy1)
    as (id2 & p2 & s2 & Hrun2 & Hmark2 & Hopen2 & Hp2).
  fold w2 in Hrun2, Hopen2.
  assert (p2 = progress s1) as -> by congruence.
  exists s, s1, s2, id1, id2.
  destruct Hopen as [Hs _], Hopen1 as [Hs1 _], Hopen2 as [Hs2 _].
  unfold result. rewrite Hrun1, Hrun2, Hp2. cbn.
  repeat split; try done; try apply Hothers; try done.
  destruct Htidy1 as (Hnd & _).
  apply NoDup_ListNoDup in Hnd.
  apply (proj1 (NoDup_count_occ' string_dec _) Hnd page_name).
  by apply list_elem_of_In.
Qed.

End Session.

(** ** Page audits *)

Lemma triple_ret {A} (P : World -> Prop) (a : A) (Q : A -> World -> Prop) E :
  (forall w, P w -> Q a w) -> triple P (mret a) Q E.
Proof. intros H w Hw. cbn. auto. Qed.

Lemma triple_bind {A B} (P : World -> Prop) (m : M A) (f : A -> M B)
    (R : A -> World -> Prop) (Q : B -> World -> Prop) E :
  triple P m R E -> (forall a, triple (R a) (f a) Q E) ->
  triple P (m ≫= f) Q E.
Proof.
  intros Hm Hf w Hw. specialize (Hm w Hw).
  unfold mbind, M_bind. destruct (m w) as [w' [a|e]]; [|done].
  by apply Hf.
Qed.

Lemma triple_weaken {A} (P P' : World -> Prop) (m : M A)
    (Q Q' : A -> World -> Prop) E :
  triple P' m Q' E -> (forall w, P w -> P' w) ->
  (forall a w, Q' a w -> Q a w) -> triple P m Q E.
Proof.
  intros Hm HP HQ w Hw. specialize (Hm w (HP w Hw)).
  destruct (m w) as [w' [a|e]]; auto.
Qed.

(** A value that does not depend on the world can be named ahead. *)
Lemma triple_returns {A} (P : World -> Prop) (m : M A)
    (Q : A -> World -> Prop) w :
  triple P m Q never -> P w ->
  exists a, m w = (exec m w, Ok a) /\ Q a (exec m w).
Proof.
  intros Hm Hw. specialize (Hm w Hw). unfold exec.
  destruct (m w) as [w' [a|e]]; [|done]. eauto.
Qed.

Section Audit.

Context (env : Env).

Ltac open_ready w H :=
  let s := fresh "s" in
  let Hs := fresh "Hs" in
  let c := fresh "c" in let Hc := fresh "Hc" in
  let pg := fresh "pg" in let Hpg := fresh "Hpg" in
  let Ht := fresh "Ht" in let Hn := fresh "Hn" in let Hh := fresh "Hh" in
  destruct H as (s & [Hs [c Hc]] & [pg Hpg] & Ht & Hn & Hh);
  open_world w; unfold session_of in Hs; cbn in Hs, Hc, Hpg, Hn; [|done];
  subst.

Ltac close_ready :=
  unfold ready, session_open;
  eexists; split; [split; [reflexivity|eauto]|];
  split; [eauto|]; split; [eassumption|]; split; reflexivity.

Lemma update_error_count_ready n h level :
  level ∈ ["critical"; "high"; "medium"; "low"] ->
  triple (ready n h) (update_error_count level) (fun _ => ready n h) never.
Proof.
  intros Hlevel w Hw. open_ready w Hw.
  unfold update_error_count; run_prims.
  repeat (apply elem_of_cons in Hlevel as [->|Hlevel];
          [vm_compute es_get; run_prims; close_ready|]).
  by apply elem_of_nil in Hlevel.
Qed.

Lemma save_test_results_ready n h page_name phase test_results :
  triple (ready n h) (save_test_results env page_name phase test_results)
    (fun _ => ready n h) never.
Proof.
  intros w Hw. open_ready w Hw.
  unfold save_test_results; run_prims. close_ready.
Qed.

Lemma http_get_ready n h page_url timeout :
  triple (ready n h) (http_get env page_url timeout)
    (fun r w => r = requests_get env n page_url timeout /\ ready (S n) h w) never.
Proof.
  intros w Hw. open_ready w Hw. run_prims. split; [done|close_ready].
Qed.

Lemma unix_time_ready n h :
  triple (ready n h) (unix_time env) (fun _ => ready n h) never.
Proof. intros w Hw. open_ready w Hw. run_prims. close_ready. Qed.

Lemma create_micro_checkpoint_ready n h page_name phase st :
  triple (ready n h) (create_micro_checkpoint env page_name phase st)
    (fun _ => ready n (h ++ [(Some phase, st)])) never.
Proof.
  intros w Hw. open_ready w Hw.
  unfold create_micro_checkpoint; run_prims.
  destruct checkpoint_counter_txt0; run_prims.
  all: unfold ready, session_open; eexists; split; [split; [reflexivity|eauto]|].
  all: split; [eauto|]; split; [eassumption|]; split; [reflexivity|].
  all: cbn; by rewrite map_app.
Qed.

Lemma triple_pure {A} (phi : Prop) (P : World -> Prop) (m : M A) Q E :
  (phi -> triple P m Q E) -> triple (fun w => phi /\ P w) m Q E.
Proof. intros H w [Hphi Hw]. by apply H. Qed.

Lemma triple_ret_eq {A} (P : World -> Prop) (x : A) E :
  triple P (mret x) (fun v w => v = x /\ P w) E.
Proof. by apply triple_ret. Qed.

Lemma triple_if {A} (P : World -> Prop) (c : bool) (m1 m2 : M A) (x y : A)
    (R : World -> Prop) E :
  triple P m1 (fun v w => v = x /\ R w) E ->
  triple P m2 (fun v w => v = y /\ R w) E ->
  triple P (if c then m1 else m2) (fun v w => v = (if c then x else y) /\ R w) E.
Proof. by destruct c. Qed.

Lemma triple_count {A} n h level (y : A) :
  level ∈ ["critical"; "high"; "medium"; "low"] ->
  triple (ready n h) (update_error_count level;; mret y)
    (fun v w => v = y /\ ready n h w) never.
Proof.
  intros Hlevel. eapply triple_bind; [by apply update_error_count_ready|].
  intros []. apply triple_ret_eq.
Qed.

(** One statement of a method: run it with the lemma [by tac] finds, then
    name its value. *)
Ltac step tac :=
  eapply triple_bind; [tac|];
  let v := fresh "v" in intros v;
  try (apply triple_pure; intros ->).

Ltac branches :=
  repeat first
    [ apply triple_ret_eq
    | apply triple_count; set_solver
    | eapply triple_if ].

Ltac finish :=
  first [ apply triple_ret; intros ? ?; split; [reflexivity|eassumption]
        | apply triple_ret_eq ].

(** Each phase returns a value fixed by the responses it receives, and leaves
    the session open. *)
Lemma test_page_accessibility_ready n page_name page_url :
  exists b, forall h,
    triple (ready n h) (test_page_accessibility env page_name page_url)
      (fun v w => v = b /\ ready (S n) h w) never.
Proof.
  unfold test_page_accessibility.
  destruct (requests_get env n page_url 10) as [response|e] eqn:Hget;
    eexists; intros h.
  - step ltac:(apply http_get_ready). rewrite Hget.
    step branches. step branches. step branches.
    step ltac:(apply save_test_results_ready). finish.
  - step ltac:(apply http_get_ready). rewrite Hget.
    step ltac:(apply save_test_results_ready).
    step ltac:(apply update_error_count_ready; set_solver). finish.
Qed.

Lemma test_page_navigation_ready n page_name page_url :
  exists b, forall h,
    triple (ready n h) (test_page_navigation env page_name page_url)
      (fun v w => v = b /\ ready (S n) h w) never.
Proof.
  unfold test_page_navigation.
  destruct (requests_get env n page_url 10) as [response|e] eqn:Hget.
  - destruct (nav_loop nav_tests (Py.lower (text response)) [] 0)
      as [results nav_pass_count] eqn:Hloop.
    eexists; intros h.
    step ltac:(apply http_get_ready). rewrite Hget, Hloop.
    step branches.
    step ltac:(apply save_test_results_ready). finish.
  - eexists; intros h.
    step ltac:(apply http_get_ready). rewrite Hget.
    step ltac:(apply save_test_results_ready).
    step ltac:(apply update_error_count_ready; set_solver). finish.
Qed.

Lemma keyword_check_ready n h name terms miss level page_content test_results :
  level ∈ ["critical"; "high"; "medium"; "low"] ->
  triple (ready n h)
    (keyword_check name terms miss level page_content test_results)
    (fun v w => v = keyword_result name terms miss page_content test_results
                /\ ready n h w) never.
Proof.
  intros Hlevel. unfold keyword_check, keyword_result.
  eapply triple_if; [apply triple_ret_eq|by apply triple_count].
Qed.

Lemma test_page_specific_functionality_ready n h page_name page_content
    test_results :
  triple (ready n h)
    (test_page_specific_functionality page_name page_content test_results)
    (fun v w => v = specific_results page_name page_content test_results
                /\ ready n h w) never.
Proof.
  unfold test_page_specific_functionality, specific_results.
  repeat case_bool_decide; [| | |destruct (Py.str_in _ page_name)].
  - step ltac:(apply keyword_check_ready; set_solver).
    apply keyword_check_ready; set_solver.
  - apply keyword_check_ready; set_solver.
  - apply keyword_check_ready; set_solver.
  - apply keyword_check_ready; set_solver.
  - apply triple_ret_eq.
Qed.

Lemma test_page_functionality_ready n page_name page_url :
  exists b, forall h,
    triple (ready n h) (test_page_functionality env page_name page_url)
      (fun v w => v = b /\ ready (S n) h w) never.
Proof.
  unfold test_page_functionality.
  destruct (requests_get env n page_url 10) as [response|e] eqn:Hget;
    eexists; intros h.
  - step ltac:(apply http_get_ready). rewrite Hget.
    step branches. step branches. step branches.
    step ltac:(apply test_page_specific_functionality_ready).
    step ltac:(apply save_test_results_ready). finish.
  - step ltac:(apply http_get_ready). rewrite Hget.
    step ltac:(apply save_test_results_ready).
    step ltac:(apply update_error_count_ready; set_solver). finish.
Qed.

Lemma test_error_handling_ready n h page_name page_url :
  triple (ready n h) (test_error_handling env page_name page_url)
    (fun v w => v = true /\ ready (S (S n)) h w) never.
Proof.
  unfold test_error_handling.
  step ltac:(apply unix_time_ready).
  step ltac:(apply http_get_ready).
  eapply triple_bind with (R := fun _ => ready (S n) h).
  { destruct (requests_get env n _ 5) as [response|e];
      (eapply triple_weaken; [branches|done|by intros ? ? [_ ?]]). }
  intros v0.
  step ltac:(apply http_get_ready).
  step ltac:(apply save_test_results_ready). finish.
Qed.

Lemma read_session_file_ready n h :
  triple (ready n h) read_session_file
    (fun s w => ready n h w /\ session_of (fs w) = Some s) never.
Proof.
  intros w Hw. pose proof Hw as Hw'. open_ready w Hw. run_prims. done.
Qed.

Lemma now_ready n h s :
  triple (fun w => ready n h w /\ session_of (fs w) = Some s) (now env)
    (fun _ w => ready n h w /\ session_of (fs w) = Some s) never.
Proof. intros w [Hw Hs]. by run_prims. Qed.

Lemma write_operation_ready n h s o :
  triple (fun w => ready n h w /\ session_of (fs w) = Some s)
    (write_session_file (set_current_operation o s))
    (fun _ => ready n h) never.
Proof.
  intros w [Hw Hs']. open_ready w Hw. run_prims.
  unfold session_of in Hs'; cbn in Hs'. injection Hs' as ->.
  close_ready.
Qed.

Lemma create_page_summary_ready n h page_name page_url overall_status
    phase_results :
  triple (ready n h)
    (create_page_summary env page_name page_url overall_status phase_results)
    (fun _ => ready n h) never.
Proof.
  intros w Hw. open_ready w Hw.
  unfold create_page_summary; run_prims. close_ready.
Qed.

Lemma create_checkpoint_ready n h page_name st :
  triple (ready n h) (create_checkpoint env page_name st)
    (fun _ => ready n (h ++ [(Some "complete", st)])) never.
Proof.
  intros w Hw. open_ready w Hw.
  unfold create_checkpoint, mark_completed; run_prims.
  destruct checkpoint_counter_txt0, (bool_decide (st = "SUCCESS")); run_prims.
  all: rewrite ?(bool_decide_eq_false_2 _ Ht); run_prims.
  all: unfold ready, session_open; eexists; split; [split; [reflexivity|eauto]|].
  all: split; [eauto|]; split; [eassumption|]; split; [reflexivity|].
  all: cbn; by rewrite map_app.
Qed.

Ltac micro_then_ret :=
  eapply triple_bind;
  [ eapply triple_bind;
    [apply create_micro_checkpoint_ready|intros ?; apply triple_ret_eq]
  | let v := fresh "v" in intros v; apply triple_pure; intros ->; cbn ].

(** A page audit on a ready world: it returns, the three checked phases
    return the values [a], [nv] and [f] named ahead, and the history gains
    the nine entries of the audit. *)
Lemma audit_page_ready n page_name page_info :
  pages_get page_name pages = Some page_info ->
  exists a nv f : bool,
    (forall h, triple (ready n h)
       (test_page_accessibility env page_name (url page_info))
       (fun v _ => v = a) never) /\
    (forall h, triple (ready (S n) h)
       (test_page_navigation env page_name (url page_info))
       (fun v _ => v = nv) never) /\
    (forall h, triple (ready (S (S n)) h)
       (test_page_functionality env page_name (url page_info))
       (fun v _ => v = f) never) /\
    forall h, triple (ready n h) (audit_page env page_name)
      (fun v w =>
         v = a && f /\
         ready (S (S (S (S (S n)))))
           (h ++ [(Some "accessibility_start", "IN_PROGRESS");
                  (Some "accessibility_complete", phase_status a)]
              ++ [(Some "navigation_start", "IN_PROGRESS");
                  (Some "navigation_complete", phase_status nv)]
              ++ [(Some "functionality_start", "IN_PROGRESS");
                  (Some "functionality_complete", phase_status f)]
              ++ [(Some "error_handling_start", "IN_PROGRESS");
                  (Some "error_handling_complete", "SUCCESS")]
              ++ [(Some "complete", phase_status (a && f))]) w) never.
Proof.
  intros Hpage.
  destruct (test_page_accessibility_ready n page_name (url page_info))
    as [a Ha].
  destruct (test_page_navigation_ready (S n) page_name (url page_info))
    as [nv Hnv].
  destruct (test_page_functionality_ready (S (S n)) page_name (url page_info))
    as [f Hf].
  exists a, nv, f.
  split; [|split; [|split]].
  { intros h. eapply triple_weaken; [apply Ha|done|]. by intros ? ? [? _]. }
  { intros h. eapply triple_weaken; [apply Hnv|done|]. by intros ? ? [? _]. }
  { intros h. eapply triple_weaken; [apply Hf|done|]. by intros ? ? [? _]. }
  intros h. unfold audit_page. rewrite Hpage.
  step ltac:(apply read_session_file_ready).
  step ltac:(apply now_ready).
  step ltac:(apply write_operation_ready).
  destruct a, nv, f.
  all: step ltac:(apply create_micro_checkpoint_ready).
  all: step ltac:(apply Ha).
  all: micro_then_ret.
  all: step ltac:(apply create_micro_checkpoint_ready).
  all: step ltac:(apply Hnv).
  all: micro_then_ret.
  all: step ltac:(apply create_micro_checkpoint_ready).
  all: step ltac:(apply Hf).
  all: micro_then_ret.
  all: step ltac:(apply create_micro_checkpoint_ready).
  all: step ltac:(apply test_error_handling_ready).
  all: micro_then_ret.
  all: step ltac:(apply create_page_summary_ready).
  all: step ltac:(apply create_checkpoint_ready).
  all: apply triple_ret; intros w Hw; split; [reflexivity|].
  all: by rewrite <- !app_assoc in Hw.
Qed.

Ltac open_opened w H :=
  let Hs := fresh "Hs" in
  let Hpg := fresh "Hpg" in let Hn := fresh "Hn" in
  destruct H as (Hs & Hpg & Hn);
  open_world w; unfold session_of in Hs; cbn in Hs, Hpg, Hn; [|done];
  subst.

Lemma update_error_count_opened n pg s level :
  level ∈ ["critical"; "high"; "medium"; "low"] ->
  triple (opened n pg s) (update_error_count level)
    (fun _ => opened n pg
       (set_error_summary (count_error (Some level) (error_summary s)) s))
    never.
Proof.
  intros Hlevel w Hw. open_opened w Hw.
  unfold update_error_count; run_prims.
  destruct s as [? ? ? ? ? ? [? ? ? ? ?] ?].
  repeat (apply elem_of_cons in Hlevel as [->|Hlevel];
          [vm_compute es_get; run_prims; unfold opened, session_of; cbn;
           split; [|done]; cbv -[Z.add]; do 3 f_equal; f_equal; lia|]).
  by apply elem_of_nil in Hlevel.
Qed.

Lemma http_get_opened n pg s page_url timeout :
  triple (opened n pg s) (http_get env page_url timeout)
    (fun r w => r = requests_get env n page_url timeout /\ opened (S n) pg s w)
    never.
Proof. intros w Hw. open_opened w Hw. by run_prims. Qed.

Lemma save_test_results_opened n pg s page_name phase test_results :
  triple (opened n pg s) (save_test_results env page_name phase test_results)
    (fun _ w => exists timestamp,
       opened n (<[page_name +:+ "_" +:+ phase +:+ "_results.json" :=
                     ResultsJson page_name phase timestamp test_results]> pg) s w)
    never.
Proof.
  intros w Hw. open_opened w Hw.
  unfold save_test_results; run_prims. by eexists.
Qed.

Lemma triple_count_opened {A} n pg s level (y : A) :
  level ∈ ["critical"; "high"; "medium"; "low"] ->
  triple (opened n pg s) (update_error_count level;; mret y)
    (fun v w => v = y /\
       opened n pg
         (set_error_summary (count_error (Some level) (error_summary s)) s) w)
    never.
Proof.
  intros Hlevel. eapply triple_bind; [by apply update_error_count_opened|].
  intros []. apply triple_ret_eq.
Qed.

Lemma triple_if_opened {A} n pg s (c : bool) (m1 m2 : M A) (x y : A) s1 s2 :
  triple (opened n pg s) m1 (fun v w => v = x /\ opened n pg s1 w) never ->
  triple (opened n pg s) m2 (fun v w => v = y /\ opened n pg s2 w) never ->
  triple (opened n pg s) (if c then m1 else m2)
    (fun v w => v = (if c then x else y) /\
                opened n pg (if c then s1 else s2) w) never.
Proof. by destruct c. Qed.

Ltac branches_opened :=
  repeat first
    [ apply triple_ret_eq
    | apply triple_count_opened; set_solver
    | eapply triple_if_opened ].

Lemma ltb_bool_decide (a b : Z) : (a <? b) = bool_decide (a < b).
Proof.
  destruct (Z.ltb_spec a b).
  - by rewrite bool_decide_eq_true_2.
  - rewrite bool_decide_eq_false_2; [done|lia].
Qed.

(** C7: on an open session, the accessibility phase classifies a response
    by the fixed thresholds of the policy: it saves the three results
    [http_status], [response_time] and [content_length] with the policy's
    statuses, counts the policy's severities in [error_summary], and passes
    unless a status is FAIL.  For status 200, 500 ms and 5000 bytes the three
    results are PASS, the phase passes and the session is unchanged. *)
Theorem accessibility_thresholds (w : World) (s : Session)
    (pg : gmap string PagesFile) (page_name page_url : string) (r : Response) :
  session_of (fs w) = Some s ->
  pages_dir (fs w) = Some pg ->
  requests_get env (requests_sent w) page_url 10 = Responded r ->
  let w' := exec (test_page_accessibility env page_name page_url) w in
  let policy := accessibility_policy r in
  exists test_results timestamp,
    result (test_page_accessibility env page_name page_url) w
      = Ok (policy_passes policy) /\
    pages_dir (fs w') =
      Some (<[page_name +:+ "_accessibility_results.json" :=
                ResultsJson page_name "accessibility" timestamp test_results]> pg) /\
    map (fun t => (test t, status t)) test_results
      = map (fun v => (v.1, v.2.1)) policy /\
    session_of (fs w') =
      Some (set_error_summary
              (foldl (fun e v => count_error v.2.2 e) (error_summary s) policy) s) /\
    (status_code r = 200 -> response_time_ms r = 500 ->
     length (content r) = 5000%nat ->
     map status test_results = [PASS; PASS; PASS] /\
     result (test_page_accessibility env page_name page_url) w = Ok true /\
     session_of (fs w') = Some s).
Proof.
  intros Hs Hpg Hget w' policy.
  assert (opened (requests_sent w) pg s w) as Hopened by done.
  eassert (triple (opened (requests_sent w) pg s)
             (test_page_accessibility env page_name page_url)
             (fun v w1 => v = _ /\ exists timestamp,
                opened (S (requests_sent w))
                  (<[page_name +:+ "_" +:+ "accessibility" +:+ "_results.json" :=
                       ResultsJson page_name "accessibility" timestamp _]> pg)
                  _ w1) never)
    as Htriple.
  { unfold test_page_accessibility.
    step ltac:(apply http_get_opened). rewrite Hget.
    step branches_opened. step branches_opened. step branches_opened.
    step ltac:(apply save_test_results_opened).
    apply triple_ret. intros w1 Hw1. split; [reflexivity|exact Hw1]. }
  destruct (triple_returns _ _ _ w Htriple Hopened)
    as (v & Hrun & -> & timestamp & Hs' & Hpg' & _).
  fold w' in Hrun, Hs', Hpg'. clear Htriple.
  unfold result. rewrite Hrun, Hs', Hpg'. cbn [snd].
  subst policy. unfold accessibility_policy, http_status_policy,
    response_time_policy, content_length_policy.
  rewrite !ltb_bool_decide.
  rewrite (bool_decide_ext (Z.of_nat (length (content r)) > 1000)
             (1000 < Z.of_nat (length (content r)))) by lia.
  do 2 eexists. split; [|split; [reflexivity|]].
  all: destruct (bool_decide (status_code r = 200)) eqn:E1;
    destruct (bool_decide (response_time_ms r < 3000)) eqn:E2;
    destruct (bool_decide (response_time_ms r < 5000)) eqn:E3;
    destruct (bool_decide (1000 < Z.of_nat (length (content r)))) eqn:E4.
  all: try reflexivity.
  all: split; [reflexivity|].
  all: split;
    [|intros H200 H500 H5000;
      first [ apply bool_decide_eq_false in E1; exfalso; lia
            | apply bool_decide_eq_false in E2; exfalso; lia
            | apply bool_decide_eq_false in E4; exfalso; lia
            | apply bool_decide_eq_true in E2; apply bool_decide_eq_false in E3;
              exfalso; lia
            | done ]].
  all: destruct s as [? ? ? ? ? ? [? ? ? ? ?] ?].
  all: cbv -[Z.add]; do 2 f_equal; f_equal; lia.
Qed.

(** C5: a page audit on a ready world returns [a && f], where [a] is what
    the accessibility phase returns and [f] what the functionality phase
    returns for the responses of this audit; the macro checkpoint it records
    has status SUCCESS exactly when both are true.  What the navigation
    phase returns ([nv]) and what the error-handling phase returns have no
    part in it. *)
Theorem audit_page_overall_status (w : World) (n : nat)
    (h : list (option string * string)) (page_name : string)
    (page_info : PageInfo) :
  ready n h w ->
  pages_get page_name pages = Some page_info ->
  exists a nv f : bool,
    (forall w1 h1, ready n h1 w1 ->
       result (test_page_accessibility env page_name (url page_info)) w1 = Ok a) /\
    (forall w2 h2, ready (S n) h2 w2 ->
       result (test_page_navigation env page_name (url page_info)) w2 = Ok nv) /\
    (forall w3 h3, ready (S (S n)) h3 w3 ->
       result (test_page_functionality env page_name (url page_info)) w3 = Ok f) /\
    result (audit_page env page_name) w = Ok (a && f) /\
    (a && f = true <-> a = true /\ f = true) /\
    exists s',
      session_of (fs (exec (audit_page env page_name) w)) = Some s' /\
      map entry_phase_status (checkpoint_history s') =
        h ++ [(Some "accessibility_start", "IN_PROGRESS");
              (Some "accessibility_complete", if a then "SUCCESS" else "FAILED");
              (Some "navigation_start", "IN_PROGRESS");
              (Some "navigation_complete", if nv then "SUCCESS" else "FAILED");
              (Some "functionality_start", "IN_PROGRESS");
              (Some "functionality_complete", if f then "SUCCESS" else "FAILED");
              (Some "error_handling_start", "IN_PROGRESS");
              (Some "error_handling_complete", "SUCCESS");
              (Some "complete", if a && f then "SUCCESS" else "FAILED")].
Proof.
  intros Hw Hpage.
  destruct (audit_page_ready n page_name page_info Hpage)
    as (a & nv & f & Ha & Hnv & Hf & Haudit).
  exists a, nv, f.
  split; [|split; [|split]].
  - intros w1 h1 Hw1.
    destruct (triple_returns _ _ _ w1 (Ha h1) Hw1) as (v & Hrun & ->).
    unfold result. by rewrite Hrun.
  - intros w2 h2 Hw2.
    destruct (triple_returns _ _ _ w2 (Hnv h2) Hw2) as (v & Hrun & ->).
    unfold result. by rewrite Hrun.
  - intros w3 h3 Hw3.
    destruct (triple_returns _ _ _ w3 (Hf h3) Hw3) as (v & Hrun & ->).
    unfold result. by rewrite Hrun.
  - destruct (triple_returns _ _ _ w (Haudit h) Hw)
      as (v & Hrun & -> & s' & [Hs' _] & _ & _ & _ & Hh).
    unfold result. rewrite Hrun. split; [done|].
    split; [apply andb_true_iff|].
    exists s'. split; [done|]. rewrite Hh. reflexivity.
Qed.

Lemma triple_any {A} (m : M A) :
  triple (fun _ => True) m (fun _ _ => True) (fun _ => True).
Proof. intros w _. by destruct (m w) as [w' [a|e]]. Qed.

(** *** The history under a page audit, in any world *)

Lemma keeps_ret {A} (I : World -> Prop) (a : A) : keeps I (mret a).
Proof. by apply triple_ret. Qed.

Lemma keeps_bind {A B} (I : World -> Prop) (m : M A) (f : A -> M B) :
  keeps I m -> (forall a, keeps I (f a)) -> keeps I (m ≫= f).
Proof. intros Hm Hf. eapply triple_bind; [exact Hm|exact Hf]. Qed.

Lemma keeps_if {A} (I : World -> Prop) (c : bool) (m1 m2 : M A) :
  keeps I m1 -> keeps I m2 -> keeps I (if c then m1 else m2).
Proof. by destruct c. Qed.

Ltac open_extends w H :=
  let s := fresh "s" in let added := fresh "added" in
  let Hs := fresh "Hs" in let Hh := fresh "Hh" in let Hok := fresh "Hok" in
  destruct H as (s & added & Hs & Hh & Hok);
  open_world w; unfold session_of in Hs; cbn in Hs; [|done];
  subst.

Ltac close_extends :=
  unfold extends, session_of; cbn;
  eexists; eexists; split; [reflexivity|]; split; eassumption.

Lemma update_error_count_keeps s0 level :
  keeps (extends s0) (update_error_count level).
Proof.
  intros w Hw. open_extends w Hw.
  unfold update_error_count; run_prims.
  destruct (es_get level (error_summary s)); run_prims; close_extends.
Qed.

Lemma save_test_results_keeps s0 page_name phase test_results :
  keeps (extends s0) (save_test_results env page_name phase test_results).
Proof.
  intros w Hw. open_extends w Hw.
  unfold save_test_results; run_prims.
  destruct pages_dir0; run_prims; close_extends.
Qed.

Lemma create_page_summary_keeps s0 page_name page_url overall_status
    phase_results :
  keeps (extends s0)
    (create_page_summary env page_name page_url overall_status phase_results).
Proof.
  intros w Hw. open_extends w Hw.
  unfold create_page_summary; run_prims.
  destruct pages_dir0; run_prims; close_extends.
Qed.

Lemma http_get_keeps s0 page_url timeout :
  keeps (extends s0) (http_get env page_url timeout).
Proof. intros w Hw. open_extends w Hw. run_prims. close_extends. Qed.

Lemma unix_time_keeps s0 : keeps (extends s0) (unix_time env).
Proof. intros w Hw. open_extends w Hw. run_prims. close_extends. Qed.

Lemma extends_append s0 s added info :
  checkpoint_history s = checkpoint_history s0 ++ added ->
  Forall no_warning added -> no_warning info ->
  checkpoint_history s ++ [info] = checkpoint_history s0 ++ (added ++ [info]) /\
  Forall no_warning (added ++ [info]).
Proof.
  intros -> Hok Hinfo. split; [by rewrite app_assoc|].
  apply Forall_app. split; [done|]. by constructor.
Qed.

Lemma create_micro_checkpoint_keeps s0 page_name phase st :
  st <> "WARNING" ->
  keeps (extends s0) (create_micro_checkpoint env page_name phase st).
Proof.
  intros Hst w Hw. open_extends w Hw.
  unfold create_micro_checkpoint; run_prims.
  destruct checkpoint_counter_txt0; run_prims.
  all: unfold extends, session_of; cbn.
  all: eexists; eexists; split; [reflexivity|]; cbn.
  all: eapply extends_append; [done|done|].
  all: unfold no_warning; cbn; congruence.
Qed.

Lemma create_checkpoint_keeps s0 page_name st :
  st <> "WARNING" ->
  keeps (extends s0) (create_checkpoint env page_name st).
Proof.
  intros Hst w Hw. open_extends w Hw.
  unfold create_checkpoint; run_prims.
  destruct checkpoint_counter_txt0, (bool_decide (st = "SUCCESS")); run_prims.
  all: try (destruct (mark_completed page_name (progress s)); run_prims).
  all: try (destruct checkpoints0; run_prims).
  all: try close_extends.
  all: unfold extends, session_of; cbn.
  all: eexists; eexists; split; [reflexivity|]; cbn.
  all: eapply extends_append; [done|done|].
  all: unfold no_warning; cbn; congruence.
Qed.

Create HintDb keeps.

#[local] Hint Resolve keeps_ret update_error_count_keeps
  save_test_results_keeps create_page_summary_keeps http_get_keeps
  unix_time_keeps : keeps.

Ltac keeps_steps :=
  repeat first
    [ solve [auto with keeps]
    | apply keeps_bind; [|intros ?]
    | apply keeps_if
    | match goal with
      | |- keeps _ (match ?r with _ => _ end) => destruct r
      end ].

Lemma test_page_accessibility_keeps s0 page_name page_url :
  keeps (extends s0) (test_page_accessibility env page_name page_url).
Proof. unfold test_page_accessibility. keeps_steps. Qed.

Lemma test_page_navigation_keeps s0 page_name page_url :
  keeps (extends s0) (test_page_navigation env page_name page_url).
Proof. unfold test_page_navigation. keeps_steps. Qed.

Lemma test_page_functionality_keeps s0 page_name page_url :
  keeps (extends s0) (test_page_functionality env page_name page_url).
Proof.
  unfold test_page_functionality, test_page_specific_functionality,
    keyword_check.
  keeps_steps.
Qed.

Lemma test_error_handling_keeps s0 page_name page_url :
  triple (extends s0) (test_error_handling env page_name page_url)
    (fun v w => v = true /\ extends s0 w) (extends s0).
Proof.
  unfold test_error_handling.
  eapply triple_bind; [apply unix_time_keeps|]. intros stamp.
  eapply triple_bind; [apply http_get_keeps|]. intros r1.
  eapply triple_bind with (R := fun _ => extends s0).
  { fold (keeps (extends s0)
            (match r1 with
             | Responded response =>
                 if bool_decide (status_code response = 404)
                 then mret ([] ++ [result_of "404_handling" PASS "proper_404"])
                 else
                   update_error_count "low";;
                   mret ([] ++ [result_of "404_handling" WARN
                                  ("status_" +:+ Py.str (status_code response))])
             | RequestException _ =>
                 mret ([] ++ [result_of "404_handling" INFO "connection_error"])
             end)).
    keeps_steps. }
  intros results1.
  eapply triple_bind; [apply http_get_keeps|]. intros r2.
  eapply triple_bind; [apply save_test_results_keeps|]. intros [].
  by apply triple_ret.
Qed.

Lemma read_session_file_keeps s0 :
  triple (extends s0) read_session_file
    (fun s w => extends s0 w /\ session_of (fs w) = Some s) (extends s0).
Proof.
  intros w Hw. pose proof Hw as Hw'. open_extends w Hw. run_prims. done.
Qed.

Lemma now_keeps s0 s :
  triple (fun w => extends s0 w /\ session_of (fs w) = Some s) (now env)
    (fun _ w => extends s0 w /\ session_of (fs w) = Some s) (extends s0).
Proof. intros w [Hw Hs]. by run_prims. Qed.

Lemma write_operation_keeps s0 s o :
  triple (fun w => extends s0 w /\ session_of (fs w) = Some s)
    (write_session_file (set_current_operation o s))
    (fun _ => extends s0) (extends s0).
Proof.
  intros w [Hw Hs']. open_extends w Hw. run_prims.
  unfold session_of in Hs'; cbn in Hs'. injection Hs' as ->.
  close_extends.
Qed.

Ltac keeps_step lem :=
  eapply triple_bind; [apply lem; try discriminate|]; intros ?.

Ltac micro_then_ret_keeps :=
  eapply triple_bind;
  [ eapply triple_bind;
    [apply create_micro_checkpoint_keeps; discriminate
    |intros ?; apply triple_ret_eq]
  | let v := fresh "v" in intros v; apply triple_pure; intros ->; cbn ].

(** In any world, a page audit only adds history entries, and never the
    warning of the error-handling failure branch. *)
Lemma audit_page_keeps s0 page_name :
  keeps (extends s0) (audit_page env page_name).
Proof.
  unfold keeps, audit_page.
  destruct (pages_get page_name pages) as [page_info|]; [|by apply triple_ret].
  eapply triple_bind; [apply read_session_file_keeps|]. intros session.
  eapply triple_bind; [apply now_keeps|]. intros t.
  eapply triple_bind; [apply write_operation_keeps|]. intros [].
  keeps_step create_micro_checkpoint_keeps.
  eapply triple_bind; [apply test_page_accessibility_keeps|]. intros pa.
  destruct pa; micro_then_ret_keeps.
  all: keeps_step create_micro_checkpoint_keeps.
  all: (eapply triple_bind; [apply test_page_navigation_keeps|]); intros pnv.
  all: destruct pnv; micro_then_ret_keeps.
  all: keeps_step create_micro_checkpoint_keeps.
  all: (eapply triple_bind; [apply test_page_functionality_keeps|]); intros pf.
  all: destruct pf; micro_then_ret_keeps.
  all: keeps_step create_micro_checkpoint_keeps.
  all: (eapply triple_bind; [apply test_error_handling_keeps|]); intros pe.
  all: apply triple_pure; intros ->.
  all: micro_then_ret_keeps.
  all: keeps_step create_page_summary_keeps.
  all: keeps_step create_checkpoint_keeps.
  all: by apply triple_ret.
Qed.

(** C8: [test_error_handling] never returns failure, in any world and for
    any responses; on a ready world it returns success; a page audit on a
    ready world records [error_handling_complete] with status SUCCESS, not
    WARNING; and in any world, whether the audit returns or raises, the
    history entries it adds never include the WARNING entry of the
    failure branch. *)
Theorem test_error_handling_always_succeeds :
  (forall (w : World) (page_name page_url : string),
     result (test_error_handling env page_name page_url) w <> Ok false) /\
  (forall (w : World) n h (page_name page_url : string),
     ready n h w ->
     result (test_error_handling env page_name page_url) w = Ok true) /\
  (forall (w : World) n h (page_name : string) (page_info : PageInfo),
     ready n h w ->
     pages_get page_name pages = Some page_info ->
     exists s' added,
       session_of (fs (exec (audit_page env page_name) w)) = Some s' /\
       map entry_phase_status (checkpoint_history s') = h ++ added /\
       (Some "error_handling_complete", "SUCCESS") ∈ added /\
       (Some "error_handling_complete", "WARNING") ∉ added) /\
  (forall (w : World) (page_name : string) (s' : Session),
     session_of (fs (exec (audit_page env page_name) w)) = Some s' ->
     exists s added,
       session_of (fs w) = Some s /\
       checkpoint_history s' = checkpoint_history s ++ added /\
       Forall no_warning added).
Proof.
  split; [|split; [|split]].
  - intros w page_name page_url.
    assert (triple (fun _ => True)
              (test_error_handling env page_name page_url)
              (fun v _ => v = true) (fun _ => True)) as Htriple.
    { unfold test_error_handling.
      eapply triple_bind; [apply triple_any|]. intros stamp.
      eapply triple_bind; [apply triple_any|]. intros r1.
      eapply triple_bind; [apply triple_any|]. intros results1.
      eapply triple_bind; [apply triple_any|]. intros r2.
      eapply triple_bind; [apply triple_any|]. intros [].
      by apply triple_ret. }
    specialize (Htriple w I). unfold result.
    destruct (test_error_handling env page_name page_url w) as [w' [v|e]];
      cbn; [by subst|done].
  - intros w n h page_name page_url Hw.
    destruct (triple_returns _ _ _ w
                (test_error_handling_ready n h page_name page_url) Hw)
      as (v & Hrun & -> & _).
    unfold result. by rewrite Hrun.
  - intros w n h page_name page_info Hw Hpage.
    destruct (audit_page_ready n page_name page_info Hpage)
      as (a & nv & f & _ & _ & _ & Haudit).
    destruct (triple_returns _ _ _ w (Haudit h) Hw)
      as (v & Hrun & -> & s' & [Hs' _] & _ & _ & _ & Hh).
    exists s'. eexists. split; [done|]. split; [exact Hh|].
    split; [set_solver|].
    destruct a, nv, f; cbn; set_solver.
  - intros w page_name s' Hs'.
    destruct (session_of (fs w)) as [s|] eqn:Hs.
    + assert (extends s w) as Hw.
      { exists s, []. rewrite app_nil_r. by repeat split. }
      pose proof (audit_page_keeps s page_name w Hw) as Hkeeps.
      unfold exec in Hs'.
      destruct (audit_page env page_name w) as [w' [v|e]]; cbn in Hs';
        destruct Hkeeps as (s1 & added & Hs1 & Hh & Hok);
        exists s, added; split; [done| |done|]; split; try done; congruence.
    + exfalso. revert Hs'. unfold audit_page.
      destruct (pages_get page_name pages) as [page_info|].
      * open_world w; unfold session_of in Hs; cbn in Hs; subst; run_prims;
          done.
      * unfold exec; cbn. by rewrite Hs.
Qed.

(** C6: on an open session with a [reports] directory,
    [generate_final_report] returns and writes, in both report files, the
    health score [max(0, 100 - 25*critical - 10*high - 5*medium - 1*low)] of
    the session's error tally; for the tally 1, 2, 0, 3 it is 52. *)
Theorem health_score_formula (w : World) (s : Session)
    (rp : gmap string ReportFile) :
  session_of (fs w) = Some s ->
  reports (fs w) = Some rp ->
  let e := error_summary s in
  let score := Z.max 0 (100 - 25 * critical e - 10 * high e - 5 * medium e
                        - 1 * low e) in
  exists md_file json_file generated duration_end summary,
    result (generate_final_report env) w = Ok tt /\
    reports (fs (exec (generate_final_report env) w)) =
      Some (<[json_file := ReportJson summary]>
              (<[md_file := ReportMd generated duration_end s score]> rp)) /\
    health_score summary = score /\
    errors summary = e /\
    (critical e = 1 -> high e = 2 -> medium e = 0 -> low e = 3 ->
     health_score summary = 52).
Proof.
  intros Hs Hrp e score.
  open_world w; unfold session_of in Hs; cbn in Hs, Hrp; [subst|done].
  assert (health_score_of e = score) as Hscore.
  { unfold health_score_of, score. lia. }
  unfold generate_final_report; run_prims. fold e. rewrite Hscore.
  do 5 eexists. split; [reflexivity|]. split; [reflexivity|]. cbn.
  split; [done|]. split; [done|]. subst score. lia.
Qed.

Ltac open_fs w :=
  destruct w as [[[[sess ctr]|] cps pgs rps] nreq nclk nuuid].

(** X1: with a session on disk, [update_error_count] at one of the four
    severity levels returns, adds one to that level and one to [total], and
    leaves every other part of the session and every other file as it is. *)
Theorem update_error_count_severity (w : World) (s : Session) (level : string) :
  session_of (fs w) = Some s ->
  level ∈ ["critical"; "high"; "medium"; "low"] ->
  let w' := exec (update_error_count level) w in
  result (update_error_count level) w = Ok tt /\
  session_of (fs w') =
    Some (set_error_summary (count_error (Some level) (error_summary s)) s) /\
  counter_of (fs w') = counter_of (fs w) /\
  checkpoints (fs w') = checkpoints (fs w) /\
  pages_dir (fs w') = pages_dir (fs w) /\
  reports (fs w') = reports (fs w).
Proof.
  intros Hs Hlevel.
  open_fs w; unfold session_of in Hs; cbn in Hs; [subst|done].
  unfold update_error_count; run_prims.
  destruct s as [? ? ? ? ? ? [? ? ? ? ?] ?].
  repeat (apply elem_of_cons in Hlevel as [->|Hlevel];
          [vm_compute es_get; run_prims; repeat split;
           cbv -[Z.add]; do 3 f_equal; f_equal; lia|]).
  by apply elem_of_nil in Hlevel.
Qed.

(** X2: [update_error_count] with a key that [error_summary] does not have
    raises [KeyError] (or [FileNotFoundError] when there is no session
    document) and writes nothing. *)
Theorem update_error_count_unknown_key (w : World) (level : string) :
  level ∉ ["critical"; "high"; "medium"; "low"; "total"] ->
  update_error_count level w =
    (w, Raise (match session_of (fs w) with
               | Some _ => KeyError level
               | None => FileNotFoundError session_path
               end)).
Proof.
  intros Hlevel.
  assert (forall e, es_get level e = None) as Hget.
  { intros e. unfold es_get.
    repeat (case_bool_decide; [subst; exfalso; apply Hlevel; set_solver|]).
    done. }
  open_fs w; unfold update_error_count; run_prims; [|done].
  destruct sess as [s|]; run_prims; [|done].
  by rewrite Hget.
Qed.

(** X3: [update_error_count] with the key [total] adds two to [total] and
    leaves the four severity counts as they are. *)
Theorem update_error_count_total_key (w : World) (s : Session) :
  session_of (fs w) = Some s ->
  result (update_error_count "total") w = Ok tt /\
  exists s',
    session_of (fs (exec (update_error_count "total") w)) = Some s' /\
    total (error_summary s') = total (error_summary s) + 2 /\
    critical (error_summary s') = critical (error_summary s) /\
    high (error_summary s') = high (error_summary s) /\
    medium (error_summary s') = medium (error_summary s) /\
    low (error_summary s') = low (error_summary s).
Proof.
  intros Hs.
  open_fs w; unfold session_of in Hs; cbn in Hs; [subst|done].
  unfold update_error_count; run_prims.
  vm_compute es_get; run_prims.
  split; [done|]. eexists. split; [reflexivity|].
  cbv -[Z.add]. repeat split. lia.
Qed.

(** X4: on an open session, [create_checkpoint] returns the identifier built
    from the counter, records the new entry as [last_checkpoint] and as the
    last history entry, and writes a snapshot file that holds the very
    session document it saved; any status other than the exact text SUCCESS
    leaves [progress] as it is. *)
Theorem create_checkpoint_snapshot (w : World) (s : Session)
    (c : gmap string Session) (page_name st : string) :
  session_of (fs w) = Some s ->
  checkpoints (fs w) = Some c ->
  (st = "SUCCESS" -> total_pages (progress s) <> 0) ->
  let w' := exec (create_checkpoint env page_name st) w in
  let id := macro_checkpoint_id (next_counter w) page_name in
  exists timestamp s',
    let info := MacroInfo id timestamp "MACRO" page_name "complete" st in
    result (create_checkpoint env page_name st) w = Ok id /\
    session_of (fs w') = Some s' /\
    checkpoints (fs w') = Some (<["checkpoint_" +:+ id +:+ ".json" := s']> c) /\
    last_checkpoint s' = Some info /\
    checkpoint_history s' = checkpoint_history s ++ [info] /\
    error_summary s' = error_summary s /\
    current_operation s' = current_operation s /\
    (st <> "SUCCESS" -> progress s' = progress s) /\
    next_counter w' = next_counter w + 1.
Proof.
  intros Hs Hc Htotal.
  open_fs w; unfold session_of in Hs; cbn in Hs, Hc; [subst|done].
  unfold create_checkpoint, mark_completed; run_prims.
  destruct ctr; run_prims.
  all: case_bool_decide as Hst; run_prims.
  all: try rewrite (bool_decide_eq_false_2 _ (Htotal Hst)); run_prims.
  all: do 2 eexists; repeat split; done.
Qed.

(** X5: when the [checkpoints] directory is missing, [create_checkpoint]
    raises [FileNotFoundError] after it has advanced the counter and saved
    the session with the new entry: nothing is rolled back. *)
Theorem create_checkpoint_without_checkpoints_dir (w : World) (s : Session)
    (page_name st : string) :
  session_of (fs w) = Some s ->
  checkpoints (fs w) = None ->
  (st = "SUCCESS" -> total_pages (progress s) <> 0) ->
  let w' := exec (create_checkpoint env page_name st) w in
  let id := macro_checkpoint_id (next_counter w) page_name in
  exists timestamp s',
    let info := MacroInfo id timestamp "MACRO" page_name "complete" st in
    result (create_checkpoint env page_name st) w
      = Raise (FileNotFoundError ("checkpoints/checkpoint_" +:+ id +:+ ".json")) /\
    session_of (fs w') = Some s' /\
    checkpoint_history s' = checkpoint_history s ++ [info] /\
    last_checkpoint s' = Some info /\
    checkpoints (fs w') = None /\
    next_counter w' = next_counter w + 1.
Proof.
  intros Hs Hc Htotal.
  open_fs w; unfold session_of in Hs; cbn in Hs, Hc; [subst|done].
  unfold create_checkpoint, mark_completed; run_prims.
  destruct ctr; run_prims.
  all: case_bool_decide as Hst; run_prims.
  all: try rewrite (bool_decide_eq_false_2 _ (Htotal Hst)); run_prims.
  all: do 2 eexists; repeat split; done.
Qed.

(** X6: without a session document both creations raise
    [FileNotFoundError] and create none; when the [session_state] directory
    exists the counter has advanced all the same, and when it does not the
    world is unchanged. *)
Theorem checkpoint_without_session (w : World) (page_name phase st : string) :
  session_of (fs w) = None ->
  let gap (m : M string) :=
    (exists path, result m w = Raise (FileNotFoundError path)) /\
    session_of (fs (exec m w)) = None /\
    checkpoints (fs (exec m w)) = checkpoints (fs w) /\
    (is_Some (session_state (fs w)) ->
     counter_of (fs (exec m w)) = Some (next_counter w + 1)) /\
    (session_state (fs w) = None -> exec m w = w) in
  gap (create_checkpoint env page_name st) /\
  gap (create_micro_checkpoint env page_name phase st).
Proof.
  intros Hs.
  open_fs w; unfold session_of in Hs; cbn in Hs; subst.
  - unfold create_checkpoint, create_micro_checkpoint; run_prims.
    destruct ctr; run_prims.
    all: repeat split; eauto; done.
  - unfold create_checkpoint, create_micro_checkpoint; run_prims.
    repeat split; eauto; by intros [? ?].
Qed.

(** X7: [initialize_session] sets the counter back to 1 and keeps the files
    already in [checkpoints], [pages] and [reports]; the first checkpoint
    after it is numbered 001 again. *)
Theorem initialize_session_resets (w : World) :
  let w' := exec (initialize_session env) w in
  counter_of (fs w') = Some 1 /\
  checkpoints (fs w') = Some (default ∅ (checkpoints (fs w))) /\
  pages_dir (fs w') = Some (default ∅ (pages_dir (fs w))) /\
  reports (fs w') = Some (default ∅ (reports (fs w))) /\
  forall page_name phase st,
    result (create_micro_checkpoint env page_name phase st) w'
      = Ok ("CP_001_" +:+ Py.upper page_name +:+ "_" +:+ Py.upper phase) /\
    result (create_checkpoint env page_name st) w'
      = Ok ("CP_001_" +:+ Py.upper page_name +:+ "_COMPLETE").
Proof.
  unfold initialize_session.
  open_fs w; run_prims.
  all: destruct cps, pgs, rps; run_prims.
  all: repeat split; try done.
  all: unfold create_micro_checkpoint, create_checkpoint, mark_completed;
    run_prims; try done.
  all: case_bool_decide; run_prims; done.
Qed.

(** ** Page audits that cannot start *)

Lemma audit_page_stops (w : World) (page_name : string) :
  (pages_get page_name pages = None ->
   audit_page env page_name w = (w, Ok false)) /\
  (is_Some (pages_get page_name pages) -> session_of (fs w) = None ->
   audit_page env page_name w = (w, Raise (FileNotFoundError session_path))).
Proof.
  unfold audit_page. split.
  - by intros ->.
  - intros [page_info ->] Hs.
    open_fs w; unfold session_of in Hs; cbn in Hs; subst; run_prims; done.
Qed.

(** X8: [audit_page] for a page that is not in the registry returns false,
    and for a registry page without a session document raises
    [FileNotFoundError]; in both cases it sends no request and writes
    nothing. *)
Theorem audit_page_not_started (w : World) (page_name : string) :
  (pages_get page_name pages = None ->
   audit_page env page_name w = (w, Ok false)) /\
  (is_Some (pages_get page_name pages) -> session_of (fs w) = None ->
   audit_page env page_name w = (w, Raise (FileNotFoundError session_path))).
Proof. exact (audit_page_stops w page_name). Qed.

(** X9: when the server does not answer the first request with status 200,
    [full_audit] returns after that one request and leaves every file as
    it is. *)
Theorem full_audit_server_down (w : World) :
  (forall r, requests_get env (requests_sent w) "http://localhost:3000" 5
               = Responded r -> status_code r <> 200) ->
  result (full_audit env) w = Ok tt /\
  fs (exec (full_audit env) w) = fs w /\
  requests_sent (exec (full_audit env) w) = S (requests_sent w).
Proof.
  intros Hdown. unfold full_audit, check_server_status; run_prims.
  destruct (requests_get env (requests_sent w) "http://localhost:3000" 5)
    as [r|e] eqn:Hget; run_prims; [|done].
  rewrite (bool_decide_eq_false_2 _ (Hdown r eq_refl)). done.
Qed.

(** ** The verdicts of the page tests *)

Lemma nav_loop_spec (tests : list (string * string)) (page_content : string) :
  forall (test_results : list TestResult) (n : Z),
    nav_loop tests page_content test_results n =
      (test_results ++ map (marker_result page_content) tests,
       n + Z.of_nat
             (length (filter (fun t => Py.str_in t.1 page_content = true) tests))).
Proof.
  induction tests as [|[term description] tests IH]; intros test_results n.
  { cbn. by rewrite app_nil_r, Z.add_0_r. }
  cbn [nav_loop map].
  rewrite filter_cons. unfold marker_result at 1. cbn [fst].
  destruct (Py.str_in term page_content) eqn:Hin; rewrite IH, <- app_assoc.
  - rewrite decide_True by done. cbn [length app]. f_equal. lia.
  - rewrite decide_False by done. done.
Qed.

(** X10: the navigation phase counts how many of the six markers occur in
    the lower-cased body; it passes exactly when at least two do, records
    the overall status PASS from four, WARN (one more medium) from two and
    FAIL (one more high) below, and saves one result per marker, none of
    them FAIL. *)
Theorem navigation_verdict (w : World) (s : Session)
    (pg : gmap string PagesFile) (page_name page_url : string) (r : Response) :
  session_of (fs w) = Some s ->
  pages_dir (fs w) = Some pg ->
  requests_get env (requests_sent w) page_url 10 = Responded r ->
  let w' := exec (test_page_navigation env page_name page_url) w in
  let page_content := Py.lower (text r) in
  let found := markers_found page_content in
  exists timestamp,
    result (test_page_navigation env page_name page_url) w
      = Ok (bool_decide (2 <= found)) /\
    session_of (fs w') =
      Some (set_error_summary
              (count_error (navigation_overall found).2 (error_summary s)) s) /\
    pages_dir (fs w') =
      Some (<[page_name +:+ "_navigation_results.json" :=
                ResultsJson page_name "navigation" timestamp
                  (map (marker_result page_content) nav_tests
                   ++ [result_of "navigation_overall" (navigation_overall found).1
                         (Py.str found +:+ "/6")])]> pg) /\
    0 <= found <= 6.
Proof.
  intros Hs Hpg Hget w' page_content found.
  assert (opened (requests_sent w) pg s w) as Hopened by done.
  eassert (triple (opened (requests_sent w) pg s)
             (test_page_navigation env page_name page_url)
             (fun v w1 => v = _ /\ exists timestamp,
                opened (S (requests_sent w))
                  (<[page_name +:+ "_" +:+ "navigation" +:+ "_results.json" :=
                       ResultsJson page_name "navigation" timestamp _]> pg)
                  _ w1) never)
    as Htriple.
  { unfold test_page_navigation.
    step ltac:(apply http_get_opened). rewrite Hget, nav_loop_spec.
    fold page_content. rewrite Z.add_0_l. fold (markers_found page_content).
    fold found.
    step branches_opened.
    step ltac:(apply save_test_results_opened).
    apply triple_ret. intros w1 Hw1. split; [reflexivity|exact Hw1]. }
  destruct (triple_returns _ _ _ w Htriple Hopened)
    as (v & Hrun & -> & timestamp & Hs' & Hpg' & _).
  fold w' in Hrun, Hs', Hpg'. clear Htriple.
  unfold result. rewrite Hrun, Hs', Hpg'. cbn [snd].
  exists timestamp. unfold navigation_overall.
  assert (0 <= found <= 6) as Hfound.
  { unfold found, markers_found. split; [lia|].
    pose proof (length_filter (fun t => Py.str_in t.1 page_content = true)
                  nav_tests) as Hlen.
    cbn in Hlen. cbn. lia. }
  destruct (Z.leb_spec 4 found), (Z.leb_spec 2 found); try lia.
  all: repeat case_bool_decide; try lia.
  all: repeat split; try done; try lia.
  cbn. by destruct s.
Qed.


Lemma unix_time_opened n pg s k :
  triple (fun w => opened n pg s w /\ clock_reads w = k) (unix_time env)
    (fun v w => v = time_time env k /\ opened n pg s w) never.
Proof. intros w [Hw <-]. by run_prims. Qed.

(** X12: the error-handling phase returns success, saves exactly the two
    results [404_handling] and [error_boundaries], neither of them FAIL, and
    counts one low finding exactly when the invalid route is answered with
    a status other than 404. *)
Theorem error_handling_effects (w : World) (s : Session)
    (pg : gmap string PagesFile) (page_name page_url : string) :
  session_of (fs w) = Some s ->
  pages_dir (fs w) = Some pg ->
  let w' := exec (test_error_handling env page_name page_url) w in
  let invalid_url :=
    page_url +:+ "/invalid-route-test-" +:+ Py.str (time_time env (clock_reads w)) in
  let first := requests_get env (requests_sent w) invalid_url 5 in
  let second := requests_get env (S (requests_sent w)) page_url 10 in
  let counted :=
    match first with
    | Responded r => if bool_decide (status_code r = 404) then None else Some "low"
    | RequestException _ => None
    end in
  exists timestamp test_results,
    result (test_error_handling env page_name page_url) w = Ok true /\
    session_of (fs w') =
      Some (set_error_summary (count_error counted (error_summary s)) s) /\
    pages_dir (fs w') =
      Some (<[page_name +:+ "_error_handling_results.json" :=
                ResultsJson page_name "error_handling" timestamp test_results]> pg) /\
    map (fun t => (test t, status t)) test_results =
      [("404_handling",
        match first with
        | Responded r => if bool_decide (status_code r = 404) then PASS else WARN
        | RequestException _ => INFO
        end);
       ("error_boundaries",
        match second with
        | Responded r =>
            if Py.any_in ["error"; "exception"; "boundary"] (Py.lower (text r))
            then INFO else PASS
        | RequestException _ => WARN
        end)].
Proof.
  intros Hs Hpg w' invalid_url first second counted.
  assert (opened (requests_sent w) pg s w /\ clock_reads w = clock_reads w)
    as Hopened by done.
  eassert (triple (fun w0 => opened (requests_sent w) pg s w0 /\
                             clock_reads w0 = clock_reads w)
             (test_error_handling env page_name page_url)
             (fun v w1 => v = true /\ exists timestamp,
                opened (S (S (requests_sent w)))
                  (<[page_name +:+ "_" +:+ "error_handling" +:+ "_results.json" :=
                       ResultsJson page_name "error_handling" timestamp _]> pg)
                  _ w1) never)
    as Htriple.
  { unfold test_error_handling.
    step ltac:(apply unix_time_opened).
    step ltac:(apply http_get_opened).
    fold invalid_url. fold first.
    eapply triple_bind with
      (R := fun v w1 =>
              v = match first with
                  | Responded r =>
                      if bool_decide (status_code r = 404)
                      then [] ++ [result_of "404_handling" PASS "proper_404"]
                      else [] ++ [result_of "404_handling" WARN
                                    ("status_" +:+ Py.str (status_code r))]
                  | RequestException _ =>
                      [] ++ [result_of "404_handling" INFO "connection_error"]
                  end /\
              opened (S (requests_sent w)) pg
                (set_error_summary (count_error counted (error_summary s)) s) w1).
    { subst counted. destruct first as [r|e].
      - eapply triple_weaken; [branches_opened|done|].
        intros v w1 [-> Hw1]. split; [done|].
        destruct (bool_decide _); [cbn; by destruct s|done].
      - eapply triple_weaken; [branches_opened|done|].
        intros v w1 [-> Hw1]. split; [done|].
        cbn. by destruct s. }
    intros v1. apply triple_pure; intros ->.
    step ltac:(apply http_get_opened). fold second.
    step ltac:(apply save_test_results_opened).
    apply triple_ret. intros w1 Hw1. split; [reflexivity|exact Hw1]. }
  destruct (triple_returns _ _ _ w Htriple Hopened)
    as (v & Hrun & -> & timestamp & Hs' & Hpg' & _).
  fold w' in Hrun, Hs', Hpg'. clear Htriple.
  unfold result. rewrite Hrun, Hs', Hpg'. cbn [snd].
  do 2 eexists. split; [reflexivity|]. split; [reflexivity|].
  split; [reflexivity|].
  destruct first as [r1|e1], second as [r2|e2]; cbn;
    repeat match goal with
           | |- context [if ?b then _ else _] => destruct b
           end; reflexivity.
Qed.

(** X13: when the request of a phase fails on the network, the phase returns
    failure, saves the single result [network] FAIL with the message, and
    counts one critical finding (accessibility) or one high finding
    (navigation, functionality). *)
Theorem network_failure (w : World) (s : Session)
    (pg : gmap string PagesFile) (page_name page_url message : string) :
  session_of (fs w) = Some s ->
  pages_dir (fs w) = Some pg ->
  requests_get env (requests_sent w) page_url 10 = RequestException message ->
  let failed (phase level : string) (m : M bool) :=
    exists timestamp,
      result m w = Ok false /\
      session_of (fs (exec m w)) =
        Some (set_error_summary (count_error (Some level) (error_summary s)) s) /\
      pages_dir (fs (exec m w)) =
        Some (<[page_name +:+ "_" +:+ phase +:+ "_results.json" :=
                  ResultsJson page_name phase timestamp
                    [result_of "network" FAIL message]]> pg) in
  failed "accessibility" "critical"
    (test_page_accessibility env page_name page_url) /\
  failed "navigation" "high" (test_page_navigation env page_name page_url) /\
  failed "functionality" "high" (test_page_functionality env page_name page_url).
Proof.
  intros Hs Hpg Hget.
  open_fs w; unfold session_of in Hs; cbn in Hs, Hpg, Hget; [subst|done].
  destruct s as [? ? ? ? ? ? [? ? ? ? ?] ?].
  unfold test_page_accessibility, test_page_navigation,
    test_page_functionality, save_test_results, update_error_count.
  run_prims. rewrite Hget. run_prims. vm_compute es_get. run_prims.
  repeat split; eexists; (split; [reflexivity|]);
    (split; [cbv -[Z.add]; do 3 f_equal; f_equal; lia|reflexivity]).
Qed.

(** ** The completion percentage *)

Lemma completion_by_count (k : nat) :
  (k <= 13)%nat ->
  0 <= Py.round1_div (Z.of_nat k * 100) 13 <= 1000 /\
  (Py.round1_div (Z.of_nat k * 100) 13 = 1000 <-> k = 13%nat).
Proof.
  intros Hk.
  do 14 (destruct k as [|k];
         [set (v := Py.round1_div _ _); vm_compute in v; subst v; lia|]).
  lia.
Qed.

Lemma op_session_percentage o s s' :
  registry_page o -> op_session o s s' ->
  percentage_kept (progress s) -> percentage_kept (progress s').
Proof.
  intros Hreg Hop (Htidy & Hpart & Hpct).
  split; [by eapply op_session_tidy|]. split; [by eapply op_session_partitioned|].
  destruct o as [page_name st|page_name phase st|error_level]; cbn in Hop.
  - destruct Hop as [info ->]. case_bool_decide; [|done].
    destruct (mark_completed_tidy page_name _ Htidy)
      as (p' & -> & _ & _ & _ & _ & Hpct' & _).
    exact Hpct'.
  - by destruct Hop as [info ->].
  - subst s'. by destruct (es_get _ _).
Qed.

(** X14: after [initialize_session] and any run of macro checkpoints for
    registry pages, micro checkpoints and error counts, the two page lists
    hold 13 pages together, [completion_percentage] is the rounded share of
    the completed ones, between 0.0 and 100.0, and it is 100.0 exactly when
    no page remains. *)
Theorem completion_percentage_invariant (w0 : World) (os : list Operation) :
  Forall registry_page os ->
  exists s,
    session_of (fs (exec_operations env os (exec (initialize_session env) w0)))
      = Some s /\
    let p := progress s in
    total_pages p = 13 /\
    (length (pages_completed p) + length (pages_remaining p) = 13)%nat /\
    completion_percentage p =
      Py.round1_div (Z.of_nat (length (pages_completed p)) * 100) 13 /\
    0 <= completion_percentage p <= 1000 /\
    (completion_percentage p = 1000 <-> pages_remaining p = []).
Proof.
  intros Hos.
  destruct (initialize_session_open env w0) as (s0 & Hopen & Hprog & _).
  destruct (exec_operations_invariant env registry_page
              (fun s => percentage_kept (progress s))
              op_session_percentage os _ s0 Hos Hopen)
    as (s & [Hs _] & (Hc & Hr & Ht) & (_ & Hdisj & Hunion) & Hpct).
  { rewrite Hprog. unfold percentage_kept, tidy, partitioned; cbn.
    assert (NoDup pages_keys) as Hnd by (apply (bool_decide_unpack _); by vm_compute).
    split; [split; [constructor|by split]|].
    split; [|reflexivity].
    split; [done|]. split; [set_solver|].
    intros q. split; [|by right]. intros [Hq|Hq]; [set_solver|done]. }
  exists s. split; [done|]. cbv zeta.
  assert (length (pages_completed (progress s))
          + length (pages_remaining (progress s)) = 13)%nat as Hlen.
  { rewrite <- length_app.
    change 13%nat with (length pages_keys).
    apply Permutation_length, NoDup_Permutation.
    - apply NoDup_app. repeat split; [done| |done]. intros q Hq1 Hq2.
      by apply (Hdisj q).
    - apply (bool_decide_unpack _); by vm_compute.
    - intros q. rewrite elem_of_app. apply Hunion. }
  destruct (completion_by_count (length (pages_completed (progress s))))
    as [Hbound Hfull]; [lia|].
  rewrite Hpct. repeat split; try done; try lia.
  - intros H1000. apply Hfull in H1000.
    apply length_zero_iff_nil. lia.
  - intros Hnil. apply Hfull. rewrite Hnil in Hlen. cbn in Hlen. lia.
Qed.

(** ** What a page audit leaves alone *)

Lemma triple_exn {A} (P : World -> Prop) (m : M A) (Q : A -> World -> Prop)
    (E E' : World -> Prop) :
  triple P m Q E' -> (forall w, E' w -> E w) -> triple P m Q E.
Proof.
  intros Hm HE w Hw. specialize (Hm w Hw).
  destruct (m w) as [w' [a|e]]; auto.
Qed.

Ltac frame_prim :=
  let w := fresh "w" in let Hr := fresh "Hr" in let Hp := fresh "Hp" in
  intros w [Hr Hp]; open_fs w; cbn in Hr; subst.

Ltac frame_done :=
  unfold audit_frame, session_of; cbn;
  first [ done
        | split; [done|]; intros ? [= <-]; cbn; eauto
        | split; [done|]; intros ? [= <-]; cbn;
          match goal with
          | H : forall s, _ -> progress s = _ |- _ => by apply H
          end ].

Lemma update_error_count_frame r0 p0 level :
  keeps (audit_frame r0 p0) (update_error_count level).
Proof.
  frame_prim; unfold update_error_count; run_prims; [|frame_done].
  destruct sess as [s|]; run_prims; [|frame_done].
  destruct (es_get level (error_summary s)); run_prims; frame_done.
Qed.

Lemma save_test_results_frame r0 p0 page_name phase test_results :
  keeps (audit_frame r0 p0) (save_test_results env page_name phase test_results).
Proof.
  frame_prim; unfold save_test_results; run_prims.
  all: destruct pgs; run_prims; frame_done.
Qed.

Lemma create_page_summary_frame r0 p0 page_name page_url overall_status
    phase_results :
  keeps (audit_frame r0 p0)
    (create_page_summary env page_name page_url overall_status phase_results).
Proof.
  frame_prim; unfold create_page_summary; run_prims.
  all: destruct pgs; run_prims; frame_done.
Qed.

Lemma http_get_frame r0 p0 page_url timeout :
  keeps (audit_frame r0 p0) (http_get env page_url timeout).
Proof. frame_prim; run_prims; frame_done. Qed.

Lemma unix_time_frame r0 p0 : keeps (audit_frame r0 p0) (unix_time env).
Proof. frame_prim; run_prims; frame_done. Qed.

Lemma create_micro_checkpoint_frame r0 p0 page_name phase st :
  keeps (audit_frame r0 p0) (create_micro_checkpoint env page_name phase st).
Proof.
  frame_prim; unfold create_micro_checkpoint; run_prims; [|frame_done].
  destruct ctr, sess; run_prims; frame_done.
Qed.

Lemma create_checkpoint_frame r0 p0 page_name st :
  triple (audit_frame r0 p0) (create_checkpoint env page_name st)
    (fun _ => audit_frame r0 (progress_after page_name st p0))
    (fun w => reports (fs w) = r0).
Proof.
  frame_prim; unfold create_checkpoint, progress_after; run_prims; [|done].
  destruct ctr, sess as [s|]; run_prims; try done.
  all: rewrite <- (Hp s eq_refl).
  all: destruct (bool_decide (st = "SUCCESS")); run_prims.
  all: try (destruct (mark_completed page_name (progress s)); run_prims).
  all: try done.
  all: destruct cps; run_prims; try done.
  all: split; [done|]; by intros ? [= <-].
Qed.

Lemma read_session_file_frame r0 p0 :
  triple (audit_frame r0 p0) read_session_file
    (fun s w => audit_frame r0 p0 w /\ session_of (fs w) = Some s)
    (audit_frame r0 p0).
Proof.
  intros w Hw. pose proof Hw as [Hr Hp].
  open_fs w; run_prims; [|done].
  destruct sess as [s|]; run_prims; done.
Qed.

Lemma now_frame r0 p0 s :
  triple (fun w => audit_frame r0 p0 w /\ session_of (fs w) = Some s) (now env)
    (fun _ w => audit_frame r0 p0 w /\ session_of (fs w) = Some s)
    (audit_frame r0 p0).
Proof. intros w [Hw Hs]. by run_prims. Qed.

Lemma write_operation_frame r0 p0 s o :
  triple (fun w => audit_frame r0 p0 w /\ session_of (fs w) = Some s)
    (write_session_file (set_current_operation o s))
    (fun _ => audit_frame r0 p0) (audit_frame r0 p0).
Proof.
  intros w [[Hr Hp] Hs]. open_fs w; unfold session_of in Hs; cbn in Hs, Hr;
    [|done]. subst. run_prims.
  split; [done|]. intros ? [= <-]. cbn. by apply Hp.
Qed.

Create HintDb frame.

#[local] Hint Resolve keeps_ret update_error_count_frame
  save_test_results_frame create_page_summary_frame http_get_frame
  unix_time_frame create_micro_checkpoint_frame : frame.

Ltac frame_steps :=
  repeat first
    [ solve [auto with frame]
    | apply keeps_bind; [|intros ?]
    | apply keeps_if
    | match goal with
      | |- keeps _ (match ?r with _ => _ end) => destruct r
      end ].

Lemma test_page_accessibility_frame r0 p0 page_name page_url :
  keeps (audit_frame r0 p0) (test_page_accessibility env page_name page_url).
Proof. unfold test_page_accessibility. frame_steps. Qed.

Lemma test_page_navigation_frame r0 p0 page_name page_url :
  keeps (audit_frame r0 p0) (test_page_navigation env page_name page_url).
Proof. unfold test_page_navigation. frame_steps. Qed.

Lemma test_page_functionality_frame r0 p0 page_name page_url :
  keeps (audit_frame r0 p0) (test_page_functionality env page_name page_url).
Proof.
  unfold test_page_functionality, test_page_specific_functionality,
    keyword_check.
  frame_steps.
Qed.

Lemma test_error_handling_frame r0 p0 page_name page_url :
  keeps (audit_frame r0 p0) (test_error_handling env page_name page_url).
Proof. unfold test_error_handling. frame_steps. Qed.

Ltac frame_step lem :=
  eapply triple_bind;
  [eapply triple_exn; [apply lem|by intros ? [? ?]]|]; intros ?.

Ltac micro_then_ret_frame :=
  eapply triple_bind;
  [ eapply triple_bind;
    [ eapply triple_exn;
      [apply create_micro_checkpoint_frame|by intros ? [? ?]]
    | intros ?; apply triple_ret_eq ]
  | let v := fresh "v" in intros v; apply triple_pure; intros ->; cbn ].

(** In any world, a page audit leaves the [reports] directory alone, and
    the progress of a session changes only as the macro checkpoint of a
    passed audit changes it. *)
Lemma audit_page_frame r0 p0 page_name :
  triple (audit_frame r0 p0) (audit_page env page_name)
    (fun v => audit_frame r0
                (if v : bool then progress_after page_name "SUCCESS" p0 else p0))
    (fun w => reports (fs w) = r0).
Proof.
  unfold audit_page.
  destruct (pages_get page_name pages) as [page_info|]; [|by apply triple_ret].
  frame_step read_session_file_frame.
  frame_step now_frame.
  frame_step write_operation_frame.
  frame_step create_micro_checkpoint_frame.
  frame_step test_page_accessibility_frame.
  match goal with pa : bool |- _ => destruct pa end; micro_then_ret_frame.
  all: frame_step create_micro_checkpoint_frame.
  all: frame_step test_page_navigation_frame.
  all: match goal with pa : bool |- _ => destruct pa end; micro_then_ret_frame.
  all: frame_step create_micro_checkpoint_frame.
  all: frame_step test_page_functionality_frame.
  all: match goal with pa : bool |- _ => destruct pa end; micro_then_ret_frame.
  all: frame_step create_micro_checkpoint_frame.
  all: frame_step test_error_handling_frame.
  all: match goal with pa : bool |- _ => destruct pa end; micro_then_ret_frame.
  all: frame_step create_page_summary_frame.
  all: (eapply triple_bind; [apply create_checkpoint_frame|]); intros ?.
  all: apply triple_ret; intros w Hw; exact Hw.
Qed.

(** X15: a page audit on a ready world marks its page completed exactly when
    it returns true, leaves [progress] as it is when it returns false, and
    does not touch the [reports] directory. *)
Theorem audit_page_progress (w : World) (n : nat)
    (h : list (option string * string)) (s : Session) (page_name : string) :
  ready n h w ->
  session_of (fs w) = Some s ->
  is_Some (pages_get page_name pages) ->
  let w' := exec (audit_page env page_name) w in
  exists (v : bool) s',
    result (audit_page env page_name) w = Ok v /\
    session_of (fs w') = Some s' /\
    (if v then mark_completed page_name (progress s) = Ok (progress s')
     else progress s' = progress s) /\
    reports (fs w') = reports (fs w).
Proof.
  intros Hw Hs [page_info Hpage] w'.
  destruct (audit_page_ready n page_name page_info Hpage)
    as (a & nv & f & _ & _ & _ & Haudit).
  destruct (triple_returns _ _ _ w (Haudit h) Hw)
    as (v & Hrun & _ & s' & [Hs' _] & _ & _ & _).
  fold w' in Hrun, Hs'.
  assert (audit_frame (reports (fs w)) (progress s) w) as Hframe.
  { split; [done|]. intros s1 Hs1. congruence. }
  pose proof (audit_page_frame (reports (fs w)) (progress s) page_name w Hframe)
    as Hpost.
  rewrite Hrun in Hpost. destruct Hpost as [Hreports Hprogress].
  specialize (Hprogress s' Hs').
  exists v, s'. unfold result. rewrite Hrun. repeat split; try done.
  destruct v; [|done].
  rewrite Hprogress. unfold progress_after.
  rewrite bool_decide_eq_true_2 by done.
  destruct Hw as (s1 & [Hs1 _] & _ & Htotal & _).
  assert (s1 = s) as -> by congruence.
  unfold mark_completed. rewrite (bool_decide_eq_false_2 _ Htotal). done.
Qed.

(** X16: in any world, returning or raising, a page audit leaves the
    [reports] directory as it is, and an audit that returns false leaves
    [progress] as it is. *)
Theorem audit_page_frame_any (w : World) (page_name : string) :
  let w' := exec (audit_page env page_name) w in
  reports (fs w') = reports (fs w) /\
  forall s s',
    session_of (fs w) = Some s -> session_of (fs w') = Some s' ->
    result (audit_page env page_name) w = Ok false ->
    progress s' = progress s.
Proof.
  intros w'. subst w'. unfold exec, result.
  destruct (session_of (fs w)) as [s|] eqn:Hs.
  - assert (audit_frame (reports (fs w)) (progress s) w) as Hframe.
    { split; [done|]. intros s1 Hs1. congruence. }
    pose proof (audit_page_frame (reports (fs w)) (progress s) page_name w
                  Hframe) as Hpost.
    destruct (audit_page env page_name w) as [w' [v|e]]; cbn.
    + destruct Hpost as [Hreports Hprogress]. split; [done|].
      intros s0 s' [= <-] Hs' [= ->]. by apply Hprogress.
    + split; [done|]. by intros.
  - pose proof (proj1 (audit_page_stops w page_name)) as Hunknown.
    pose proof (proj2 (audit_page_stops w page_name)) as Hnone.
    destruct (pages_get page_name pages) as [page_info|].
    + rewrite (Hnone (mk_is_Some _ _ eq_refl) Hs). cbn. split; [done|]. by intros.
    + rewrite (Hunknown eq_refl). cbn. split; [done|]. by intros.
Qed.

(** ** The final report *)

Lemma generate_final_report_runs (w : World) (s : Session)
    (rp : gmap string ReportFile) :
  session_of (fs w) = Some s ->
  reports (fs w) = Some rp ->
  let w' := exec (generate_final_report env) w in
  let stamp := strftime_Ymd_HMS (utcnow env (clock_reads w)) in
  let md_file := "final_audit_report_" +:+ stamp +:+ ".md" in
  let json_file := "final_audit_report_" +:+ stamp +:+ ".json" in
  exists generated duration_end summary,
    generate_final_report env w = (w', Ok tt) /\
    session_state (fs w') = session_state (fs w) /\
    checkpoints (fs w') = checkpoints (fs w) /\
    pages_dir (fs w') = pages_dir (fs w) /\
    requests_sent w' = requests_sent w /\
    reports (fs w') =
      Some (<[json_file := ReportJson summary]>
              (<[md_file := ReportMd generated duration_end s
                              (health_score_of (error_summary s))]> rp)) /\
    health_score summary = health_score_of (error_summary s) /\
    errors summary = error_summary s /\
    completed_pages summary = Z.of_nat (length (pages_completed (progress s))) /\
    summary_status summary =
      (if 75 <=? health_score_of (error_summary s) then "GOOD"
       else "NEEDS_ATTENTION") /\
    report_files summary = (md_file, json_file).
Proof.
  intros Hs Hrp.
  open_fs w; unfold session_of in Hs; cbn in Hs, Hrp; [subst|done].
  unfold generate_final_report; run_prims.
  do 3 eexists. repeat split; reflexivity.
Qed.

(** X17: [generate_final_report] never changes the session, the counter, the
    checkpoints or the page files; without a session document, or without
    the [reports] directory, it raises [FileNotFoundError] and writes
    nothing. *)
Theorem report_reads_only (w : World) :
  let w' := exec (generate_final_report env) w in
  session_state (fs w') = session_state (fs w) /\
  checkpoints (fs w') = checkpoints (fs w) /\
  pages_dir (fs w') = pages_dir (fs w) /\
  (session_of (fs w) = None ->
   result (generate_final_report env) w = Raise (FileNotFoundError session_path) /\
   fs w' = fs w) /\
  (is_Some (session_of (fs w)) -> reports (fs w) = None ->
   (exists path, result (generate_final_report env) w
                 = Raise (FileNotFoundError path)) /\
   fs w' = fs w).
Proof.
  open_fs w; unfold generate_final_report; run_prims.
  1: destruct sess as [s|]; run_prims.
  1: destruct rps; run_prims.
  all: repeat split; try done.
  all: try match goal with H : is_Some None |- _ => by destruct H end.
  all: eauto.
Qed.

(** X18: the JSON report says GOOD exactly when the weighted findings
    [25*critical + 10*high + 5*medium + low] are at most 25, and
    NEEDS_ATTENTION otherwise; for counts that are not negative the health
    score is between 0 and 100, and 100 exactly when there is no finding. *)
Theorem report_status (w : World) (s : Session) (rp : gmap string ReportFile) :
  session_of (fs w) = Some s ->
  reports (fs w) = Some rp ->
  let e := error_summary s in
  let penalty := 25 * critical e + 10 * high e + 5 * medium e + low e in
  exists json_file files summary,
    reports (fs (exec (generate_final_report env) w)) = Some files /\
    files !! json_file = Some (ReportJson summary) /\
    (summary_status summary = "GOOD" <-> penalty <= 25) /\
    (summary_status summary = "NEEDS_ATTENTION" <-> 25 < penalty) /\
    (0 <= critical e -> 0 <= high e -> 0 <= medium e -> 0 <= low e ->
     0 <= health_score summary <= 100 /\
     (health_score summary = 100 <->
      critical e = 0 /\ high e = 0 /\ medium e = 0 /\ low e = 0)).
Proof.
  intros Hs Hrp e penalty.
  destruct (generate_final_report_runs w s rp Hs Hrp)
    as (generated & duration_end & summary & _ & _ & _ & _ & _ & Hreports
        & Hscore & _ & _ & Hstatus & _).
  eexists _, _, summary. split; [exact Hreports|].
  split; [apply lookup_insert_eq|].
  rewrite Hstatus, Hscore. unfold health_score_of. fold e.
  destruct (Z.leb_spec 75 (Z.max 0 (100 - critical e * 25 - high e * 10
                                    - medium e * 5 - low e * 1))).
  all: subst penalty; repeat split; intros; try done; try lia.
Qed.

(** ** A full audit *)

Lemma registry_keys_known page_name :
  page_name ∈ pages_keys -> is_Some (pages_get page_name pages).
Proof.
  intros Hin. unfold pages_keys in Hin. cbn in Hin.
  repeat (apply elem_of_cons in Hin as [->|Hin]; [by eexists|]).
  by apply elem_of_nil in Hin.
Qed.

Lemma audit_page_run k n page_name :
  is_Some (pages_get page_name pages) ->
  triple (audit_ready k n) (try_except_pass (audit_page env page_name))
    (fun _ => audit_ready (k + 9) (n + 5)) never.
Proof.
  intros [page_info Hpage] w [(h & Hlen & Hready) Hreports].
  destruct (audit_page_ready n page_name page_info Hpage)
    as (a & nv & f & _ & _ & _ & Haudit).
  destruct (triple_returns _ _ _ w (Haudit h) Hready)
    as (v & Hrun & _ & Hready').
  pose proof Hready as (s & [Hs _] & _).
  assert (audit_frame (reports (fs w)) (progress s) w) as Hframe.
  { split; [done|]. intros s1 Hs1. congruence. }
  pose proof (audit_page_frame (reports (fs w)) (progress s) page_name w Hframe)
    as Hpost.
  unfold try_except_pass. rewrite Hrun in *. cbn.
  destruct Hpost as [Hreports' _]. split; [|by rewrite Hreports'].
  eexists. split; [|rewrite Nat.add_comm; exact Hready'].
  rewrite !length_app. cbn. lia.
Qed.

Lemma audit_each_run page_names : forall k n,
  Forall (fun page_name => is_Some (pages_get page_name pages)) page_names ->
  triple (audit_ready k n) (audit_each env page_names)
    (fun _ => audit_ready (k + 9 * length page_names)
                (n + 5 * length page_names)) never.
Proof.
  induction page_names as [|page_name rest IH]; intros k n Hall;
    cbn [audit_each length].
  - apply triple_ret. intros w Hw. by rewrite !Nat.mul_0_r, !Nat.add_0_r.
  - inversion Hall as [|? ? Hpage Hrest]; subst.
    eapply triple_bind; [by apply audit_page_run|]. intros [].
    eapply triple_weaken; [by apply IH|done|].
    intros [] w Hw.
    replace (k + 9 * S (length rest))%nat
      with (k + 9 + 9 * length rest)%nat by lia.
    replace (n + 5 * S (length rest))%nat
      with (n + 5 + 5 * length rest)%nat by lia.
    done.
Qed.

(** X19: on a ready world with a [reports] directory and a server that
    answers the first request with 200, [full_audit] returns after 66
    requests, with 117 more history entries (nine for each of the 13 pages)
    and a JSON report of the final error tally. *)
Theorem full_audit_ready (w : World) (n : nat)
    (h : list (option string * string)) (r : Response) :
  ready n h w ->
  is_Some (reports (fs w)) ->
  requests_get env n "http://localhost:3000" 5 = Responded r ->
  status_code r = 200 ->
  let w' := exec (full_audit env) w in
  exists s' files json_file summary,
    result (full_audit env) w = Ok tt /\
    session_of (fs w') = Some s' /\
    length (checkpoint_history s') = (length h + 117)%nat /\
    requests_sent w' = (n + 66)%nat /\
    reports (fs w') = Some files /\
    files !! json_file = Some (ReportJson summary) /\
    errors summary = error_summary s'.
Proof.
  intros Hw Hreports Hget H200 w'.
  assert (triple (audit_ready (length h) (S n))
            (audit_each env pages_keys;; generate_final_report env)
            (fun _ w1 =>
               exists s' files json_file summary,
                 session_of (fs w1) = Some s' /\
                 length (checkpoint_history s') = (length h + 117)%nat /\
                 requests_sent w1 = (n + 66)%nat /\
                 reports (fs w1) = Some files /\
                 files !! json_file = Some (ReportJson summary) /\
                 errors summary = error_summary s') never) as Hrest.
  { eapply triple_bind.
    - apply audit_each_run. apply Forall_forall. apply registry_keys_known.
    - intros [] w1 [(h1 & Hlen & Hready) [rp Hrp]].
      destruct Hready as (s1 & [Hs1 _] & _ & _ & Hn & Hh).
      destruct (generate_final_report_runs w1 s1 rp Hs1 Hrp)
        as (generated & duration_end & summary & Hrun & Hstate & _ & _ & Hsent
            & Hfiles & _ & Herrors & _).
      rewrite Hrun.
      exists s1. eexists _, _, summary.
      split; [|split; [|split; [|split; [exact Hfiles|split;
                                         [apply lookup_insert_eq|done]]]]].
      + unfold session_of. rewrite Hstate. exact Hs1.
      + rewrite <- (length_map entry_phase_status), Hh, Hlen.
        change (length pages_keys) with 13%nat. lia.
      + rewrite Hsent, Hn. change (length pages_keys) with 13%nat. lia. }
  assert (triple (fun w0 => ready n h w0 /\ is_Some (reports (fs w0)))
            (full_audit env)
            (fun _ w1 =>
               exists s' files json_file summary,
                 session_of (fs w1) = Some s' /\
                 length (checkpoint_history s') = (length h + 117)%nat /\
                 requests_sent w1 = (n + 66)%nat /\
                 reports (fs w1) = Some files /\
                 files !! json_file = Some (ReportJson summary) /\
                 errors summary = error_summary s') never) as Hfull.
  { unfold full_audit, check_server_status.
    eapply triple_bind.
    - eapply triple_bind with
        (R := fun v w1 => v = requests_get env n "http://localhost:3000" 5 /\
                          audit_ready (length h) (S n) w1).
      + intros w0 [Hw0 Hr0].
        pose proof (http_get_ready n h "http://localhost:3000" 5 w0 Hw0)
          as Hpost.
        unfold http_get in *. cbn in *. destruct Hpost as [Hv Hready].
        split; [done|]. split; [|done]. by exists h.
      + intros v. apply triple_pure; intros ->. rewrite Hget.
        apply triple_ret_eq.
    - intros up. apply triple_pure; intros ->.
      rewrite (bool_decide_eq_true_2 _ H200). exact Hrest. }
  destruct (triple_returns _ _ _ w Hfull (conj Hw Hreports))
    as ([] & Hrun & s' & files & json_file & summary & Hpost).
  fold w' in Hrun, Hpost.
  exists s', files, json_file, summary.
  unfold result. rewrite Hrun. by split.
Qed.

(** X20: with [--status] (and neither [--init], [--full-audit] nor
    [--audit-page]) the program returns in every world and creates no
    session: only the [pages] directory of the constructor may appear. *)
Theorem main_status_reads_only (args : Args) (w : World) :
  args_init args = false ->
  args_full_audit args = false ->
  given (args_audit_page args) = false ->
  args_status args = true ->
  main env args w = (exec init_system w, Ok tt) /\
  session_state (fs (exec init_system w)) = session_state (fs w) /\
  checkpoints (fs (exec init_system w)) = checkpoints (fs w) /\
  reports (fs (exec init_system w)) = reports (fs w).
Proof.
  intros Hinit Hfull Hpage Hstatus.
  unfold main. rewrite Hinit, Hfull, Hpage, Hstatus.
  open_fs w; unfold init_system, session_file_exists; run_prims.
  all: destruct pgs; run_prims.
  all: try (destruct sess; run_prims).
  all: done.
Qed.

(** X21: with [--audit-page NAME] the program keeps an existing session,
    only adding history entries to it, and creates a new one first when
    there is none, whether or not NAME is a page of the registry. *)
Theorem main_audit_page_session (args : Args) (w : World) (page_name : string) :
  args_init args = false ->
  args_full_audit args = false ->
  args_audit_page args = Some page_name ->
  page_name <> EmptyString ->
  let w' := exec (main env args) w in
  match session_of (fs w) with
  | Some s => extends s w'
  | None =>
      exists s0,
        session_of (fs (exec (initialize_session env) (exec init_system w)))
          = Some s0 /\
        extends s0 w'
  end.
Proof.
  intros Hinit Hfull Hpage Hname w'. subst w'.
  unfold main. rewrite Hinit, Hfull, Hpage.
  destruct page_name as [|c page_name]; [done|]. cbn [given default].
  set (page := String c page_name).
  assert (forall s0 w0, extends s0 w0 ->
            extends s0 (exec (audit_page env page;; mret tt) w0)) as Haudit.
  { intros s0 w0 Hw0. pose proof (audit_page_keeps s0 page w0 Hw0) as Hk.
    unfold exec, mbind, M_bind.
    destruct (audit_page env page w0) as [w1 [v|e]]; done. }
  destruct (session_of (fs w)) as [s|] eqn:Hs.
  - open_fs w; unfold session_of in Hs; cbn in Hs; [subst|done].
    unfold init_system, session_file_exists; run_prims.
    destruct pgs; run_prims.
    all: match goal with
         | |- extends _ (let (_, _) := audit_page env _ ?w0 in _).1 =>
             apply (Haudit s w0)
         end.
    all: exists s, []; rewrite app_nil_r; by repeat split.
  - open_fs w; unfold session_of in Hs; cbn in Hs; subst.
    all: unfold init_system, session_file_exists, initialize_session; run_prims.
    all: destruct cps, pgs, rps; run_prims.
    all: eexists; (split; [reflexivity|]).
    all: match goal with
         | |- extends ?s0 (let (_, _) := audit_page env _ ?w0 in _).1 =>
             apply (Haudit s0 w0)
         end.
    all: eexists _, []; rewrite app_nil_r; by repeat split.
Qed.

(** ** Identifiers and their counters *)

#[local] Arguments String.append !_ _ / : simpl nomatch.

Lemma append_assoc (s1 s2 s3 : string) :
  (s1 +:+ s2) +:+ s3 = s1 +:+ (s2 +:+ s3).
Proof. induction s1 as [|c s1 IH]; cbn; [done|]. f_equal. exact IH. Qed.

Lemma read_digits_cons (acc k : Z) (c : ascii) (s : string) :
  digit_of c = Some k ->
  read_digits acc (String c s) = read_digits (10 * acc + k) s.
Proof. intros Hc. cbn [read_digits]. by rewrite Hc. Qed.

Lemma read_digits_stop (acc : Z) (s : string) :
  digit_of (hd "_"%char (list_ascii_of_string s)) = None ->
  read_digits acc s = acc.
Proof.
  destruct s as [|c s]; [done|].
  cbn [list_ascii_of_string hd read_digits]. by intros ->.
Qed.

Lemma read_digits_zeros (k : nat) (s : string) :
  read_digits 0 (Py.zeros k +:+ s) = read_digits 0 s.
Proof.
  induction k as [|k IH]; [done|].
  cbn [Py.zeros String.append].
  by rewrite (read_digits_cons 0 0 "0" _ eq_refl).
Qed.

Lemma read_digits_uint (d : uint) : forall (acc : Z) (s : string),
  read_digits acc (NilEmpty.string_of_uint d +:+ s)
    = read_digits (uint_value acc d) s.
Proof.
  induction d; intros acc s;
    cbn [NilEmpty.string_of_uint String.append uint_value]; [done|..].
  all: by erewrite read_digits_cons by reflexivity.
Qed.

Lemma uint_value_pos (d : uint) : forall acc : positive,
  uint_value (Z.pos acc) d = Z.pos (Pos.of_uint_acc d acc).
Proof.
  induction d; intros acc; cbn [uint_value Pos.of_uint_acc]; [done|..].
  all: rewrite <- IHd; f_equal; lia.
Qed.

Lemma uint_value_zero (d : uint) : uint_value 0 d = Z.of_N (Pos.of_uint d).
Proof.
  induction d; cbn [uint_value Pos.of_uint]; [done|exact IHd|..].
  all: exact (uint_value_pos d _).
Qed.

Lemma read_digits_str (n : Z) (s : string) :
  0 <= n -> digit_of (hd "_"%char (list_ascii_of_string s)) = None ->
  read_digits 0 (Py.str n +:+ s) = n.
Proof.
  intros Hn Hs.
  pose proof (fun acc => read_digits_stop acc s Hs) as Hstop.
  unfold Py.str. destruct n as [|p|p]; [| |lia].
  { change (read_digits 0 (String "0" s) = 0).
    by rewrite (read_digits_cons 0 0 "0" _ eq_refl), Hstop. }
  cbn [Z.to_int NilZero.string_of_int].
  pose proof (DecimalPos.Unsigned.of_to p) as Hp.
  destruct (Pos.to_uint p) as [|d|d|d|d|d|d|d|d|d|d] eqn:Hd; [done|..].
  all: unfold NilZero.string_of_uint; rewrite read_digits_uint, Hstop,
         uint_value_zero, Hp; done.
Qed.

Lemma counter_of_id_format (n : Z) (s : string) :
  0 <= n ->
  counter_of_id ("CP_" +:+ Py.format_03d n +:+ "_" +:+ s) = n.
Proof.
  intros Hn. cbn [String.append counter_of_id]. unfold Py.format_03d.
  rewrite (proj2 (Z.ltb_ge n 0)), Z.abs_eq by done. cbn [String.append].
  rewrite !append_assoc, read_digits_zeros. by apply read_digits_str.
Qed.

(** X22: identifiers built from different counters (not negative) differ,
    whatever the page and phase names are. *)
Theorem checkpoint_id_injective (c c' : Creation) (n n' : Z) :
  0 <= n -> 0 <= n' ->
  is_Some (id_with c n) ->
  id_with c n = id_with c' n' ->
  n = n'.
Proof.
  intros Hn Hn' [id Hid] Heq.
  assert (forall c0 n0 id0, 0 <= n0 -> id_with c0 n0 = Some id0 ->
            counter_of_id id0 = n0) as Hread.
  { intros c0 n0 id0 Hn0 Hid0.
    destruct c0 as [page_name st|page_name phase st|]; cbn in Hid0; [| |done];
      injection Hid0 as <-; by apply counter_of_id_format. }
  rewrite <- (Hread c n id Hn Hid). rewrite Heq in Hid.
  by rewrite (Hread c' n' id Hn' Hid).
Qed.

Lemma returned_ids_counters (steps : list Step) (ns : list Z) :
  Forall (fun n => 0 <= n) ns ->
  Forall2 (fun st n =>
             result get_next_checkpoint_counter (before st) = Ok n /\
             returned st = Ok (id_with (creation st) n))
          (filter created steps) ns ->
  counter_of_id <$> returned_ids steps = ns.
Proof.
  revert ns. induction steps as [|st steps IH]; intros ns Hpos Hall.
  { by inversion Hall. }
  unfold returned_ids in *. cbn [omap list_omap].
  destruct (decide (created st)) as [Hc|Hc].
  - rewrite filter_cons_True in Hall by done.
    unfold created in Hc.
    destruct (returned st) as [[id|]|e] eqn:Hret; try done.
    inversion Hall as [|? n ? ns' [_ Hid] Hrest]; subst.
    inversion Hpos as [|? ? Hn Hpos']; subst.
    cbn. rewrite (IH ns' Hpos' Hrest). f_equal.
    rewrite Hret in Hid. injection Hid as Hid.
    destruct (creation st) as [page_name st'|page_name phase st'|];
      cbn in Hid; [| |done]; injection Hid as ->;
      by apply counter_of_id_format.
  - rewrite filter_cons_False in Hall by done.
    unfold created in Hc.
    destruct (returned st) as [[id|]|e] eqn:Hret; cbn; try by apply IH.
    by destruct Hc.
Qed.

(** X23: in a run of creations and restarts on a new session, no
    identifier is returned twice. *)
Theorem checkpoint_ids_distinct (cs : list Creation) (w0 : World) :
  NoDup (returned_ids
           (run_creations env cs (exec (initialize_session env) w0))).
Proof.
  destruct (run_creations_sorted env cs (exec (initialize_session env) w0))
    as (ns & Hsorted & Hlow & Hall).
  apply (NoDup_fmap_1 counter_of_id).
  rewrite (returned_ids_counters _ ns); [by apply StronglySorted_lt_NoDup| |done].
  eapply Forall_impl; [exact Hlow|]. intros n Hn. cbn in Hn.
  assert (next_counter (exec (initialize_session env) w0) = 1) as Hone.
  { unfold initialize_session, next_counter.
    open_fs w0; run_prims; destruct cps, pgs, rps; run_prims; done. }
  lia.
Qed.

(** ** Every counter drawn, returned or not *)

Lemma str_head (n : Z) :
  0 <= n ->
  exists c t, Py.str n = String c t /\ Ascii.eqb c "-" = false.
Proof.
  intros Hn. unfold Py.str. destruct n as [|p|p]; [by eexists _, _| |lia].
  cbn [Z.to_int NilZero.string_of_int].
  destruct (Pos.to_uint p) as [|d|d|d|d|d|d|d|d|d|d];
    by eexists _, _.
Qed.

Lemma embedded_counter_format (n : Z) (s : string) :
  embedded_counter ("CP_" +:+ Py.format_03d n +:+ "_" +:+ s) = n.
Proof.
  destruct (Z.ltb_spec n 0) as [Hn|Hn].
  - unfold Py.format_03d. rewrite (proj2 (Z.ltb_lt n 0)) by done.
    cbn [String.append embedded_counter]. cbn [Ascii.eqb Bool.eqb].
    rewrite !append_assoc, read_digits_zeros, read_digits_str by (done || lia).
    lia.
  - pose proof (counter_of_id_format n s Hn) as Hread.
    rewrite <- Hread at 2. clear Hread.
    unfold Py.format_03d. rewrite (proj2 (Z.ltb_ge n 0)) by done.
    rewrite Z.abs_eq by done.
    cbn [String.append embedded_counter counter_of_id String.length].
    destruct (3 - 0 - String.length (Py.str n))%nat as [|k].
    + destruct (str_head n Hn) as (c & t & -> & Hc).
      cbn [Py.zeros String.append]. by rewrite Hc.
    + cbn [Py.zeros String.append]. done.
Qed.

Lemma embedded_counter_built (n : Z) (s : string) :
  embedded_counter
    (String "C" (String "P" (String "_" (Py.format_03d n +:+ String "_" s))))
    = n.
Proof. exact (embedded_counter_format n s). Qed.

Ltac read_counter :=
  first [apply embedded_counter_built | exact (embedded_counter_format 1 _)].

Ltac draw_done :=
  repeat match goal with |- _ /\ _ => split end;
  try done; try lia;
  try (intros id [= <-]; read_counter);
  try (intros s0 [= <-];
       first
         [ eexists _, []; split; [reflexivity|];
           split; [by rewrite app_nil_r|]; split; [constructor|]; by intros id
         | eexists _, [_]; split; [reflexivity|]; split; [reflexivity|];
           split; [repeat constructor; read_counter|];
           intros id; first [by intros [= <-] | done] ]).

Lemma run_creation_draw (w : World) (c : Creation) :
  let st := {| before := w; creation := c;
               returned := result (run_creation env c) w |} in
  if draws st
  then carries env st (next_counter w) /\
       next_counter (after env st) = next_counter w + 1
  else idle env st /\ next_counter (after env st) = next_counter w.
Proof.
  unfold draws, carries, idle, after, created. cbn [before creation returned].
  destruct c as [page_name st|page_name phase st|].
  - open_fs w.
    2:{ rewrite bool_decide_eq_false_2 by (by intros [? ?]).
        unfold run_creation, create_checkpoint. run_prims. done. }
    rewrite bool_decide_eq_true_2 by (by eexists).
    unfold run_creation, create_checkpoint, mark_completed. run_prims.
    destruct ctr as [n|], sess as [s|]; run_prims; try draw_done.
    all: destruct (bool_decide (st = "SUCCESS")); run_prims; try draw_done.
    all: try (destruct (bool_decide (total_pages _ = 0)); run_prims;
              try draw_done).
    all: destruct cps; run_prims; draw_done.
  - open_fs w.
    2:{ rewrite bool_decide_eq_false_2 by (by intros [? ?]).
        unfold run_creation, create_micro_checkpoint. run_prims. done. }
    rewrite bool_decide_eq_true_2 by (by eexists).
    unfold run_creation, create_micro_checkpoint. run_prims.
    destruct ctr as [n|], sess as [s|]; run_prims; draw_done.
  - unfold run_creation, init_system. open_fs w; run_prims.
    all: destruct pgs; run_prims; done.
Qed.

Lemma run_creations_draws (cs : list Creation) : forall w,
  exists ns : list Z,
    StronglySorted Z.lt ns /\
    Forall (fun n => next_counter w <= n) ns /\
    Forall2 (carries env) (filter draws (run_creations env cs w)) ns /\
    Forall (fun st => draws st = false -> idle env st) (run_creations env cs w).
Proof.
  induction cs as [|c cs IH]; intros w; cbn [run_creations].
  { exists []. repeat constructor. }
  pose proof (run_creation_draw w c) as Hstep. cbn zeta in Hstep.
  unfold after, result, exec in Hstep. cbn [before creation] in Hstep.
  destruct (run_creation env c w) as [w' r] eqn:Hrun.
  cbn [fst snd] in Hstep.
  destruct (IH w') as (ns & Hsorted & Hlow & Hall & Hidle).
  destruct (draws {| before := w; creation := c; returned := r |}) eqn:Hdraws.
  - destruct Hstep as [Hcarries Hnext].
    exists (next_counter w :: ns). split; [|split; [|split]].
    + constructor; [done|].
      eapply Forall_impl; [exact Hlow|]. intros n Hn. cbn in Hn. lia.
    + constructor; [lia|].
      eapply Forall_impl; [exact Hlow|]. intros n Hn. cbn in Hn. lia.
    + rewrite filter_cons_True by (rewrite Hdraws; exact I).
      constructor; [exact Hcarries|done].
    + constructor; [|done]. by rewrite Hdraws.
  - destruct Hstep as [Hstay Hnext].
    exists ns. split; [done|]. split; [|split].
    + eapply Forall_impl; [exact Hlow|]. intros n Hn. cbn in Hn. lia.
    + rewrite filter_cons_False by (rewrite Hdraws; exact id). done.
    + constructor; [|done]. intros _.
      exact Hstay.
Qed.

(** C1: in every run of macro and micro checkpoint creations and process
    restarts, from any state of the disk, the counters drawn from
    [get_next_checkpoint_counter] are strictly increasing, hence pairwise
    distinct, over all the creations that draw one, whether they return or
    raise afterwards.  Each creation leaves its counter plus one in the
    counter file, and its counter is the number written in the identifier
    it returns and in every history entry it saves.  The other steps, a
    restart or a creation without the [session_state] directory, return no
    identifier and leave the counter file as it is. *)
Theorem checkpoint_counter_strictly_increasing (cs : list Creation) (w : World) :
  let steps := run_creations env cs w in
  exists ns : list Z,
    StronglySorted Z.lt ns /\
    NoDup ns /\
    Forall2 (carries env) (filter draws steps) ns /\
    Forall (fun st => draws st = false -> idle env st) steps.
Proof.
  intros steps.
  destruct (run_creations_draws cs w) as (ns & Hsorted & _ & Hall & Hidle).
  exists ns. split; [done|]. split; [|done].
  by apply StronglySorted_lt_NoDup.
Qed.

End Audit.

(** ** The properties on the sample run *)

Lemma sample_world_ready : ready 0 [(None, "SUCCESS")] sample_world.
Proof.
  exists sample_session. split; [split|].
  - vm_compute. reflexivity.
  - eexists. vm_compute. reflexivity.
  - split; [eexists; vm_compute; reflexivity|].
    split; [discriminate|]. split; vm_compute; reflexivity.
Defined.

Example sample_audit :
  result (audit_page sample_env "home") sample_world = Ok true /\
  result (audit_page sample_env "scan") sample_world = Ok false /\
  result (audit_page sample_env "no-such-page") sample_world = Ok false.
Proof. vm_compute. repeat split; reflexivity. Qed.

Lemma pages_partition_invariant_witness :
  Forall registry_page sample_operations /\
  exists s,
    session_of (fs (exec_operations sample_env sample_operations
                      (exec (initialize_session sample_env) empty_world)))
      = Some s /\
    pages_completed (progress s) ## pages_remaining (progress s) /\
    forall q, q ∈ pages_completed (progress s) \/ q ∈ pages_remaining (progress s)
              <-> q ∈ pages_keys.
Proof.
  assert (Forall registry_page sample_operations) as Hos.
  { repeat constructor; apply (bool_decide_unpack _); vm_compute; exact I. }
  split; [exact Hos|].
  exact (pages_partition_invariant sample_env empty_world sample_operations Hos).
Defined.

Lemma error_total_invariant_witness :
  Forall severity_level counted_operations /\
  exists s,
    session_of (fs (exec_operations sample_env counted_operations
                      (exec (initialize_session sample_env) empty_world)))
      = Some s /\
    total (error_summary s) =
      critical (error_summary s) + high (error_summary s)
      + medium (error_summary s) + low (error_summary s).
Proof.
  assert (Forall severity_level counted_operations) as Hos.
  { repeat constructor; apply (bool_decide_unpack _); vm_compute; exact I. }
  split; [exact Hos|].
  exact (error_total_invariant sample_env empty_world counted_operations Hos).
Defined.

Lemma micro_checkpoint_frame_witness :
  session_of (fs sample_world) = Some sample_session /\
  exists id timestamp s',
    result (create_micro_checkpoint sample_env "home" "accessibility_start"
              "IN_PROGRESS") sample_world = Ok id /\
    session_of (fs (exec (create_micro_checkpoint sample_env "home"
                            "accessibility_start" "IN_PROGRESS") sample_world))
      = Some s' /\
    checkpoint_history s' =
      checkpoint_history sample_session
      ++ [MicroInfo id timestamp "MICRO" "home" "accessibility_start" "IN_PROGRESS"] /\
    checkpoints (fs (exec (create_micro_checkpoint sample_env "home"
                             "accessibility_start" "IN_PROGRESS") sample_world))
      = checkpoints (fs sample_world) /\
    progress s' = progress sample_session /\
    error_summary s' = error_summary sample_session.
Proof.
  assert (session_of (fs sample_world) = Some sample_session) as Hs
    by (vm_compute; reflexivity).
  split; [exact Hs|].
  destruct (micro_checkpoint_frame sample_env sample_world sample_session
              "home" "accessibility_start" "IN_PROGRESS" Hs)
    as (id & timestamp & s' & Hid & Hs' & Hh & Hc & _ & _ & _ & Hp & He & _).
  exists id, timestamp, s'. repeat split; assumption.
Defined.

Lemma accessibility_thresholds_witness :
  session_of (fs sample_world) = Some sample_session /\
  pages_dir (fs sample_world) = Some ∅ /\
  requests_get sample_env (requests_sent sample_world)
    "http://localhost:3000/" 10 = Responded sample_response /\
  result (test_page_accessibility sample_env "home" "http://localhost:3000/")
    sample_world = Ok true /\
  session_of (fs (exec (test_page_accessibility sample_env "home"
                          "http://localhost:3000/") sample_world))
    = Some sample_session.
Proof.
  assert (session_of (fs sample_world) = Some sample_session) as Hs
    by (vm_compute; reflexivity).
  assert (pages_dir (fs sample_world) = Some ∅) as Hpg
    by (vm_compute; reflexivity).
  assert (requests_get sample_env (requests_sent sample_world)
            "http://localhost:3000/" 10 = Responded sample_response) as Hget
    by reflexivity.
  destruct (accessibility_thresholds sample_env sample_world sample_session ∅
              "home" "http://localhost:3000/" sample_response Hs Hpg Hget)
    as (test_results & timestamp & _ & _ & _ & _ & Hsample).
  destruct (Hsample eq_refl eq_refl eq_refl) as (_ & Hresult & Hsession).
  repeat split; assumption.
Defined.

Lemma audit_page_overall_status_witness :
  ready 0 [(None, "SUCCESS")] sample_world /\
  pages_get "home" pages
    = Some {| url := "http://localhost:3000/"; name := "Home";
              category := "core"; risk_level := "low" |} /\
  exists a f : bool,
    result (test_page_accessibility sample_env "home" "http://localhost:3000/")
      sample_world = Ok a /\
    result (audit_page sample_env "home") sample_world = Ok (a && f).
Proof.
  split; [exact sample_world_ready|]. split; [reflexivity|].
  destruct (audit_page_overall_status sample_env sample_world 0%nat
              [(None, "SUCCESS")] "home" _ sample_world_ready eq_refl)
    as (a & nv & f & Ha & _ & _ & Hresult & _).
  exists a, f. split; [|exact Hresult].
  exact (Ha sample_world _ sample_world_ready).
Defined.

Lemma test_error_handling_always_succeeds_witness :
  ready 0 [(None, "SUCCESS")] sample_world /\
  result (test_error_handling sample_env "home" "http://localhost:3000/")
    sample_world = Ok true.
Proof.
  split; [exact sample_world_ready|].
  exact (proj1 (proj2 (test_error_handling_always_succeeds sample_env))
           sample_world 0%nat _ "home" "http://localhost:3000/"
           sample_world_ready).
Defined.

Lemma health_score_formula_witness :
  session_of (fs tally_world) = Some tally_session /\
  reports (fs tally_world) = Some ∅ /\
  exists (files : gmap string ReportFile) json_file summary,
    reports (fs (exec (generate_final_report sample_env) tally_world))
      = Some files /\
    files !! json_file = Some (ReportJson summary) /\
    health_score summary = 52.
Proof.
  assert (session_of (fs tally_world) = Some tally_session) as Hs
    by (vm_compute; reflexivity).
  assert (reports (fs tally_world) = Some ∅) as Hrp
    by (vm_compute; reflexivity).
  split; [exact Hs|]. split; [exact Hrp|].
  destruct (health_score_formula sample_env tally_world tally_session ∅ Hs Hrp)
    as (md_file & json_file & generated & duration_end & summary
        & _ & Hreports & _ & _ & Hsample).
  eexists _, json_file, summary.
  split; [exact Hreports|]. split; [apply lookup_insert_eq|].
  exact (Hsample eq_refl eq_refl eq_refl eq_refl).
Defined.

(** ** Further properties on the sample run *)

Lemma update_error_count_severity_witness :
  session_of (fs sample_world) = Some sample_session /\
  "high" ∈ ["critical"; "high"; "medium"; "low"] /\
  result (update_error_count "high") sample_world = Ok tt /\
  session_of (fs (exec (update_error_count "high") sample_world)) =
    Some (set_error_summary
            (count_error (Some "high") (error_summary sample_session))
            sample_session).
Proof.
  assert ("high" ∈ ["critical"; "high"; "medium"; "low"]) as Hin.
  { apply (bool_decide_unpack _). vm_compute. exact I. }
  pose proof (update_error_count_severity sample_world sample_session "high"
                sample_world_session Hin) as H.
  cbv zeta in H. destruct H as (Hres & Hs & _).
  split; [exact sample_world_session|]. split; [exact Hin|].
  split; [exact Hres|exact Hs].
Defined.

Lemma update_error_count_unknown_key_witness :
  ("severe" ∉ ["critical"; "high"; "medium"; "low"; "total"]) /\
  result (update_error_count "severe") sample_world = Raise (KeyError "severe").
Proof.
  assert ("severe" ∉ ["critical"; "high"; "medium"; "low"; "total"]) as Hout.
  { apply (bool_decide_unpack _). vm_compute. exact I. }
  split; [exact Hout|].
  unfold result.
  rewrite (update_error_count_unknown_key sample_world "severe" Hout).
  rewrite sample_world_session. reflexivity.
Defined.

Lemma update_error_count_total_key_witness :
  session_of (fs sample_world) = Some sample_session /\
  exists s',
    session_of (fs (exec (update_error_count "total") sample_world)) = Some s' /\
    total (error_summary s') = 2 /\
    low (error_summary s') = 0.
Proof.
  split; [exact sample_world_session|].
  destruct (update_error_count_total_key sample_world sample_session
              sample_world_session)
    as (_ & s' & Hs' & Htotal & _ & _ & _ & Hlow).
  exists s'. split; [exact Hs'|]. split; [exact Htotal|exact Hlow].
Defined.

Lemma create_checkpoint_snapshot_witness :
  session_of (fs sample_world) = Some sample_session /\
  checkpoints (fs sample_world) = Some ∅ /\
  total_pages (progress sample_session) <> 0 /\
  exists s',
    result (create_checkpoint sample_env "home" "SUCCESS") sample_world
      = Ok (macro_checkpoint_id (next_counter sample_world) "home") /\
    checkpoints (fs (exec (create_checkpoint sample_env "home" "SUCCESS")
                       sample_world))
      = Some (<["checkpoint_"
                +:+ macro_checkpoint_id (next_counter sample_world) "home"
                +:+ ".json" := s']> ∅).
Proof.
  assert (checkpoints (fs sample_world) = Some ∅) as Hc
    by (vm_compute; reflexivity).
  assert (total_pages (progress sample_session) <> 0) as Hp by discriminate.
  pose proof (create_checkpoint_snapshot sample_env sample_world sample_session
                ∅ "home" "SUCCESS" sample_world_session Hc (fun _ => Hp)) as H.
  cbv zeta in H. destruct H as (timestamp & s' & Hres & _ & Hfile & _).
  split; [exact sample_world_session|]. split; [exact Hc|]. split; [exact Hp|].
  exists s'. split; [exact Hres|exact Hfile].
Defined.

Lemma create_checkpoint_without_checkpoints_dir_witness :
  session_of (fs bare_world) = Some sample_session /\
  checkpoints (fs bare_world) = None /\
  result (create_checkpoint sample_env "home" "FAILED") bare_world
    = Raise (FileNotFoundError
               ("checkpoints/checkpoint_"
                +:+ macro_checkpoint_id (next_counter bare_world) "home"
                +:+ ".json")) /\
  next_counter (exec (create_checkpoint sample_env "home" "FAILED") bare_world)
    = next_counter bare_world + 1.
Proof.
  pose proof (create_checkpoint_without_checkpoints_dir sample_env bare_world
                sample_session "home" "FAILED" eq_refl eq_refl
                (fun Hst => ltac:(discriminate Hst))) as H.
  cbv zeta in H. destruct H as (timestamp & s' & Hres & _ & _ & _ & _ & Hnext).
  split; [reflexivity|]. split; [reflexivity|]. split; [exact Hres|exact Hnext].
Defined.

Lemma checkpoint_without_session_witness :
  session_of (fs empty_world) = None /\
  exec (create_checkpoint sample_env "home" "SUCCESS") empty_world = empty_world /\
  exec (create_micro_checkpoint sample_env "home" "accessibility_start"
          "IN_PROGRESS") empty_world = empty_world.
Proof.
  pose proof (checkpoint_without_session sample_env empty_world "home"
                "accessibility_start" "SUCCESS" eq_refl) as H.
  cbv zeta beta in H.
  destruct H as [(_ & _ & _ & _ & Hmacro) _].
  pose proof (checkpoint_without_session sample_env empty_world "home"
                "accessibility_start" "IN_PROGRESS" eq_refl) as H.
  cbv zeta beta in H.
  destruct H as [_ (_ & _ & _ & _ & Hmicro)].
  split; [reflexivity|]. split; [exact (Hmacro eq_refl)|exact (Hmicro eq_refl)].
Defined.

Lemma audit_page_not_started_witness :
  pages_get "no-such-page" pages = None /\
  audit_page sample_env "no-such-page" sample_world = (sample_world, Ok false) /\
  is_Some (pages_get "home" pages) /\
  session_of (fs empty_world) = None /\
  audit_page sample_env "home" empty_world
    = (empty_world, Raise (FileNotFoundError session_path)).
Proof.
  assert (is_Some (pages_get "home" pages)) as Hhome by (eexists; reflexivity).
  split; [reflexivity|].
  split; [exact (proj1 (audit_page_not_started sample_env sample_world
                          "no-such-page") eq_refl)|].
  split; [exact Hhome|]. split; [reflexivity|].
  exact (proj2 (audit_page_not_started sample_env empty_world "home")
           Hhome eq_refl).
Defined.

Lemma full_audit_server_down_witness :
  (forall r, requests_get down_env (requests_sent sample_world)
               "http://localhost:3000" 5 = Responded r ->
             status_code r <> 200) /\
  result (full_audit down_env) sample_world = Ok tt /\
  fs (exec (full_audit down_env) sample_world) = fs sample_world.
Proof.
  assert (forall r, requests_get down_env (requests_sent sample_world)
                      "http://localhost:3000" 5 = Responded r ->
                    status_code r <> 200) as Hdown.
  { intros r Hr. discriminate Hr. }
  destruct (full_audit_server_down down_env sample_world Hdown)
    as (Hres & Hfs & _).
  split; [exact Hdown|]. split; [exact Hres|exact Hfs].
Defined.

Lemma navigation_verdict_witness :
  session_of (fs sample_world) = Some sample_session /\
  pages_dir (fs sample_world) = Some ∅ /\
  requests_get sample_env (requests_sent sample_world)
    "http://localhost:3000/" 10 = Responded sample_response /\
  result (test_page_navigation sample_env "home" "http://localhost:3000/")
    sample_world
    = Ok (bool_decide (2 <= markers_found (Py.lower (text sample_response)))).
Proof.
  assert (pages_dir (fs sample_world) = Some ∅) as Hpg
    by (vm_compute; reflexivity).
  pose proof (navigation_verdict sample_env sample_world sample_session ∅
                "home" "http://localhost:3000/" sample_response
                sample_world_session Hpg eq_refl) as H.
  cbv zeta in H. destruct H as (timestamp & Hres & _).
  split; [exact sample_world_session|]. split; [exact Hpg|].
  split; [reflexivity|exact Hres].
Defined.


Lemma error_handling_effects_witness :
  session_of (fs sample_world) = Some sample_session /\
  pages_dir (fs sample_world) = Some ∅ /\
  exists test_results,
    result (test_error_handling sample_env "home" "http://localhost:3000/")
      sample_world = Ok true /\
    map (fun t => (test t, status t)) test_results
      = [("404_handling", WARN); ("error_boundaries", PASS)].
Proof.
  assert (pages_dir (fs sample_world) = Some ∅) as Hpg
    by (vm_compute; reflexivity).
  pose proof (error_handling_effects sample_env sample_world sample_session ∅
                "home" "http://localhost:3000/" sample_world_session Hpg) as H.
  cbv zeta in H.
  destruct H as (timestamp & test_results & Hres & _ & _ & Hstatus).
  split; [exact sample_world_session|]. split; [exact Hpg|].
  exists test_results. split; [exact Hres|].
  rewrite Hstatus. vm_compute. reflexivity.
Defined.

Lemma network_failure_witness :
  session_of (fs sample_world) = Some sample_session /\
  pages_dir (fs sample_world) = Some ∅ /\
  requests_get down_env (requests_sent sample_world)
    "http://localhost:3000/" 10 = RequestException "connection refused" /\
  result (test_page_accessibility down_env "home" "http://localhost:3000/")
    sample_world = Ok false /\
  result (test_page_navigation down_env "home" "http://localhost:3000/")
    sample_world = Ok false /\
  result (test_page_functionality down_env "home" "http://localhost:3000/")
    sample_world = Ok false.
Proof.
  assert (pages_dir (fs sample_world) = Some ∅) as Hpg
    by (vm_compute; reflexivity).
  pose proof (network_failure down_env sample_world sample_session ∅
                "home" "http://localhost:3000/" "connection refused"
                sample_world_session Hpg eq_refl) as H.
  cbv zeta beta in H.
  destruct H as ((? & Ha & _) & (? & Hn & _) & (? & Hf & _)).
  split; [exact sample_world_session|]. split; [exact Hpg|].
  split; [reflexivity|]. split; [exact Ha|]. split; [exact Hn|exact Hf].
Defined.

Lemma completion_percentage_invariant_witness :
  Forall registry_page sample_operations /\
  exists s,
    session_of (fs (exec_operations sample_env sample_operations
                      (exec (initialize_session sample_env) empty_world)))
      = Some s /\
    completion_percentage (progress s) =
      Py.round1_div (Z.of_nat (length (pages_completed (progress s))) * 100) 13.
Proof.
  assert (Forall registry_page sample_operations) as Hos.
  { repeat constructor; apply (bool_decide_unpack _); vm_compute; exact I. }
  split; [exact Hos|].
  destruct (completion_percentage_invariant sample_env empty_world
              sample_operations Hos) as (s & Hs & H).
  cbv zeta in H. destruct H as (_ & _ & Hpct & _).
  exists s. split; [exact Hs|exact Hpct].
Defined.

Lemma audit_page_progress_witness :
  ready 0 [(None, "SUCCESS")] sample_world /\
  session_of (fs sample_world) = Some sample_session /\
  is_Some (pages_get "scan" pages) /\
  exists (v : bool) s',
    result (audit_page sample_env "scan") sample_world = Ok v /\
    session_of (fs (exec (audit_page sample_env "scan") sample_world))
      = Some s' /\
    (if v then mark_completed "scan" (progress sample_session)
               = Ok (progress s')
     else progress s' = progress sample_session).
Proof.
  assert (is_Some (pages_get "scan" pages)) as Hscan by (eexists; reflexivity).
  pose proof (audit_page_progress sample_env sample_world 0%nat
                [(None, "SUCCESS")] sample_session "scan"
                sample_world_ready sample_world_session Hscan) as H.
  cbv zeta in H. destruct H as (v & s' & Hres & Hs' & Hprogress & _).
  split; [exact sample_world_ready|]. split; [exact sample_world_session|].
  split; [exact Hscan|].
  exists v, s'. split; [exact Hres|]. split; [exact Hs'|exact Hprogress].
Defined.

Lemma audit_page_frame_any_witness :
  reports (fs (exec (audit_page sample_env "scan") bare_world))
    = reports (fs bare_world) /\
  forall s',
    session_of (fs (exec (audit_page sample_env "scan") bare_world)) = Some s' ->
    result (audit_page sample_env "scan") bare_world = Ok false ->
    progress s' = progress sample_session.
Proof.
  pose proof (audit_page_frame_any sample_env bare_world "scan") as H.
  cbv zeta in H. destruct H as [Hreports Hprogress].
  split; [exact Hreports|].
  intros s'. exact (Hprogress sample_session s' eq_refl).
Defined.

Lemma report_reads_only_witness :
  session_of (fs empty_world) = None /\
  result (generate_final_report sample_env) empty_world
    = Raise (FileNotFoundError session_path) /\
  is_Some (session_of (fs bare_world)) /\
  reports (fs bare_world) = None /\
  fs (exec (generate_final_report sample_env) bare_world) = fs bare_world.
Proof.
  assert (is_Some (session_of (fs bare_world))) as Hs by (eexists; reflexivity).
  pose proof (report_reads_only sample_env empty_world) as He.
  cbv zeta in He. destruct He as (_ & _ & _ & He & _).
  pose proof (report_reads_only sample_env bare_world) as Hb.
  cbv zeta in Hb. destruct Hb as (_ & _ & _ & _ & Hb).
  split; [reflexivity|]. split; [exact (proj1 (He eq_refl))|].
  split; [exact Hs|]. split; [reflexivity|].
  exact (proj2 (Hb Hs eq_refl)).
Defined.

Lemma report_status_witness :
  session_of (fs tally_world) = Some tally_session /\
  reports (fs tally_world) = Some ∅ /\
  exists (files : gmap string ReportFile) json_file summary,
    reports (fs (exec (generate_final_report sample_env) tally_world))
      = Some files /\
    files !! json_file = Some (ReportJson summary) /\
    summary_status summary = "NEEDS_ATTENTION".
Proof.
  assert (session_of (fs tally_world) = Some tally_session) as Hs
    by (vm_compute; reflexivity).
  assert (reports (fs tally_world) = Some ∅) as Hr
    by (vm_compute; reflexivity).
  pose proof (report_status sample_env tally_world tally_session ∅ Hs Hr) as H.
  cbv zeta in H.
  destruct H as (json_file & files & summary & Hfiles & Hjson & _ & Hbad & _).
  split; [exact Hs|]. split; [exact Hr|].
  exists files, json_file, summary.
  split; [exact Hfiles|]. split; [exact Hjson|].
  apply Hbad. vm_compute. reflexivity.
Defined.

Lemma full_audit_ready_witness :
  ready 0 [(None, "SUCCESS")] sample_world /\
  is_Some (reports (fs sample_world)) /\
  requests_get sample_env 0 "http://localhost:3000" 5
    = Responded sample_response /\
  status_code sample_response = 200 /\
  exists s',
    result (full_audit sample_env) sample_world = Ok tt /\
    session_of (fs (exec (full_audit sample_env) sample_world)) = Some s' /\
    length (checkpoint_history s') = 118%nat /\
    requests_sent (exec (full_audit sample_env) sample_world) = 66%nat.
Proof.
  assert (is_Some (reports (fs sample_world))) as Hr
    by (eexists; vm_compute; reflexivity).
  pose proof (full_audit_ready sample_env sample_world 0%nat
                [(None, "SUCCESS")] sample_response
                sample_world_ready Hr eq_refl eq_refl) as H.
  cbv zeta in H.
  destruct H as (s' & files & json_file & summary
                 & Hres & Hs' & Hlen & Hreq & _).
  split; [exact sample_world_ready|]. split; [exact Hr|].
  split; [reflexivity|]. split; [reflexivity|].
  exists s'. split; [exact Hres|]. split; [exact Hs'|].
  split; [exact Hlen|exact Hreq].
Defined.

Lemma main_status_reads_only_witness :
  args_init status_args = false /\
  args_full_audit status_args = false /\
  given (args_audit_page status_args) = false /\
  args_status status_args = true /\
  result (main sample_env status_args) empty_world = Ok tt /\
  session_state (fs (exec (main sample_env status_args) empty_world)) = None.
Proof.
  destruct (main_status_reads_only sample_env status_args empty_world
              eq_refl eq_refl eq_refl eq_refl) as (Hmain & Hss & _).
  do 4 (split; [reflexivity|]).
  unfold result, exec. rewrite Hmain. split; [reflexivity|exact Hss].
Defined.

Lemma main_audit_page_session_witness :
  args_init audit_page_args = false /\
  args_full_audit audit_page_args = false /\
  args_audit_page audit_page_args = Some "home" /\
  "home" <> EmptyString /\
  extends sample_session (exec (main sample_env audit_page_args) sample_world).
Proof.
  assert ("home" <> EmptyString) as Hname by discriminate.
  pose proof (main_audit_page_session sample_env audit_page_args sample_world
                "home" eq_refl eq_refl eq_refl Hname) as H.
  cbv zeta in H. rewrite sample_world_session in H.
  do 3 (split; [reflexivity|]). split; [exact Hname|exact H].
Defined.

Lemma checkpoint_id_injective_witness :
  0 <= 7 /\
  is_Some (id_with (Macro "scan" "FAILED") 7) /\
  id_with (Macro "scan" "FAILED") 7 = id_with (Macro "scan" "SUCCESS") 7 /\
  7 = 7.
Proof.
  assert (0 <= 7) as Hn by discriminate.
  assert (is_Some (id_with (Macro "scan" "FAILED") 7)) as Hid
    by (eexists; reflexivity).
  split; [exact Hn|]. split; [exact Hid|]. split; [reflexivity|].
  exact (checkpoint_id_injective (Macro "scan" "FAILED") (Macro "scan" "SUCCESS")
           7 7 Hn Hn Hid eq_refl).
Defined.

(** A creation that raises after it saved its entry has drawn its counter
    all the same, and the creation after a restart draws the next one. *)
Example raising_creation_draws :
  let steps :=
    run_creations sample_env
      [Macro "home" "FAILED"; Restart; Micro "home" "nav" "IN_PROGRESS"]
      bare_world in
  map returned steps =
    [Raise (FileNotFoundError
              "checkpoints/checkpoint_CP_004_HOME_COMPLETE.json");
     Ok None;
     Ok (Some "CP_005_HOME_NAV")] /\
  map draws steps = [true; false; true] /\
  option_map (fun s => map entry_id (checkpoint_history s))
    (session_of (fs (exec (create_checkpoint sample_env "home" "FAILED")
                       bare_world)))
    = Some ["CP_000_INIT"; "CP_004_HOME_COMPLETE"].
Proof. vm_compute. repeat split; reflexivity. Qed.
